(** * pocFactura: invoice reconciliation, inventory ledger and document registry

    A shallow embedding of the Python sources

      - [Document_Scanner/invoice_scanner_pro.py] (merge sort, fuzzy matcher,
        [DataManager], the ledger operations of [ModernApp]),
      - [src/invoice_core/matcher.py] ([match_descriptions]),
      - [src/invoice_core/gemini_patcher.py] ([GeminiMatcher]),

    together with the properties the design document states about them.

    Python [float] is IEEE binary64, embedded as Rocq's primitive [float];
    a [dict] with string keys is a [gmap string _]; a [str] is a [string]
    (a sequence of code points below 256, compared code point by code
    point as Python does).  Library functions the program only calls
    ([str.lower], [float(str)], [difflib.SequenceMatcher.ratio], [round],
    [json.loads], the pandas CSV writer and reader, the AI backend) are the
    fields of the class [PyLib]: every theorem holds whatever they compute. *)

From Stdlib Require Import ZArith List String Ascii Floats Lia Permutation Sorted.
From Stdlib Require OrderedTypeEx.
From Equations Require Import Equations.
From stdpp Require Import base option gmap strings list pretty.

Local Open Scope string_scope.

(** ** Python values and exceptions *)

(** Python values as the program handles them: [None], [bool], [int],
    [float], [str], and the [list] and [dict] a decoded JSON document is
    made of.  A NumPy scalar read from a table is the Python scalar of the
    same value. *)
#[local] Set Warnings "-register-all".

Inductive pyval : Type :=
| PNone
| PBool (b : bool)
| PInt (z : Z)
| PFloat (f : float)
| PStr (s : string)
| PList (items : list pyval)
| PDict (fields : list (string * pyval)).

(** A [dict] with string keys, such as an invoice line. *)
Abbreviation dict := (gmap string pyval).

(** The exceptions the modelled code raises or catches, with [str(e)]. *)
Inductive exn_kind : Type :=
| JSONDecodeError | ValueError | KeyError | TypeError | AttributeError
| OverflowError | IndexError | ImportError | OSError | OtherError.

Record exn : Type := Raise { exn_class : exn_kind; exn_msg : string }.

(** A computation that may raise: [inl v] returns [v], [inr e] raises [e]. *)
Definition Exc (A : Type) : Type := (A + exn)%type.

Definition ret {A} (a : A) : Exc A := inl a.
Definition throw {A} (k : exn_kind) (msg : string) : Exc A := inr (Raise k msg).

Definition bind {A B} (m : Exc A) (f : A -> Exc B) : Exc B :=
  match m with
  | inl a => f a
  | inr e => inr e
  end.

Notation "'let!' x ':=' m 'in' k" := (bind m (fun x => k))
  (at level 10, x name, m at level 100, k at level 200, only parsing).

(** [except (JSONDecodeError, KeyError, ValueError)]: [JSONDecodeError] is a
    subclass of [ValueError]. *)
Definition is_value_or_key_error (e : exn) : bool :=
  match exn_class e with
  | JSONDecodeError | ValueError | KeyError => true
  | _ => false
  end.

(** [except (ValueError, TypeError)]. *)
Definition is_value_or_type_error (e : exn) : bool :=
  match exn_class e with
  | JSONDecodeError | ValueError | TypeError => true
  | _ => false
  end.

(** [except ValueError]. *)
Definition is_value_error (e : exn) : bool :=
  match exn_class e with
  | JSONDecodeError | ValueError => true
  | _ => false
  end.

(** A lexical match: the dict [{"matched_code", "matched_description",
    "score"}] built per catalog row. *)
Record Candidate : Type := {
  matched_code : pyval;
  matched_description : pyval;
  score : float;
}.

(** ** The library interface *)

Class PyLib : Type := {
  (** [s.lower()] *)
  str_lower : string -> string;
  (** [float(s)] on a [str]: [None] stands for [ValueError] *)
  float_of_str : string -> option float;
  (** [str(x)] on a [float] that is not NaN *)
  float_repr : float -> string;
  (** [str(n)] on an [int] *)
  int_repr : Z -> string;
  (** [float(n)] on an [int]: [None] stands for [OverflowError] *)
  float_of_int : Z -> option float;
  (** [str(v)] on a [list] or a [dict] *)
  container_repr : pyval -> string;
  (** [difflib.SequenceMatcher(None, a, b).ratio()] *)
  sequence_ratio : string -> string -> float;
  (** [round(x, 4)] *)
  round4 : float -> float;
  (** [json.loads(s)]: [None] stands for [JSONDecodeError] *)
  json_loads : string -> option pyval;
  (** [code == selected] between a catalog code and a decoded JSON value,
      taken as a condition: comparing a NumPy scalar with a list can raise *)
  code_eq : pyval -> pyval -> Exc bool;
  (** the text [_build_analysis_prompt] formats from the description and the
      candidates *)
  build_analysis_prompt : pyval -> list Candidate -> string;
  (** what [pandas.read_csv] returns for the file that
      [pandas.DataFrame(records).to_csv(path, index=False)] wrote: the
      column labels and the rows, or nothing when reading raises *)
  csv_roundtrip : list dict -> option (list string * list dict);
  (** [json.dumps(v, indent=2, ensure_ascii=False)] *)
  json_dumps : pyval -> string;
  (** [a == b] between two values of a decoded store *)
  value_eq : pyval -> pyval -> bool;
}.

(** ** Classic algorithms ([invoice_scanner_pro.py], lines 21-60) *)

(** [s.lower()] as a method call: only a [str] has the method. *)
Definition py_lower `{PyLib} (v : pyval) : Exc string :=
  match v with
  | PStr s => ret (str_lower s)
  | _ => throw AttributeError "object has no attribute 'lower'"
  end.

Section Algorithms.
Context `{PyLib} {A : Type}.

(** [key(x).lower()]: the key is a callable and may raise, and so may the
    method call on what it returns. *)
Definition lowered (key : A -> Exc pyval) (x : A) : Exc string :=
  let! v := key x in py_lower v.

(** [merge(left, right, key)]: the index loop takes the head of [left] while
    it is not above the head of [right]; what remains of either list is
    appended when the other runs out.  Each turn evaluates
    [key(left[i]).lower()], then [key(right[j]).lower()]. *)
Fixpoint merge (lft : list A) (rgt : list A) (key : A -> Exc pyval)
    : Exc (list A) :=
  let fix merge_right (rgt : list A) : Exc (list A) :=
    match lft, rgt with
    | [], _ => ret rgt
    | _, [] => ret lft
    | x :: lft', y :: rgt' =>
        match lowered key x with
        | inr e => inr e
        | inl kx =>
            match lowered key y with
            | inr e => inr e
            | inl ky =>
                if String.leb kx ky then
                  match merge lft' rgt key with
                  | inl rest => ret (x :: rest)
                  | inr e => inr e
                  end
                else
                  match merge_right rgt' with
                  | inl rest => ret (y :: rest)
                  | inr e => inr e
                  end
            end
        end
    end
  in merge_right rgt.

(** [merge_sort(arr, key)]: split at [len(arr) // 2], sort the left half,
    then the right half, merge.  A list of at most one item is returned as
    it is, and its key is not taken. *)
Equations? merge_sort (arr : list A) (key : A -> Exc pyval) : Exc (list A)
  by wf (length arr) lt :=
  merge_sort arr key with le_lt_dec (length arr) 1 => {
    | left _ => ret arr
    | right _ =>
        match merge_sort (take (length arr / 2) arr) key with
        | inr e => inr e
        | inl lft =>
            match merge_sort (drop (length arr / 2) arr) key with
            | inr e => inr e
            | inl rgt => merge lft rgt key
            end
        end }.
Proof.
  - rewrite length_take.
    assert (length arr / 2 < length arr)%nat by (apply Nat.div_lt; lia). lia.
  - rewrite length_drop.
    assert (0 < length arr / 2)%nat by (apply Nat.div_str_pos; lia). lia.
Qed.

(** [linear_search_all(arr, target, key)]: the indices of the items whose
    lowered key contains the lowered target. *)
Fixpoint is_prefix (p s : string) : bool :=
  match p, s with
  | EmptyString, _ => true
  | String a p', String b s' => if Ascii.eqb a b then is_prefix p' s' else false
  | String _ _, EmptyString => false
  end.

Fixpoint contains (needle hay : string) : bool :=
  is_prefix needle hay ||
  match hay with
  | EmptyString => false
  | String _ hay' => contains needle hay'
  end.

Fixpoint linear_search_from (i : nat) (arr : list A) (target_lower : string)
    (key : A -> Exc pyval) : Exc (list nat) :=
  match arr with
  | [] => ret []
  | item :: arr' =>
      let! lowered_key := lowered key item in
      let! rest := linear_search_from (S i) arr' target_lower key in
      ret ((if contains target_lower lowered_key then [i] else []) ++ rest)%list
  end.

Definition linear_search_all (arr : list A) (target : string)
    (key : A -> Exc pyval) : Exc (list nat) :=
  linear_search_from 0 arr (str_lower target) key.

(** *** The two algorithms under a key that does not raise

    [lkey x] is the lowered key of [x].  These are the algorithms above with
    every key evaluation replaced by its value; the properties of the sort
    and of the search are proved of them and carried over. *)

Definition key_le (lkey : A -> string) (x y : A) : bool :=
  String.leb (lkey x) (lkey y).

(** The lowered key of an item whose key evaluates (the empty string
    stands in where it raises). *)
Definition lowered_value (key : A -> Exc pyval) (x : A) : string :=
  match lowered key x with
  | inl k => k
  | inr _ => ""
  end.

(** The exception of the first item, in list order, whose lowered key
    raises. *)
Fixpoint first_raised (key : A -> Exc pyval) (arr : list A) : option exn :=
  match arr with
  | [] => None
  | x :: arr' =>
      match lowered key x with
      | inr e => Some e
      | inl _ => first_raised key arr'
      end
  end.

Fixpoint linear_search_total (i : nat) (arr : list A) (target_lower : string)
    (lkey : A -> string) : list nat :=
  match arr with
  | [] => []
  | item :: arr' =>
      (if contains target_lower (lkey item) then [i] else [])
      ++ linear_search_total (S i) arr' target_lower lkey
  end.

Fixpoint merge_total (lft : list A) (rgt : list A) (lkey : A -> string)
    : list A :=
  let fix merge_right (rgt : list A) : list A :=
    match lft, rgt with
    | [], _ => rgt
    | _, [] => lft
    | x :: lft', y :: rgt' =>
        if key_le lkey x y then x :: merge_total lft' rgt lkey
        else y :: merge_right rgt'
    end
  in merge_right rgt.

Equations? merge_sort_total (arr : list A) (lkey : A -> string) : list A
  by wf (length arr) lt :=
  merge_sort_total arr lkey with le_lt_dec (length arr) 1 => {
    | left _ => arr
    | right _ =>
        merge_total (merge_sort_total (take (length arr / 2) arr) lkey)
                    (merge_sort_total (drop (length arr / 2) arr) lkey) lkey }.
Proof.
  - rewrite length_take.
    assert (length arr / 2 < length arr)%nat by (apply Nat.div_lt; lia). lia.
  - rewrite length_drop.
    assert (0 < length arr / 2)%nat by (apply Nat.div_str_pos; lia). lia.
Qed.

End Algorithms.

(** ** Builtins on values and strings *)

(** [bool(v)]: the truth value of a condition. *)
Definition truthy (v : pyval) : bool :=
  match v with
  | PNone => false
  | PBool b => b
  | PInt z => negb (z =? 0)%Z
  | PFloat f => negb (f =? 0)%float
  | PStr s => negb (String.eqb s "")
  | PList items => negb (Nat.eqb (length items) 0)
  | PDict fields => negb (Nat.eqb (length fields) 0)
  end.

(** [str.isspace] on a code point below 256. *)
Definition is_space (a : ascii) : bool :=
  let n := nat_of_ascii a in
  ((9 <=? n) && (n <=? 13) || (28 <=? n) && (n <=? 32)
   || (n =? 133) || (n =? 160))%nat.

Fixpoint lstrip (s : string) : string :=
  match s with
  | String a s' => if is_space a then lstrip s' else s
  | EmptyString => EmptyString
  end.

Fixpoint string_rev (s : string) : string :=
  match s with
  | EmptyString => EmptyString
  | String a s' => string_rev s' ++ String a EmptyString
  end.

Definition rstrip (s : string) : string := string_rev (lstrip (string_rev s)).

(** [s.strip()] *)
Definition strip (s : string) : string := rstrip (lstrip s).

(** [s.startswith(p)] and [s.endswith(p)] *)
Definition startswith (s p : string) : bool := is_prefix p s.
Definition endswith (s p : string) : bool :=
  is_prefix (string_rev p) (string_rev s).

(** [s.split("\n")]: never empty. *)
Fixpoint split_lines (s : string) : list string :=
  match s with
  | EmptyString => [EmptyString]
  | String a s' =>
      if Ascii.eqb a "010"%char then EmptyString :: split_lines s'
      else match split_lines s' with
           | l :: ls => String a l :: ls
           | [] => [String a EmptyString]
           end
  end.

(** ["\n".join(ls)] *)
Fixpoint join_lines (ls : list string) : string :=
  match ls with
  | [] => EmptyString
  | [l] => l
  | l :: ls' => l ++ String "010"%char (join_lines ls')
  end.

Section Builtins.
Context `{PyLib}.

(** [str(v)] *)
Definition py_str (v : pyval) : string :=
  match v with
  | PNone => "None"
  | PBool true => "True"
  | PBool false => "False"
  | PInt z => int_repr z
  | PFloat f => if is_nan f then "nan" else float_repr f
  | PStr s => s
  | PList _ | PDict _ => container_repr v
  end.

(** [float(v)] *)
Definition py_float (v : pyval) : Exc float :=
  match v with
  | PFloat f => ret f
  | PInt z =>
      match float_of_int z with
      | Some f => ret f
      | None => throw OverflowError "int too large to convert to float"
      end
  | PBool b => ret (if b then 1 else 0)%float
  | PStr s =>
      match float_of_str s with
      | Some f => ret f
      | None => throw ValueError ("could not convert string to float: " ++ s)
      end
  | PNone | PList _ | PDict _ =>
      throw TypeError "float() argument must be a string or a real number"
  end.

End Builtins.

(** [d.get(k)] and [d.get(k, default)] on a decoded JSON value: only a
    [dict] has the method. *)
Fixpoint assoc (k : string) (fields : list (string * pyval)) : option pyval :=
  match fields with
  | [] => None
  | (k', v) :: fields' => if String.eqb k k' then Some v else assoc k fields'
  end.

Definition value_get (v : pyval) (k : string) (dflt : pyval) : Exc pyval :=
  match v with
  | PDict fields => ret (default dflt (assoc k fields))
  | _ => throw AttributeError "object has no attribute 'get'"
  end.

(** [v[k]] for a [str] [k]: the item of a dict under that key; no other
    value takes a [str] between the brackets. *)
Definition subscript (v : pyval) (k : string) : Exc pyval :=
  match v with
  | PDict fields =>
      match assoc k fields with
      | Some x => ret x
      | None => throw KeyError ("'" ++ k ++ "'")
      end
  | PStr _ => throw TypeError "string indices must be integers"
  | PList _ => throw TypeError "list indices must be integers or slices, not str"
  | _ => throw TypeError "object is not subscriptable"
  end.

(** ** The AI arbiter ([gemini_patcher.py]) *)

Module GeminiMatcher.
Section Arbiter.
Context `{PyLib}.

(** The dict [analyze_candidates] returns. *)
Record Result : Type := {
  res_matched_code : pyval;
  res_matched_description : pyval;
  res_confidence : float;
  res_reasoning : pyval;
  res_status : string;
  res_ai_method : option string;
}.

Definition _create_fallback_result (best_candidate : Candidate)
    (error_msg : string) : Result :=
  {| res_matched_code := matched_code best_candidate;
     res_matched_description := matched_description best_candidate;
     res_confidence := score best_candidate;
     res_reasoning :=
       PStr ("Analiza Gemini a esuat: " ++ error_msg
             ++ ". Folosesc cel mai bun rezultat fuzzy.");
     res_status := "gemini_fallback";
     res_ai_method := None |}.

Definition _create_no_match_result (description : pyval) : Result :=
  {| res_matched_code := PNone;
     res_matched_description := PNone;
     res_confidence := 0;
     res_reasoning := PStr "Niciun candidat disponibil din matching-ul fuzzy";
     res_status := "no_match";
     res_ai_method := None |}.

(** The loop over the lines of a fenced response: keep the lines from the
    first one that starts with an opening brace, stop after the first one
    that ends with a closing brace. *)
Fixpoint json_lines (in_json : bool) (lines : list string) : list string :=
  match lines with
  | [] => []
  | line :: rest =>
      let in_json := in_json || startswith (strip line) "{" in
      let kept := if in_json then [line] else [] in
      if endswith (strip line) "}" then kept
      else kept ++ json_lines in_json rest
  end.

(** The text handed to [json.loads]. *)
Definition unfenced (response_text : string) : string :=
  let response_text := strip response_text in
  if startswith response_text "```"
  then join_lines (json_lines false (split_lines response_text))
  else response_text.

(** [candidates[0]] *)
Definition first_candidate (candidates : list Candidate) : Exc Candidate :=
  match candidates with
  | c :: _ => ret c
  | [] => throw IndexError "list index out of range"
  end.

(** [next((c for c in candidates if c["matched_code"] == selected_code), None)] *)
Fixpoint find_candidate (candidates : list Candidate) (selected_code : pyval)
    : Exc (option Candidate) :=
  match candidates with
  | [] => ret None
  | c :: rest =>
      let! same := code_eq (matched_code c) selected_code in
      if same then ret (Some c) else find_candidate rest selected_code
  end.

(** [selected_code is None or selected_code == "null"] *)
Definition is_null_selection (selected_code : pyval) : bool :=
  match selected_code with
  | PNone => true
  | PStr s => String.eqb s "null"
  | _ => false
  end.

(** The [try] block of [_parse_gemini_response]. *)
Definition parse_body (response_text : string) (candidates : list Candidate)
    : Exc Result :=
  match json_loads (unfenced response_text) with
  | None => throw JSONDecodeError "Expecting value"
  | Some gemini_result =>
      let! selected_code := value_get gemini_result "selected_code" PNone in
      let! raw_confidence := value_get gemini_result "confidence" (PFloat 0.5) in
      let! confidence := py_float raw_confidence in
      let! reasoning :=
        value_get gemini_result "reasoning" (PStr "Nicio explicatie furnizata") in
      if is_null_selection selected_code then
        ret {| res_matched_code := PNone;
               res_matched_description := PNone;
               res_confidence := confidence;
               res_reasoning := reasoning;
               res_status := "gemini_no_match";
               res_ai_method := None |}
      else
        let! selected_candidate := find_candidate candidates selected_code in
        match selected_candidate with
        | None =>
            let! best := first_candidate candidates in
            ret (_create_fallback_result best
                   ("AI a ales un cod invalid (" ++ py_str selected_code
                    ++ ") care nu era in lista"))
        | Some c =>
            ret {| res_matched_code := matched_code c;
                   res_matched_description := matched_description c;
                   res_confidence := confidence;
                   res_reasoning := reasoning;
                   res_status := "gemini_analyzed";
                   res_ai_method := None |}
        end
  end.

(** [_parse_gemini_response]: the [except (json.JSONDecodeError, KeyError,
    ValueError)] clause turns those into the fallback; anything else leaves
    the method. *)
Definition _parse_gemini_response (response_text : string)
    (candidates : list Candidate) : Exc Result :=
  match parse_body response_text candidates with
  | inl result => ret result
  | inr e =>
      if is_value_or_key_error e then
        let! best := first_candidate candidates in
        ret (_create_fallback_result best "Nu s-a putut parsa raspunsul AI")
      else inr e
  end.

Definition with_ai_method (r : Result) : Result :=
  {| res_matched_code := res_matched_code r;
     res_matched_description := res_matched_description r;
     res_confidence := res_confidence r;
     res_reasoning := res_reasoning r;
     res_status := res_status r;
     res_ai_method := Some "gemini" |}.

(** [analyze_candidates]: [generate_content] is the backend call
    [self.model.generate_content(prompt).text], which may raise.  The
    [except Exception] clause catches whatever the call or the parsing
    raises. *)
Definition analyze_candidates (generate_content : string -> Exc string)
    (product_description : pyval) (candidates : list Candidate)
    (min_candidates : nat) : Result :=
  let candidates_to_analyze :=
    take (Nat.max min_candidates (length candidates)) candidates in
  match candidates_to_analyze with
  | [] => _create_no_match_result product_description
  | best :: _ =>
      let prompt :=
        build_analysis_prompt product_description candidates_to_analyze in
      match (let! response_text := generate_content prompt in
             let! result :=
               _parse_gemini_response response_text candidates_to_analyze in
             ret (with_ai_method result)) with
      | inl result => result
      | inr e => _create_fallback_result best (exn_msg e)
      end
  end.

End Arbiter.
End GeminiMatcher.

(** ** Tables and line records *)

(** A pandas [DataFrame]: its column labels and its rows, each row read by
    label.  A cell a row does not hold reads as NaN, as pandas pads. *)
Record DataFrame : Type := {
  columns : list string;
  rows : list dict;
}.

Definition cell (row : dict) (col : string) : pyval :=
  default (PFloat nan) (row !! col).

(** Invoice lines are dicts the matchers update in place, and the result
    list holds the very objects of the input list: a list of lines is a
    list of references into a store of dicts.  Every reference a Python
    list holds denotes an object; a reference the store does not bind reads
    as the empty dict. *)
Abbreviation ref := nat.
Abbreviation heap := (gmap nat dict).

Definition deref (h : heap) (r : ref) : dict := default ∅ (h !! r).

(** [line.get(k, default)] *)
Definition line_get (line : dict) (k : string) (dflt : pyval) : pyval :=
  default dflt (line !! k).

(** [line.update(best_match)] *)
Definition line_update (line : dict) (c : Candidate) : dict :=
  <["score" := PFloat (score c)]>
    (<["matched_description" := matched_description c]>
       (<["matched_code" := matched_code c]> line)).

#[local] Set Warnings "-inexact-float".

(** [config.py] *)
Definition DEFAULT_MIN_SCORE : float := 0.18.
Definition DEFAULT_GEMINI_THRESHOLD : float := 0.30.

(** ** The lexical matcher and the reconciliation engine *)

Section Matching.
Context `{PyLib}.

(** The loop over [df_codes.iterrows()]: a row is kept when its ratio is at
    least [min_score], and recorded with the ratio rounded to 4 digits. *)
Definition collect_matches (input_desc : string) (df_codes : DataFrame)
    (code_col desc_col : string) (min_score : float) : list Candidate :=
  flat_map
    (fun row =>
       let score :=
         sequence_ratio input_desc (str_lower (py_str (cell row desc_col))) in
       if (min_score <=? score)%float then
         [ {| matched_code := cell row code_col;
              matched_description := cell row desc_col;
              score := round4 score |} ]
       else [])
    (rows df_codes).

(** [matches.sort(key=lambda x: x["score"], reverse=True)].  [list.sort] is
    stable, also with [reverse=True]: an item goes behind the items whose
    score is not below its own. *)
Fixpoint insert_by_score (c : Candidate) (sorted : list Candidate)
    : list Candidate :=
  match sorted with
  | [] => [c]
  | d :: rest =>
      if (score c <? score d)%float then d :: insert_by_score c rest
      else c :: sorted
  end.

Definition sort_by_score (matches : list Candidate) : list Candidate :=
  foldr insert_by_score [] matches.

(** The candidate list of one line: [matches] after the sort. *)
Definition lexical_matches (line : dict) (df_codes : DataFrame)
    (code_col desc_col : string) (min_score : float) : list Candidate :=
  let input_desc := str_lower (py_str (line_get line "description" (PStr ""))) in
  sort_by_score (collect_matches input_desc df_codes code_col desc_col min_score).

(** *** [fuzzy_match_descriptions] ([invoice_scanner_pro.py]) *)

Definition fuzzy_match_line (df_codes : DataFrame) (code_col desc_col : string)
    (min_score : float) (line : dict) : dict :=
  match lexical_matches line df_codes code_col desc_col min_score with
  | best_match :: _ =>
      <["status" := PStr "matched"]>
        (<["score" := PFloat (score best_match)]>
           (<["matched_description" := matched_description best_match]>
              (<["matched_code" := matched_code best_match]> line)))
  | [] =>
      <["status" := PStr "no_match"]>
        (<["score" := PFloat 0]>
           (<["matched_description" := PNone]>
              (<["matched_code" := PNone]> line)))
  end.

Fixpoint fuzzy_match_loop (df_codes : DataFrame) (code_col desc_col : string)
    (min_score : float) (lines : list ref) (h : heap) (results : list ref)
    : heap * list ref :=
  match lines with
  | [] => (h, results)
  | line :: rest =>
      let h := <[line := fuzzy_match_line df_codes code_col desc_col min_score
                           (deref h line)]> h in
      fuzzy_match_loop df_codes code_col desc_col min_score rest h
        (results ++ [line])
  end.

Definition fuzzy_match_descriptions (h : heap) (lines : list ref)
    (df_codes : DataFrame) (min_score : float) : Exc (heap * list ref) :=
  match columns df_codes with
  | code_col :: desc_col :: _ =>
      ret (fuzzy_match_loop df_codes code_col desc_col min_score lines h [])
  | _ =>
      throw ValueError
        "Excel-ul trebuie sa aiba minim 2 coloane (cod + descriere)"
  end.

(** *** [match_descriptions] ([matcher.py]) *)

(** [x[:50]] in the progress message: a [str] or a [list] can be sliced,
    anything else raises [TypeError]. *)
Definition sliceable (v : pyval) : bool :=
  match v with
  | PStr _ | PList _ => true
  | _ => false
  end.

(** The body of the loop for one line.  [gemini_matcher] is the arbiter's
    backend when the arbiter is in use.  The second component tells whether
    the backend was called. *)
Definition match_line (gemini_matcher : option (string -> Exc string))
    (df_codes : DataFrame) (code_col desc_col : string)
    (min_score gemini_threshold : float) (line : dict) : dict * bool :=
  match lexical_matches line df_codes code_col desc_col min_score with
  | [] =>
      (<["status" := PStr "fara_potriviri"]>
         (<["score" := PFloat 0]>
            (<["matched_description" := PNone]>
               (<["matched_code" := PNone]> line))), false)
  | best_match :: others =>
      let matches := best_match :: others in
      match gemini_matcher with
      | Some generate_content =>
          if (score best_match <? gemini_threshold)%float then
            let top_candidates := take 5 matches in
            let gemini_result :=
              GeminiMatcher.analyze_candidates generate_content
                (line_get line "description" (PStr "")) top_candidates 5 in
            let line :=
              <["fuzzy_score" := PFloat (score best_match)]>
                (<["reasoning" := GeminiMatcher.res_reasoning gemini_result]>
                   (<["status" := PStr (GeminiMatcher.res_status gemini_result)]>
                      (<["score" := PFloat (GeminiMatcher.res_confidence gemini_result)]>
                         (<["matched_description" :=
                              GeminiMatcher.res_matched_description gemini_result]>
                            (<["matched_code" :=
                                 GeminiMatcher.res_matched_code gemini_result]> line))))) in
            if sliceable (line_get line "description" (PStr "")) then (line, true)
            else
              (<["status" := PStr "eroare_gemini_fallback"]>
                 (line_update line best_match), true)
          else
            (<["status" :=
                 PStr (if (gemini_threshold <=? score best_match)%float
                       then "potrivit_fuzzy" else "fuzzy_confidence_scazut")]>
               (line_update line best_match), false)
      | None =>
          (<["status" :=
               PStr (if (gemini_threshold <=? score best_match)%float
                     then "potrivit_fuzzy" else "fuzzy_confidence_scazut")]>
             (line_update line best_match), false)
      end
  end.

(** The loop over [lines].  [gemini_matcher n] is the backend at its call
    number [n]: an AI model need not answer the same prompt twice alike. *)
Fixpoint match_loop (gemini_matcher : option (nat -> string -> Exc string))
    (df_codes : DataFrame) (code_col desc_col : string)
    (min_score gemini_threshold : float) (lines : list ref) (calls : nat)
    (h : heap) (results : list ref) : heap * list ref :=
  match lines with
  | [] => (h, results)
  | line :: rest =>
      let '(annotated, called) :=
        match_line (option_map (fun g => g calls) gemini_matcher) df_codes
          code_col desc_col min_score gemini_threshold (deref h line) in
      match_loop gemini_matcher df_codes code_col desc_col min_score
        gemini_threshold rest (if called then S calls else calls)
        (<[line := annotated]> h) (results ++ [line])
  end.

(** The set-up of [match_descriptions].  [load_gemini] is what importing and
    constructing [GeminiMatcher] gives: the backend, or the exception
    raised.  An [ImportError] or a [ValueError] switches the arbiter off. *)
Definition gemini_setup (use_gemini : bool)
    (load_gemini : Exc (nat -> string -> Exc string))
    : Exc (option (nat -> string -> Exc string)) :=
  if use_gemini then
    match load_gemini with
    | inl g => ret (Some g)
    | inr e =>
        match exn_class e with
        | ImportError | ValueError | JSONDecodeError => ret None
        | _ => inr e
        end
    end
  else ret None.

(** [match_descriptions] *)
Definition match_descriptions (h : heap) (lines : list ref)
    (df_codes : DataFrame) (min_score gemini_threshold : float)
    (use_gemini : bool) (load_gemini : Exc (nat -> string -> Exc string))
    : Exc (heap * list ref) :=
  match columns df_codes with
  | code_col :: desc_col :: _ =>
      let! gemini_matcher := gemini_setup use_gemini load_gemini in
      ret (match_loop gemini_matcher df_codes code_col desc_col min_score
             gemini_threshold lines 0 h [])
  | _ =>
      throw ValueError
        "Fisierul Excel trebuie sa aiba cel putin doua coloane (cod si denumire)."
  end.

End Matching.

(** ** The inventory ledger and the document registry *)

(** [self.data]: the registry and the ledger.  A registry entry is whatever
    the store file gave and [load_data] kept, or the dict [process_invoice]
    appends: a value, not a record of known shape. *)
Record Store : Type := {
  documents : list pyval;
  inventory : gmap string float;
}.

(** The dict [process_invoice] appends to [data["documents"]]. *)
Definition new_document (xml_name csv_filename today : string)
    (lines_count matched_count : nat) : pyval :=
  PDict [("name", PStr xml_name); ("csv_filename", PStr csv_filename);
         ("date", PStr today); ("lines_count", PInt (Z.of_nat lines_count));
         ("matched_count", PInt (Z.of_nat matched_count))].

(** [key=lambda x: x["name"]] *)
Definition name_key (doc : pyval) : Exc pyval := subscript doc "name".

(** A file of [app_data/csv_standardized], as [pandas.read_csv] reads it:
    a table, or a file the reader raises on. *)
Inductive CsvFile : Type :=
| CsvTable (df : DataFrame)
| CsvUnreadable.

(** The application state: [self.data], the artifact directory in listing
    order, and what [data.json] holds (the store last saved, if any). *)
Record App : Type := {
  data : Store;
  csv_dir : list (string * CsvFile);
  data_file : option Store;
}.

(** [path.exists()], writing and [path.unlink()] in the artifact directory. *)
Fixpoint csv_lookup (fname : string) (dir : list (string * CsvFile))
    : option CsvFile :=
  match dir with
  | [] => None
  | (n, f) :: dir' => if String.eqb n fname then Some f else csv_lookup fname dir'
  end.

Fixpoint csv_write (fname : string) (f : CsvFile) (dir : list (string * CsvFile))
    : list (string * CsvFile) :=
  match dir with
  | [] => [(fname, f)]
  | (n, g) :: dir' =>
      if String.eqb n fname then (n, f) :: dir' else (n, g) :: csv_write fname f dir'
  end.

Definition csv_unlink (fname : string) (dir : list (string * CsvFile))
    : list (string * CsvFile) :=
  List.filter (fun e => negb (String.eqb (fst e) fname)) dir.

(** [self.csv_dir / fname] for the names that denote no file of the
    directory: joining the empty name or "." gives the directory itself,
    ".." its parent. *)
Definition names_directory (fname : string) : bool :=
  String.eqb fname "" || String.eqb fname "." || String.eqb fname "..".

(** [save_data] *)
Definition save_data (app : App) : App :=
  {| data := data app; csv_dir := csv_dir app; data_file := Some (data app) |}.

Definition set_inventory (app : App) (inv : gmap string float) : App :=
  {| data := {| documents := documents (data app); inventory := inv |};
     csv_dir := csv_dir app; data_file := data_file app |}.

Definition set_documents (app : App) (docs : list pyval) : App :=
  {| data := {| documents := docs; inventory := inventory (data app) |};
     csv_dir := csv_dir app; data_file := data_file app |}.

Definition set_csv_dir (app : App) (dir : list (string * CsvFile)) : App :=
  {| data := data app; csv_dir := dir; data_file := data_file app |}.

(** The ledger is persisted as a JSON object, whose keys are strings; a key
    that is not a [str] stands as its [str()] form. *)

(** [inventory[desc] += qty] when the key is there, [inventory[desc] = qty]
    otherwise. *)
Definition ledger_add (desc : string) (qty : float) (inv : gmap string float)
    : gmap string float :=
  match inv !! desc with
  | Some old => <[desc := (old + qty)%float]> inv
  | None => <[desc := qty]> inv
  end.

(** [inventory[desc] -= qty], then [del inventory[desc]] when the entry is
    [<= 0]; nothing when the key is not there. *)
Definition ledger_subtract (desc : string) (qty : float)
    (inv : gmap string float) : gmap string float :=
  match inv !! desc with
  | Some old =>
      if ((old - qty) <=? 0)%float then delete desc inv
      else <[desc := (old - qty)%float]> inv
  | None => inv
  end.

(** One element of [.//cac:InvoiceLine]: the text of its four children,
    where present. *)
Record InvoiceLineElement : Type := {
  item_description : option string;
  invoiced_quantity : option string;
  price_amount : option string;
  line_extension_amount : option string;
}.

Section DataManager.
Context `{PyLib}.

(** [extract_lines_from_xml], from the line elements in document order:
    [i] is the 1-based position. *)
Definition extract_line (i : nat) (item : InvoiceLineElement) : dict :=
  <["line_total" := PStr (default "0" (line_extension_amount item))]>
    (<["unit_price" := PStr (default "0" (price_amount item))]>
       (<["quantity" := PStr (default "0" (invoiced_quantity item))]>
          (<["description" := PStr (default "" (item_description item))]>
             (<["line_id" := PStr (int_repr (Z.of_nat i))]> ∅)))).

Fixpoint extract_lines_from (i : nat) (items : list InvoiceLineElement)
    : list dict :=
  match items with
  | [] => []
  | item :: rest => extract_line i item :: extract_lines_from (S i) rest
  end.

Definition extract_lines_from_xml (items : list InvoiceLineElement) : list dict :=
  extract_lines_from 1 items.

(** The body of the [# Update inventory] loop of [process_invoice]: only
    [ValueError] is caught. *)
Definition add_item (item : dict) (inv : gmap string float)
    : Exc (gmap string float) :=
  if truthy (line_get item "matched_description" PNone)
     && truthy (line_get item "quantity" PNone) then
    let desc := py_str (line_get item "matched_description" PNone) in
    match py_float (line_get item "quantity" PNone) with
    | inl qty => ret (ledger_add desc qty inv)
    | inr e => if is_value_error e then ret inv else inr e
    end
  else ret inv.

Fixpoint add_items (items : list dict) (inv : gmap string float)
    : Exc (gmap string float) :=
  match items with
  | [] => ret inv
  | item :: rest => let! inv := add_item item inv in add_items rest inv
  end.

(** The fresh line objects of one run: references [0 .. n-1]. *)
Definition alloc_lines (lines : list dict) : heap * list ref :=
  (list_to_map (zip (seq 0 (length lines)) lines), seq 0 (length lines)).

Definition is_matched (item : dict) : bool :=
  match item !! "status" with
  | Some (PStr s) => String.eqb s "matched"
  | _ => false
  end.

(** [DataManager.process_invoice].  [xml] is what parsing the invoice gives
    (its line elements, or the parser's exception), [excel] what
    [pd.read_excel] gives, [to_csv] what writing the artifact raises and
    [dump] what [json.dump] raises in [save_data] (nothing when the write
    goes through), [timestamp] and [today] the two renderings of
    [datetime.now()], [xml_name] the stem of the invoice path.  The result
    is the new registry entry and the state after the run; an exception
    leaves the method at once. *)
Definition process_invoice (app : App) (xml : Exc (list InvoiceLineElement))
    (excel : Exc DataFrame) (to_csv dump : option exn)
    (timestamp today xml_name : string) : Exc (pyval * App) :=
  let! items := xml in
  let lines := extract_lines_from_xml items in
  let! df_codes := excel in
  let '(h0, refs) := alloc_lines lines in
  let! matched := fuzzy_match_descriptions h0 refs df_codes DEFAULT_MIN_SCORE in
  let standardized := map (deref (fst matched)) (snd matched) in
  let fname := timestamp ++ "_" ++ xml_name ++ "_standardized.csv" in
  match to_csv with
  | Some e => inr e
  | None =>
      let file :=
        match csv_roundtrip standardized with
        | Some (cols, rws) => CsvTable {| columns := cols; rows := rws |}
        | None => CsvUnreadable
        end in
      let dir := csv_write fname file (csv_dir app) in
      let! inv := add_items standardized (inventory (data app)) in
      let doc :=
        new_document xml_name fname today (length lines)
          (length (List.filter is_matched standardized)) in
      let! docs := merge_sort (documents (data app) ++ [doc]) name_key in
      match dump with
      | Some e => inr e
      | None =>
          ret (doc,
               save_data {| data := {| documents := docs; inventory := inv |};
                            csv_dir := dir;
                            data_file := data_file app |})
      end
  end.

(** [DataManager.search_documents] *)
Definition search_documents (app : App) (query : string) : Exc (list pyval) :=
  if String.eqb query "" then ret (documents (data app))
  else
    let! indices := linear_search_all (documents (data app)) query name_key in
    ret (omap (fun i => documents (data app) !! i) indices).

(** [DataManager.delete_document]: unlink the artifact when the path exists,
    drop every entry equal to [doc], save.  The ledger is not read.  The
    path is [self.csv_dir / doc["csv_filename"]]: the item access and the
    join can raise, and so does [unlink] on a path that is a directory;
    nothing has been changed by then.  [unlink] is what removing the file
    raises and [dump] what [json.dump] raises in [save_data] (nothing when
    the call goes through). *)
Definition delete_document (app : App) (doc : pyval)
    (unlink dump : option exn) : Exc App :=
  let! csv_filename := subscript doc "csv_filename" in
  match csv_filename with
  | PStr fname =>
      if names_directory fname then throw OSError "Is a directory"
      else
        let! dir :=
          match csv_lookup fname (csv_dir app), unlink with
          | Some _, Some e => inr e
          | _, _ => ret (csv_unlink fname (csv_dir app))
          end in
        let docs :=
          List.filter (fun d => negb (value_eq d doc)) (documents (data app)) in
        match dump with
        | Some e => inr e
        | None => ret (save_data (set_documents (set_csv_dir app dir) docs))
        end
  | _ => throw TypeError "unsupported operand type(s) for /"
  end.

End DataManager.

(** ** The ledger operations of the window ([ModernApp]) *)

(** The selected row of the documents tree as [docs_tree.item] returns it:
    the value of its first column and its tags (the artifact's file name
    first).  ttk hands back an [int] for a text that reads as one, the [str]
    otherwise. *)
Record TreeItem : Type := {
  item_name : pyval;
  item_tags : list pyval;
}.

Module ModernApp.
Section Ledger.
Context `{PyLib}.

Definition has_column (df : DataFrame) (col : string) : bool :=
  bool_decide (col ∈ columns df).

(** One row of the loop of the first [delete_document]: the inner [except
    (ValueError, TypeError)] is the only handler inside the loop. *)
Definition subtract_row (df : DataFrame) (row : dict)
    (inv : gmap string float) : Exc (gmap string float) :=
  let desc :=
    if has_column df "matched_description"
    then Some (py_str (cell row "matched_description")) else None in
  let qty_val :=
    if has_column df "quantity" then cell row "quantity" else PNone in
  match desc with
  | Some desc =>
      if negb (String.eqb desc "") && negb (String.eqb desc "nan")
         && truthy qty_val then
        match py_float qty_val with
        | inl qty => ret (ledger_subtract desc qty inv)
        | inr e => if is_value_or_type_error e then ret inv else inr e
        end
      else ret inv
  | None => ret inv
  end.

(** A loop over rows inside a [try]: the ledger is updated in place, so an
    exception that leaves the loop keeps the updates made so far.  The flag
    tells whether the loop ran to its end. *)
Fixpoint rows_loop (step : dict -> gmap string float -> Exc (gmap string float))
    (rws : list dict) (inv : gmap string float) : gmap string float * bool :=
  match rws with
  | [] => (inv, true)
  | row :: rest =>
      match step row inv with
      | inl inv' => rows_loop step rest inv'
      | inr _ => (inv, false)
      end
  end.

(** [next((d for d in documents if d.get("name") == doc_name), None)]: an
    entry without the method [get] ends the search with its exception. *)
Fixpoint find_by_name (docs : list pyval) (doc_name : pyval)
    : Exc (option pyval) :=
  match docs with
  | [] => ret None
  | d :: rest =>
      let! entry_name := value_get d "name" PNone in
      if value_eq entry_name doc_name then ret (Some d)
      else find_by_name rest doc_name
  end.

(** The end of both definitions: find the entry, and [if doc:] delete it.
    An exception leaves the callback, and the state is as it was.  The
    window is taken with a file system that answers: removing the artifact
    and writing the store go through. *)
Definition find_and_delete (app : App) (doc_name : pyval) : App :=
  match find_by_name (documents (data app)) doc_name with
  | inl (Some doc) =>
      if truthy doc then
        match delete_document app doc None None with
        | inl app' => app'
        | inr _ => app
        end
      else app
  | inl None | inr _ => app
  end.

(** The part of the first definition that reads the artifact: the ledger
    after it, or the exception that leaves the callback.  A tag that is
    truthy and not a [str] cannot be joined to the directory path, and the
    join stands before the [try]. *)
Definition subtract_artifact (app : App) (tags : list pyval) : Exc App :=
  match head tags with
  | Some csv_filename =>
      if truthy csv_filename then
        match csv_filename with
        | PStr fname =>
            match csv_lookup fname (csv_dir app) with
            | Some (CsvTable df) =>
                let '(inv, finished) :=
                  rows_loop (subtract_row df) (rows df)
                    (inventory (data app)) in
                if finished then ret (save_data (set_inventory app inv))
                else ret (set_inventory app inv)
            | Some CsvUnreadable | None => ret app
            end
        | _ => throw TypeError "unsupported operand type(s) for /"
        end
      else ret app
  | None => ret app
  end.

(** The first [def delete_document(self)] of the class (lines 976-1051):
    "Delete document and remove its inventory items". *)
Definition delete_document_first (app : App) (selection : option TreeItem)
    (confirmed : bool) : App :=
  match selection with
  | None => app
  | Some item =>
      if negb confirmed then app
      else
        match subtract_artifact app (item_tags item) with
        | inl app' => find_and_delete app' (item_name item)
        | inr _ => app
        end
  end.

(** The second [def delete_document(self)] of the class (lines 1126-1145):
    "Delete document". *)
Definition delete_document_second (app : App) (selection : option TreeItem)
    (confirmed : bool) : App :=
  match selection with
  | None => app
  | Some item =>
      if negb confirmed then app
      else find_and_delete app (item_name item)
  end.

(** A class body is executed top to bottom: the second [def] rebinds the
    name, so [self.delete_document], which the button and the menu call, is
    the second definition. *)
Definition delete_document_bound := delete_document_second.

(** One row of the loop of [recalculate_inventory]. *)
Definition recalculate_row (df : DataFrame) (row : dict)
    (inv : gmap string float) : Exc (gmap string float) :=
  if has_column df "matched_description" && has_column df "quantity" then
    let desc := py_str (cell row "matched_description") in
    if negb (String.eqb desc "") && negb (String.eqb desc "nan") then
      match py_float (cell row "quantity") with
      | inl qty => ret (ledger_add desc qty inv)
      | inr e => if is_value_or_type_error e then ret inv else inr e
      end
    else ret inv
  else ret inv.

(** [csv_dir.glob("*.csv")], in listing order. *)
Definition glob_csv (dir : list (string * CsvFile)) : list (string * CsvFile) :=
  List.filter (fun e => endswith (fst e) ".csv") dir.

(** The loop over the CSV files: a file that cannot be read, or a row that
    raises, counts as an error and the loop goes on with the next file. *)
Fixpoint recalculate_files (files : list (string * CsvFile))
    (inv : gmap string float) : gmap string float :=
  match files with
  | [] => inv
  | (_, CsvUnreadable) :: rest => recalculate_files rest inv
  | (_, CsvTable df) :: rest =>
      recalculate_files rest (fst (rows_loop (recalculate_row df) (rows df) inv))
  end.

(** [recalculate_inventory]: "Recalculate inventory from all CSV files". *)
Definition recalculate_inventory (app : App) (confirmed : bool) : App :=
  if negb confirmed then app
  else
    let app := set_inventory app ∅ in
    let csv_files := glob_csv (csv_dir app) in
    save_data (set_inventory app (recalculate_files csv_files ∅)).

End Ledger.
End ModernApp.

(** ** Loading the persisted store ([DataManager.load_data]) *)

(** The store file holds JSON text, and [load_data] handles whatever
    [json.loads] makes of it: this part works on decoded values. *)


(** [d[k] = v] on a dict in insertion order. *)
Fixpoint dict_set (k : string) (v : pyval) (fields : list (string * pyval))
    : list (string * pyval) :=
  match fields with
  | [] => [(k, v)]
  | (k', v') :: rest =>
      if String.eqb k k' then (k, v) :: rest else (k', v') :: dict_set k v rest
  end.

(** [k in v] for a [str] [k]: a key of a dict, an item of a list, a
    substring of a string; other values are not containers. *)
Definition py_in (k : string) (v : pyval) : Exc bool :=
  match v with
  | PDict fields => ret (bool_decide (is_Some (assoc k fields)))
  | PList items =>
      ret (existsb (fun x => match x with
                             | PStr s => String.eqb s k
                             | _ => false
                             end) items)
  | PStr s => ret (contains k s)
  | _ => throw TypeError "argument is not iterable"
  end.

Fixpoint chars (s : string) : list pyval :=
  match s with
  | EmptyString => []
  | String a s' => PStr (String a EmptyString) :: chars s'
  end.

(** [for x in v] *)
Definition py_iter (v : pyval) : Exc (list pyval) :=
  match v with
  | PList items => ret items
  | PDict fields => ret (map (fun kv => PStr (fst kv)) fields)
  | PStr s => ret (chars s)
  | _ => throw TypeError "object is not iterable"
  end.

Section LoadData.
Context `{PyLib}.

(** The test of the current format:
    ["lines_count" in doc and "matched_count" in doc and "csv_filename" in doc]. *)
Definition is_current_format (doc : pyval) : Exc bool :=
  let! a := py_in "lines_count" doc in
  if a then
    let! b := py_in "matched_count" doc in
    if b then py_in "csv_filename" doc else ret false
  else ret false.

(** One turn of the loop of [_migrate_old_data]: the entry to keep, and
    whether it had to be converted. *)
Definition migrate_doc (now : string) (doc : pyval) : Exc (pyval * bool) :=
  let! current := is_current_format doc in
  if current then ret (doc, false)
  else
    let! doc_name := value_get doc "name" (PStr "Unknown") in
    let! fallback := value_get doc "csv_filename" (PStr "N/A") in
    let! fname := value_get doc "filename" fallback in
    let! doc_date := value_get doc "date" (PStr now) in
    ret (PDict [("name", doc_name); ("csv_filename", fname);
                ("date", doc_date); ("lines_count", PInt 0);
                ("matched_count", PInt 0)], true).

Fixpoint migrate_docs (now : string) (docs : list pyval)
    : Exc (list pyval * bool) :=
  match docs with
  | [] => ret ([], false)
  | doc :: rest =>
      let! d := migrate_doc now doc in
      let! r := migrate_docs now rest in
      ret (fst d :: fst r, snd d || snd r)
  end.

(** [_migrate_old_data]: the migrated store and what the store file holds
    afterwards ([save_data] runs when an entry was converted).  On a value
    that is not a dict, the membership tests and item accesses end in a
    [TypeError] whichever way they go. *)
Definition _migrate_old_data (now : string) (data : pyval)
    (file : option string) : Exc (pyval * option string) :=
  match data with
  | PDict fields =>
      let fields :=
        if bool_decide (is_Some (assoc "documents" fields)) then fields
        else dict_set "documents" (PList []) fields in
      let fields :=
        if bool_decide (is_Some (assoc "inventory" fields)) then fields
        else dict_set "inventory" (PDict []) fields in
      let! docs := py_iter (default PNone (assoc "documents" fields)) in
      let! migrated := migrate_docs now docs in
      let data := PDict (dict_set "documents" (PList (fst migrated)) fields) in
      if snd migrated then ret (data, Some (json_dumps data))
      else ret (data, file)
  | _ => throw TypeError "object does not support item assignment"
  end.


End LoadData.

(** ** A reference library for running the definitions

    Concrete stand-ins for the fields of [PyLib], used where a definition is
    evaluated on a concrete input.  They compute what Python computes on the
    inputs used in this file: ASCII and Latin-1 lowering, plain decimal
    literals, the Ratcliff-Obershelp ratio of [difflib] for sequences below
    its 200-item "autojunk" limit, [round(x, 4)] on scores. *)

Module Reference.

Definition lower_ascii (a : ascii) : ascii :=
  let n := nat_of_ascii a in
  if ((65 <=? n) && (n <=? 90) || (192 <=? n) && (n <=? 222) && negb (n =? 215))%nat
  then ascii_of_nat (n + 32) else a.

Fixpoint lower (s : string) : string :=
  match s with
  | EmptyString => EmptyString
  | String a s' => String (lower_ascii a) (lower s')
  end.

(** The integer a float conversion starts from, exactly representable below
    [2^53]. *)
Definition float_of_Z (z : Z) : float :=
  match z with
  | Z0 => 0%float
  | Zpos _ => PrimFloat.of_uint63 (Uint63.of_Z z)
  | Zneg _ => (- PrimFloat.of_uint63 (Uint63.of_Z (- z)))%float
  end.

Definition int_to_float (z : Z) : option float :=
  let f := SF2Prim (binary_normalize prec emax z 0 false) in
  if is_infinity f then None else Some f.

Definition digit_of (a : ascii) : option Z :=
  let n := nat_of_ascii a in
  if ((48 <=? n) && (n <=? 57))%nat then Some (Z.of_nat (n - 48)) else None.

(** Digits read so far, as [(value, count)]. *)
Fixpoint read_digits (s : string) (acc : Z) (count : nat) : Z * nat * string :=
  match s with
  | String a s' =>
      match digit_of a with
      | Some d => read_digits s' (acc * 10 + d)%Z (S count)
      | None => (acc, count, s)
      end
  | EmptyString => (acc, count, s)
  end.

(** [float(s)] on [digits], [digits.digits], with an optional sign, when the
    digits fit a double exactly; nothing else is recognised here. *)
Definition parse_decimal (s : string) : option float :=
  let s := strip s in
  let '(neg, body) :=
    match s with
    | String "-"%char r => (true, r)
    | String "+"%char r => (false, r)
    | _ => (false, s)
    end in
  let '(ipart, icount, rest) := read_digits body 0 0 in
  let '(num, fcount, rest, seen) :=
    match rest with
    | String "."%char r =>
        let '(n, c, r') := read_digits r ipart 0 in (n, c, r', (icount + c)%nat)
    | _ => (ipart, 0%nat, rest, icount)
    end in
  match rest, seen with
  | EmptyString, S _ =>
      if ((num <? 2 ^ 53)%Z && (fcount <=? 22)%nat)%bool then
        let v := (float_of_Z num / float_of_Z (10 ^ Z.of_nat fcount))%float in
        Some (if neg then (- v)%float else v)
      else None
  | _, _ => None
  end.

(** *** [difflib.SequenceMatcher(None, a, b).ratio()] *)

Fixpoint common_prefix (a b : list ascii) : nat :=
  match a, b with
  | x :: a', y :: b' => if Ascii.eqb x y then S (common_prefix a' b') else 0
  | _, _ => 0
  end.

(** The longest block of [b] matching a prefix of [a], the earliest one among
    the longest: [(j, k)]. *)
Fixpoint best_in_b (a b : list ascii) (j : nat) (best : nat * nat) : nat * nat :=
  match b with
  | [] => best
  | _ :: b' =>
      let k := common_prefix a b in
      best_in_b a b' (S j) (if (snd best <? k)%nat then (j, k) else best)
  end.

(** [find_longest_match]: [(i, j, k)] with [k] maximal, then [i] minimal,
    then [j] minimal. *)
Fixpoint find_longest_match (a b : list ascii) (i : nat) (best : nat * nat * nat)
    : nat * nat * nat :=
  match a with
  | [] => best
  | _ :: a' =>
      let '(j, k) := best_in_b a b 0 (0, 0)%nat in
      find_longest_match a' b (S i)
        (if (snd best <? k)%nat then (i, j, k) else best)
  end.

(** The total size of the matching blocks: the longest block, then the same
    to its left and to its right. *)
Fixpoint matching_total (fuel : nat) (a b : list ascii) : nat :=
  match fuel with
  | O => 0
  | S fuel =>
      let '(i, j, k) := find_longest_match a b 0 (0, 0, 0)%nat in
      if (k =? 0)%nat then 0
      else k + matching_total fuel (take i a) (take j b)
             + matching_total fuel (drop (i + k) a) (drop (j + k) b)
  end.

Definition ratio (a b : string) : float :=
  let la := list_ascii_of_string a in
  let lb := list_ascii_of_string b in
  let total := (length la + length lb)%nat in
  if (total =? 0)%nat then 1%float
  else (2 * float_of_Z (Z.of_nat (matching_total (S (length la)) la lb))
        / float_of_Z (Z.of_nat total))%float.

(** *** [round(x, 4)]

    Python rounds the exact value of the double to 4 decimals, ties to even,
    and answers the double nearest to that decimal. *)
Definition round_half_even (num den : Z) : Z :=
  let q := (num / den)%Z in
  let r := (num mod den)%Z in
  match (2 * r ?= den)%Z with
  | Lt => q
  | Gt => (q + 1)%Z
  | Eq => if Z.even q then q else (q + 1)%Z
  end.

Definition round_to_4 (x : float) : float :=
  match Prim2SF x with
  | S754_finite s m e =>
      let n :=
        if (0 <=? e)%Z then (Zpos m * 10000 * 2 ^ e)%Z
        else round_half_even (Zpos m * 10000) (2 ^ (- e)) in
      if (n <? 2 ^ 53)%Z then
        let r := (float_of_Z n / 10000)%float in
        if s then (- r)%float else r
      else x
  | _ => x
  end.

(** [==] between scalars of the builtin types. *)
Definition scalar_eq (a b : pyval) : Exc bool :=
  match a, b with
  | PNone, PNone => ret true
  | PStr s, PStr t => ret (String.eqb s t)
  | PInt m, PInt n => ret (m =? n)%Z
  | PFloat f, PFloat g => ret (f =? g)%float
  | PBool p, PBool q => ret (Bool.eqb p q)
  | _, _ => ret false
  end.

Definition py_str_plain (v : pyval) : string :=
  match v with
  | PStr s => s
  | _ => ""
  end.

(** [==] between values of the same shape, the fields of a dict taken in
    the same order. *)
Fixpoint same_value (a b : pyval) : bool :=
  match a, b with
  | PNone, PNone => true
  | PBool p, PBool q => Bool.eqb p q
  | PInt m, PInt n => (m =? n)%Z
  | PFloat f, PFloat g => (f =? g)%float
  | PStr s, PStr t => String.eqb s t
  | PList xs, PList ys =>
      (fix all (xs ys : list pyval) : bool :=
         match xs, ys with
         | [], [] => true
         | x :: xs', y :: ys' => same_value x y && all xs' ys'
         | _, _ => false
         end) xs ys
  | PDict fa, PDict fb =>
      (fix all (fa fb : list (string * pyval)) : bool :=
         match fa, fb with
         | [], [] => true
         | (k, v) :: fa', (j, w) :: fb' =>
             String.eqb k j && same_value v w && all fa' fb'
         | _, _ => false
         end) fa fb
  | _, _ => false
  end.

(** The decoder on the responses used in this file. *)
Definition quoted (s : string) : string :=
  String "034"%char s ++ String "034"%char EmptyString.

(** A response that selects the code [C999] with confidence 0.9. *)
Definition response_C999 : string :=
  "{" ++ quoted "selected_code" ++ ": " ++ quoted "C999" ++ ", "
      ++ quoted "confidence" ++ ": 0.9}".

Definition decode (s : string) : option pyval :=
  if String.eqb s response_C999 then
    Some (PDict [("selected_code", PStr "C999"); ("confidence", PFloat 0.9)])
  else if String.eqb s "{}" then Some (PDict [])
  else if String.eqb s "[]" then Some (PList [])
  else if String.eqb s "null" then Some PNone
  else None.

Definition lib : PyLib := {|
  str_lower := lower;
  float_of_str := parse_decimal;
  float_repr := fun _ => "0.0";
  int_repr := fun z => pretty z;
  float_of_int := int_to_float;
  container_repr := fun _ => "[...]";
  sequence_ratio := ratio;
  round4 := round_to_4;
  json_loads := decode;
  code_eq := scalar_eq;
  build_analysis_prompt := fun d cs => py_str_plain d;
  csv_roundtrip :=
    fun records =>
      Some (["line_id"; "description"; "quantity"; "unit_price"; "line_total";
             "matched_code"; "matched_description"; "score"; "status"],
            records);
  json_dumps := fun _ => "{}";
  value_eq := same_value;
|}.

End Reference.

(** ** Vocabulary of the properties *)

(** The fields extraction fills, and the fields annotation writes. *)
Definition extraction_fields : list string :=
  ["line_id"; "description"; "quantity"; "unit_price"; "line_total"].

Definition annotation_fields : list string :=
  ["matched_code"; "matched_description"; "score"; "status"; "reasoning";
   "fuzzy_score"].

(** Apart from NaN, floats are ordered like the triples [float_rank] gives
    their specification values, compared lexicographically. *)
Definition float_rank (f : spec_float) : option (Z * (Z * Z)) :=
  match f with
  | S754_nan => None
  | S754_zero _ => Some (0, (0, 0))%Z
  | S754_infinity true => Some (-2, (0, 0))%Z
  | S754_infinity false => Some (2, (0, 0))%Z
  | S754_finite false m e => Some (1, (e, Zpos m))%Z
  | S754_finite true m e => Some (-1, (- e, Zneg m))%Z
  end.

Definition rank_compare (a b : Z * (Z * Z)) : comparison :=
  match (a.1 ?= b.1)%Z with
  | Eq => match (a.2.1 ?= b.2.1)%Z with
          | Eq => (a.2.2 ?= b.2.2)%Z
          | c => c
          end
  | c => c
  end.

Definition rank_le (a b : Z * (Z * Z)) : Prop :=
  (a.1 < b.1 \/ (a.1 = b.1 /\ (a.2.1 < b.2.1 \/ (a.2.1 = b.2.1 /\ a.2.2 <= b.2.2))))%Z.

Definition rank_lt (a b : Z * (Z * Z)) : Prop :=
  (a.1 < b.1 \/ (a.1 = b.1 /\ (a.2.1 < b.2.1 \/ (a.2.1 = b.2.1 /\ a.2.2 < b.2.2))))%Z.

(** The rank of a float; [None] for NaN. *)
Definition rank (x : float) : option (Z * (Z * Z)) := float_rank (Prim2SF x).

(** ** Sample data *)

Module Sample.

(** The catalog of the design document's scenario. *)
Definition catalog : DataFrame :=
  {| columns := ["code"; "description"];
     rows := [ {["code" := PStr "C100"; "description" := PStr "Steel Pipe 10mm"]};
               {["code" := PStr "C200"; "description" := PStr "Copper Wire 2mm"]} ] |}.

Definition line (line_id description quantity : string) : dict :=
  {["line_id" := PStr line_id; "description" := PStr description;
    "quantity" := PStr quantity; "unit_price" := PStr "2.00";
    "line_total" := PStr "25.00"]}.

(** Two lines: one the catalog names, one it has nothing for. *)
Definition lines_heap : heap :=
  {[ 0%nat := line "1" "Steel Pipe 10mm" "12.5";
     1%nat := line "2" "qqqq" "3" ]}.

(** The state a run leaves when it succeeds, [∅] otherwise. *)
Definition heap_of (run : Exc (heap * list ref)) : heap :=
  match run with
  | inl out => out.1
  | inr _ => ∅
  end.

Definition results_of (run : Exc (heap * list ref)) : list ref :=
  match run with
  | inl out => out.2
  | inr _ => []
  end.

(** Two low-scoring candidates offered to the arbiter. *)
Definition best_offer : Candidate :=
  {| matched_code := PStr "C100";
     matched_description := PStr "Steel Pipe 10mm";
     score := 0.25 |}.

Definition offered : list Candidate :=
  [ best_offer;
    {| matched_code := PStr "C200";
       matched_description := PStr "Copper Wire 2mm";
       score := 0.2 |} ].

(** An arbiter backend that always answers with the code [C999]. *)
Definition backend_C999 : nat -> string -> Exc string :=
  fun _ _ => ret Reference.response_C999.

End Sample.

(** A registry of two entries, a one-line invoice, and its processing. *)
Module SampleRun.

Definition entry (name : string) : pyval :=
  new_document name (name ++ ".csv") "2024-01-01 10:00" 1 1.

Definition app0 : App :=
  {| data := {| documents := [entry "alpha"; entry "Beta"];
                inventory := ∅ |};
     csv_dir := [];
     data_file := None |}.

Definition invoice : list InvoiceLineElement :=
  [ {| item_description := Some "Steel Pipe 10mm";
       invoiced_quantity := Some "12.5";
       price_amount := Some "2.00";
       line_extension_amount := Some "25.00" |} ].

Definition run : Exc (pyval * App) :=
  @process_invoice Reference.lib app0 (inl invoice) (inl Sample.catalog)
    None None "20240102_093000" "2024-01-02 09:30" "BETA".

Definition doc_of (r : Exc (pyval * App)) : pyval :=
  match r with
  | inl out => out.1
  | inr _ => entry ""
  end.

Definition app_of (r : Exc (pyval * App)) : App :=
  match r with
  | inl out => out.2
  | inr _ => app0
  end.

End SampleRun.

(** What a result may name: nothing, or a candidate of the list. *)
Definition names_offered (candidates : list Candidate)
    (r : GeminiMatcher.Result) : Prop :=
  (GeminiMatcher.res_matched_code r = PNone /\ GeminiMatcher.res_matched_description r = PNone)
  \/ exists c, c ∈ candidates
       /\ GeminiMatcher.res_matched_code r = matched_code c
       /\ GeminiMatcher.res_matched_description r = matched_description c.

(** The candidates as the design document words them: the catalog rows whose
    score rounded to 4 digits is at least [min_score] (to compare with
    [collect_matches], which tests the score before rounding it). *)
Definition rows_by_rounded_score `{PyLib} (line : dict) (df_codes : DataFrame)
    (code_col desc_col : string) (min_score : float) : list Candidate :=
  let input_desc := str_lower (py_str (line_get line "description" (PStr ""))) in
  map (fun row =>
         {| matched_code := cell row code_col;
            matched_description := cell row desc_col;
            score := round4 (sequence_ratio input_desc
                               (str_lower (py_str (cell row desc_col)))) |})
    (List.filter
       (fun row =>
          (min_score <=?
             round4 (sequence_ratio input_desc
                       (str_lower (py_str (cell row desc_col)))))%float)
       (rows df_codes)).

(** The catalog rows whose score, before rounding, is at least [min_score],
    each with its rounded score, in catalog order. *)
Definition rows_by_raw_score `{PyLib} (line : dict) (df_codes : DataFrame)
    (code_col desc_col : string) (min_score : float) : list Candidate :=
  let input_desc := str_lower (py_str (line_get line "description" (PStr ""))) in
  map (fun row =>
         {| matched_code := cell row code_col;
            matched_description := cell row desc_col;
            score := round4 (sequence_ratio input_desc
                               (str_lower (py_str (cell row desc_col)))) |})
    (List.filter
       (fun row =>
          (min_score <=?
             sequence_ratio input_desc
               (str_lower (py_str (cell row desc_col))))%float)
       (rows df_codes)).

(** A long invoice description: a catalog description of 44 characters
    followed by 401 characters that are not part of it. *)
Module LongLine.

Fixpoint filler (n : nat) : string :=
  match n with
  | O => "#"
  | S n => " #" ++ filler n
  end.

Definition product : string := "steel pipe 10mm galvanized threaded dn10 6 m".

Definition catalog : DataFrame :=
  {| columns := ["code"; "description"];
     rows := [ {["code" := PStr "C100"; "description" := PStr product]} ] |}.

Definition invoice_line : dict :=
  {["line_id" := PStr "1"; "description" := PStr (product ++ filler 200);
    "quantity" := PStr "1"; "unit_price" := PStr "1"; "line_total" := PStr "1"]}.

End LongLine.

(** An invoice whose only line has no quantity element: extraction fills in
    the literal "0". *)
Module ZeroQuantity.

Definition invoice : list InvoiceLineElement :=
  [ {| item_description := Some "Steel Pipe 10mm";
       invoiced_quantity := None;
       price_amount := Some "2.00";
       line_extension_amount := Some "0.00" |} ].

Definition app0 : App :=
  {| data := {| documents := []; inventory := ∅ |};
     csv_dir := [];
     data_file := None |}.

Definition run : Exc (pyval * App) :=
  @process_invoice Reference.lib app0 (inl invoice) (inl Sample.catalog)
    None None "20240103_080000" "2024-01-03 08:00" "zero".

(** A matched line as the ledger loop sees it. *)
Definition matched_line : dict :=
  {["matched_description" := PStr "Steel Pipe 10mm"; "quantity" := PStr "0"]}.

End ZeroQuantity.

(** ** The ledger as a sum over stored artifacts *)

Section LedgerSums.
Context `{PyLib}.

(** What a row of a stored artifact adds under [recalculate_inventory]: a
    description and a quantity, nothing, or an exception that ends the
    reading of its file. *)
Definition row_contribution (df : DataFrame) (row : dict)
    : Exc (option (string * float)) :=
  if ModernApp.has_column df "matched_description"
     && ModernApp.has_column df "quantity" then
    let desc := py_str (cell row "matched_description") in
    if negb (String.eqb desc "") && negb (String.eqb desc "nan") then
      match py_float (cell row "quantity") with
      | inl qty => ret (Some (desc, qty))
      | inr e => if is_value_or_type_error e then ret None else inr e
      end
    else ret None
  else ret None.

(** The contributions of a table, row by row. *)
Fixpoint table_entries (df : DataFrame) (rws : list dict)
    : list (string * float) :=
  match rws with
  | [] => []
  | row :: rest =>
      match row_contribution df row with
      | inl (Some entry) => entry :: table_entries df rest
      | inl None => table_entries df rest
      | inr _ => []
      end
  end.

Definition file_entries (file : CsvFile) : list (string * float) :=
  match file with
  | CsvTable df => table_entries df (rows df)
  | CsvUnreadable => []
  end.

(** *** The design document's words

    The lines of the stored artifacts as the design document counts them,
    written from its text and not from the code, to compare with. *)

(** "whose quantity parses as a number": the cell converts, and to a
    number. *)
Definition parsed_quantity (v : pyval) : option float :=
  match py_float v with
  | inl q => if is_nan q then None else Some q
  | inr _ => None
  end.

(** An annotated line that counts: its matched description, when it has one
    (a line without a match is stored with the missing-value marker), and
    its parsed quantity. *)
Definition counted_line (row : dict) : option (string * float) :=
  let desc := py_str (cell row "matched_description") in
  if String.eqb desc "" || String.eqb desc "nan" then None
  else
    match parsed_quantity (cell row "quantity") with
    | Some q => Some (desc, q)
    | None => None
    end.

Definition artifact_lines (file : CsvFile) : list (string * float) :=
  match file with
  | CsvTable df => omap counted_line (rows df)
  | CsvUnreadable => []
  end.

(** The CSV artifacts present in the artifact directory. *)
Definition csv_artifacts (dir : list (string * CsvFile))
    : list (string * CsvFile) :=
  List.filter (fun e => endswith e.1 ".csv") dir.

(** The counted lines of all the CSV artifacts of the directory. *)
Definition directory_lines (dir : list (string * CsvFile))
    : list (string * float) :=
  flat_map (fun e => artifact_lines e.2) (csv_artifacts dir).

(** The artifact a registry entry points to. *)
Definition artifact_of (dir : list (string * CsvFile)) (doc : pyval)
    : option CsvFile :=
  match subscript doc "csv_filename" with
  | inl (PStr fname) => csv_lookup fname dir
  | _ => None
  end.

(** The counted lines of the artifacts of the currently registered
    documents. *)
Definition registered_lines (app : App) : list (string * float) :=
  flat_map
    (fun doc =>
       match artifact_of (csv_dir app) doc with
       | Some file => artifact_lines file
       | None => []
       end)
    (documents (data app)).

(** A table as [pandas.read_csv] gives it: a row has cells under the
    column labels only. *)
Definition table_as_read (df : DataFrame) : Prop :=
  Forall (fun row : dict => forall c, c ∉ columns df -> row !! c = None)
    (rows df).

(** A quantity cell as the reader gives it: converting it raises nothing
    but [ValueError] or [TypeError] (an integer cell fits 64 bits). *)
Definition quantity_in_range (row : dict) : Prop :=
  forall e, py_float (cell row "quantity") = inr e ->
            is_value_or_type_error e = true.

(** No line recorded for [k] has a blank quantity cell (which is read as
    NaN). *)
Definition quantity_not_blank (k : string) (df : DataFrame) (row : dict)
    : Prop :=
  "quantity" ∈ columns df ->
  py_str (cell row "matched_description") = k ->
  forall q, py_float (cell row "quantity") = inl q -> is_nan q = false.

Definition artifacts_as_read (k : string) (dir : list (string * CsvFile))
    : Prop :=
  Forall
    (fun e =>
       match e.2 with
       | CsvTable df =>
           table_as_read df
           /\ Forall (fun row => quantity_in_range row
                                 /\ quantity_not_blank k df row) (rows df)
       | CsvUnreadable => True
       end)
    dir.

End LedgerSums.

(** The quantities recorded for a description. *)
Definition quantities (k : string) (entries : list (string * float))
    : list float :=
  map snd (List.filter (fun e => String.eqb e.1 k) entries).

(** Their sum, taken in order as float additions do; no entry when there
    is nothing to add. *)
Definition total (qs : list float) : option float :=
  match qs with
  | [] => None
  | q :: rest => Some (fold_left PrimFloat.add rest q)
  end.

(** A store without documents beside an artifact directory that still holds
    a file, as a reset of a corrupt store file leaves them. *)
Module Orphan.

Definition artifact : CsvFile :=
  CsvTable
    {| columns := ["line_id"; "description"; "quantity"; "matched_description"];
       rows := [ {["line_id" := PInt 1; "description" := PStr "Steel Pipe 10mm";
                   "quantity" := PFloat 12.5;
                   "matched_description" := PStr "Steel Pipe 10mm"]} ] |}.

Definition app : App :=
  {| data := {| documents := []; inventory := ∅ |};
     csv_dir := [("20240101_100000_old_standardized.csv", artifact)];
     data_file := None |}.

End Orphan.

(** An artifact with a line stored without a quantity: the reader gives
    the missing-value marker for the blank cell. *)
Module BlankQuantity.

Definition artifact : CsvFile :=
  CsvTable
    {| columns := ["line_id"; "description"; "quantity"; "matched_description"];
       rows := [ {["line_id" := PInt 1; "description" := PStr "Steel Pipe 10mm";
                   "quantity" := PFloat nan;
                   "matched_description" := PStr "Steel Pipe 10mm"]} ] |}.

Definition app : App :=
  {| data := {| documents := []; inventory := ∅ |};
     csv_dir := [("20240103_110000_blank_standardized.csv", artifact)];
     data_file := None |}.

End BlankQuantity.

(** ** Registry entries in a stored document *)

(** A decoded registry entry in the current format: a dict with the keys
    [lines_count], [matched_count] and [csv_filename]. *)
Definition has_key (k : string) (v : pyval) : bool :=
  match v with
  | PDict fields => bool_decide (is_Some (assoc k fields))
  | _ => false
  end.

Definition is_dict (v : pyval) : bool :=
  match v with
  | PDict _ => true
  | _ => false
  end.

Definition current_entry (doc : pyval) : bool :=
  has_key "lines_count" doc && has_key "matched_count" doc
  && has_key "csv_filename" doc.



(** A store file of one entry in the old format. *)
Module OldStore.

Definition text : string := "old store".

Definition old_entry : pyval :=
  PDict [("name", PStr "invoice_7"); ("filename", PStr "invoice_7.csv");
         ("date", PStr "2023-05-01 10:00")].

Definition decoded : pyval :=
  PDict [("documents", PList [old_entry]);
         ("inventory", PDict [("Steel Pipe 10mm", PFloat 12.5)])].

(** A library whose decoder reads [text] as [decoded] and rejects the rest. *)
Definition lib : PyLib := {|
  str_lower := Reference.lower;
  float_of_str := Reference.parse_decimal;
  float_repr := fun _ => "0.0";
  int_repr := fun z => pretty z;
  float_of_int := Reference.int_to_float;
  container_repr := fun _ => "[...]";
  sequence_ratio := Reference.ratio;
  round4 := Reference.round_to_4;
  json_loads := fun s => if String.eqb s text then Some decoded else None;
  code_eq := Reference.scalar_eq;
  build_analysis_prompt := fun d cs => Reference.py_str_plain d;
  csv_roundtrip := fun records => None;
  json_dumps := fun _ => "migrated store";
  value_eq := Reference.same_value;
|}.

End OldStore.

(** A registry of one document, its artifact, and the ledger its processing
    left. *)
Module Deletion.

Definition doc : pyval :=
  new_document "invoice_1" "20240101_100000_invoice_1_standardized.csv"
    "2024-01-01 10:00" 1 1.

Definition app : App :=
  {| data := {| documents := [doc];
                inventory := {["Steel Pipe 10mm" := 12.5%float]} |};
     csv_dir :=
       [("20240101_100000_invoice_1_standardized.csv", Orphan.artifact)];
     data_file := None |}.

(** The row of the documents tree that shows [doc]. *)
Definition selection : option TreeItem :=
  Some {| item_name := PStr "invoice_1";
          item_tags := [PStr "20240101_100000_invoice_1_standardized.csv"] |}.

End Deletion.

(** ** Statuses and responses *)

(** The statuses the arbiter gives a candidate list that is not empty, and
    the statuses [match_descriptions] leaves on a line. *)
Definition arbiter_statuses : list string :=
  ["gemini_analyzed"; "gemini_no_match"; "gemini_fallback"].

Definition engine_statuses : list string :=
  ["fara_potriviri"; "potrivit_fuzzy"; "fuzzy_confidence_scazut";
   "eroare_gemini_fallback"] ++ arbiter_statuses.

(** The two tests of the loop over the lines of a fenced response. *)
Definition opens_object (line : string) : bool := startswith (strip line) "{".
Definition closes_object (line : string) : bool := endswith (strip line) "}".

(** The reference library with another decoder. *)
Definition decoding_lib (decode : string -> option pyval) : PyLib := {|
  str_lower := Reference.lower;
  float_of_str := Reference.parse_decimal;
  float_repr := fun _ => "0.0";
  int_repr := fun z => pretty z;
  float_of_int := Reference.int_to_float;
  container_repr := fun _ => "[...]";
  sequence_ratio := Reference.ratio;
  round4 := Reference.round_to_4;
  json_loads := decode;
  code_eq := Reference.scalar_eq;
  build_analysis_prompt := fun d cs => Reference.py_str_plain d;
  csv_roundtrip := fun records => None;
  json_dumps := fun _ => "{}";
  value_eq := Reference.same_value;
|}.

(** A response in a Markdown fence that selects the second candidate of
    [Sample.offered]. *)
Module FencedAnswer.

Definition object_lines : list string :=
  [ "{";
    "  " ++ Reference.quoted "selected_code" ++ ": "
         ++ Reference.quoted "C200" ++ ",";
    "  " ++ Reference.quoted "confidence" ++ ": 0.8,";
    "  " ++ Reference.quoted "reasoning" ++ ": "
         ++ Reference.quoted "wire";
    "}" ].

Definition response : string :=
  join_lines (["```json"] ++ object_lines ++ ["```"; ""]).

Definition decoded : pyval :=
  PDict [("selected_code", PStr "C200"); ("confidence", PFloat 0.8);
         ("reasoning", PStr "wire")].

Definition lib : PyLib :=
  decoding_lib
    (fun s => if String.eqb s (join_lines object_lines) then Some decoded
              else if String.eqb s "{}" then Some (PDict [])
              else None).

Definition backend : nat -> string -> Exc string := fun _ _ => ret response.

End FencedAnswer.


(** The fields [fuzzy_match_descriptions] writes. *)
Definition scanner_fields : list string :=
  ["matched_code"; "matched_description"; "score"; "status"].

(** A store file whose registry holds a number among its entries. *)
Module CorruptEntry.

Definition text : string := "store with a stray entry".

Definition decoded : pyval :=
  PDict [("documents",
          PList [PDict [("name", PStr "invoice_7");
                        ("csv_filename", PStr "invoice_7.csv");
                        ("date", PStr "2023-05-01 10:00");
                        ("lines_count", PInt 1); ("matched_count", PInt 1)];
                 PInt 7]);
         ("inventory", PDict [("Steel Pipe 10mm", PFloat 12.5)])].

Definition lib : PyLib :=
  decoding_lib (fun s => if String.eqb s text then Some decoded else None).

End CorruptEntry.


(** The two keys after the set-up of [_migrate_old_data]. *)
Definition with_store_keys (fields : list (string * pyval))
    : list (string * pyval) :=
  let fields :=
    if bool_decide (is_Some (assoc "documents" fields)) then fields
    else dict_set "documents" (PList []) fields in
  if bool_decide (is_Some (assoc "inventory" fields)) then fields
  else dict_set "inventory" (PDict []) fields.

(** * Properties *)

(** ** The order on strings *)

Lemma string_leb_refl (s : string) : String.leb s s = true.
Proof.
  unfold String.leb.
  assert (Heq : String.compare s s = Eq) by (apply OrderedTypeEx.String_as_OT.cmp_eq; reflexivity).
  rewrite Heq. reflexivity.
Qed.

Lemma string_leb_cases (s t : string) :
  String.leb s t = true <-> s = t \/ OrderedTypeEx.String_as_OT.lt s t.
Proof.
  unfold String.leb.
  destruct (String.compare s t) eqn:Hc.
  - apply OrderedTypeEx.String_as_OT.cmp_eq in Hc. tauto.
  - apply OrderedTypeEx.String_as_OT.cmp_lt in Hc. tauto.
  - split; [discriminate|]. intros [-> | Hlt].
    + assert (Heq : String.compare t t = Eq)
        by (apply OrderedTypeEx.String_as_OT.cmp_eq; reflexivity).
      congruence.
    + apply OrderedTypeEx.String_as_OT.cmp_lt in Hlt.
      unfold OrderedTypeEx.String_as_OT.cmp in Hlt. congruence.
Qed.

Lemma string_leb_trans (s t u : string) :
  String.leb s t = true -> String.leb t u = true -> String.leb s u = true.
Proof.
  rewrite !string_leb_cases. intros [-> | Hst] [-> | Htu]; auto.
  right. eapply OrderedTypeEx.String_as_OT.lt_trans; eassumption.
Qed.

Lemma string_leb_false (s t : string) :
  String.leb s t = false -> String.leb t s = true.
Proof.
  intros Hf. destruct (String.leb_total s t) as [Hst | Hts]; congruence.
Qed.

(** ** Merge sort: sorted, a permutation, stable *)

Section MergeSortFacts.
Context {A : Type} (lkey : A -> string).

Let le_key (x y : A) : Prop := key_le lkey x y = true.

Lemma merge_nil_l (r : list A) : merge_total [] r lkey = r.
Proof. destruct r; reflexivity. Qed.

Lemma merge_nil_r (l : list A) : merge_total l [] lkey = l.
Proof. destruct l; reflexivity. Qed.

Lemma merge_cons (x y : A) (l r : list A) :
  merge_total (x :: l) (y :: r) lkey =
  if key_le lkey x y then x :: merge_total l (y :: r) lkey
  else y :: merge_total (x :: l) r lkey.
Proof. reflexivity. Qed.

Lemma le_key_trans (x y z : A) : le_key x y -> le_key y z -> le_key x z.
Proof. unfold le_key, key_le. apply string_leb_trans. Qed.

Lemma le_key_flip (x y : A) : key_le lkey x y = false -> le_key y x.
Proof. unfold le_key, key_le. apply string_leb_false. Qed.

Lemma merge_perm (l r : list A) : Permutation (merge_total l r lkey) (l ++ r)%list.
Proof.
  revert r. induction l as [|x l IHl]; intros r.
  - rewrite merge_nil_l. reflexivity.
  - induction r as [|y r IHr].
    + rewrite merge_nil_r, app_nil_r. reflexivity.
    + rewrite merge_cons. destruct (key_le lkey x y).
      * simpl. constructor. apply IHl.
      * rewrite IHr. apply (Permutation_middle (x :: l) r y).
Qed.

Lemma merge_Forall (P : A -> Prop) (l r : list A) :
  Forall P l -> Forall P r -> Forall P (merge_total l r lkey).
Proof.
  intros Hl Hr. eapply Permutation_Forall.
  - symmetry. apply merge_perm.
  - apply Forall_app. split; assumption.
Qed.

Lemma merge_sorted (l r : list A) :
  StronglySorted le_key l -> StronglySorted le_key r ->
  StronglySorted le_key (merge_total l r lkey).
Proof.
  revert r. induction l as [|x l IHl]; intros r Hl Hr.
  - rewrite merge_nil_l. assumption.
  - induction r as [|y r IHr].
    + rewrite merge_nil_r. assumption.
    + rewrite merge_cons.
      apply StronglySorted_inv in Hl as [Hl Hxl].
      pose proof Hr as Hr0.
      apply StronglySorted_inv in Hr as [Hr Hyr].
      destruct (key_le lkey x y) eqn:Hxy.
      * constructor; [apply IHl; assumption|].
        apply merge_Forall; [assumption|].
        constructor; [exact Hxy|].
        eapply Forall_impl; [exact Hyr|].
        intros z Hz. eapply le_key_trans; eassumption.
      * apply le_key_flip in Hxy.
        constructor.
        -- apply IHr; assumption.
        -- apply merge_Forall; [|assumption].
           constructor; [exact Hxy|].
           eapply Forall_impl; [exact Hxl|].
           intros z Hz. eapply le_key_trans; eassumption.
Qed.

(** Items that sort after [y] have another key than [y]. *)
Lemma filter_key_above (k : string) (y : A) (l : list A) :
  lkey y = k ->
  Forall (fun z => key_le lkey z y = false) l ->
  filter (fun d => lkey d = k) l = [].
Proof.
  intros Hk Hl. induction Hl as [|z l Hz Hl IH]; [reflexivity|].
  rewrite filter_cons. destruct (decide (lkey z = k)) as [Hzk|]; [|exact IH].
  exfalso. unfold key_le in Hz. 
  rewrite Hzk, Hk, string_leb_refl in Hz. discriminate.
Qed.

Lemma merge_stable (k : string) (l r : list A) :
  StronglySorted le_key l ->
  filter (fun d => lkey d = k) (merge_total l r lkey) =
  (filter (fun d => lkey d = k) l ++ filter (fun d => lkey d = k) r)%list.
Proof.
  revert r. induction l as [|x l IHl]; intros r Hl.
  - rewrite merge_nil_l. reflexivity.
  - induction r as [|y r IHr].
    + rewrite merge_nil_r, filter_nil, app_nil_r. reflexivity.
    + rewrite merge_cons.
      pose proof Hl as Hl0.
      apply StronglySorted_inv in Hl as [Hl Hxl].
      destruct (key_le lkey x y) eqn:Hxy.
      * rewrite !(filter_cons _ x). rewrite IHl by assumption.
        destruct (decide (lkey x = k)); reflexivity.
      * rewrite !(filter_cons _ y). rewrite IHr.
        destruct (decide (lkey y = k)) as [Hyk|]; [|reflexivity].
        assert (Hnone : filter (fun d => lkey d = k) (x :: l) = []).
        { apply (filter_key_above k y); [exact Hyk|].
          constructor; [exact Hxy|].
          eapply Forall_impl; [exact Hxl|].
          intros z Hz. destruct (key_le lkey z y) eqn:Hzy; [|reflexivity].
          assert (Hc : le_key x y) by (eapply le_key_trans; eassumption).
          unfold le_key in Hc. congruence. }
        rewrite Hnone. reflexivity.
Qed.

Lemma merge_sort_spec (arr : list A) :
  StronglySorted le_key (merge_sort_total arr lkey)
  /\ Permutation (merge_sort_total arr lkey) arr
  /\ forall k, filter (fun d => lkey d = k) (merge_sort_total arr lkey)
               = filter (fun d => lkey d = k) arr.
Proof.
  funelim (merge_sort_total arr lkey).
  - (* at most one item *)
    split; [|split; [reflexivity | intros; reflexivity]].
    destruct arr as [|x [|y arr]]; simpl in *; try lia; repeat constructor.
  - (* two halves *)
    match goal with
    | H1 : StronglySorted _ (merge_sort_total (take _ _) _) /\ _,
      H2 : StronglySorted _ (merge_sort_total (drop _ _) _) /\ _ |- _ =>
        destruct H1 as (Hs1 & Hp1 & Hf1); destruct H2 as (Hs2 & Hp2 & Hf2)
    end.
    split; [apply merge_sorted; assumption|]. split.
    + rewrite merge_perm, Hp1, Hp2, take_drop. reflexivity.
    + intros k. rewrite merge_stable by assumption.
      rewrite Hf1, Hf2, <- filter_app, take_drop. reflexivity.
Qed.

End MergeSortFacts.

(** ** The sort under a key that may raise *)

Section MergeSortRaising.
Context `{PyLib} {A : Type} (key : A -> Exc pyval).

(** [x]'s key evaluates. *)
Let evaluates (x : A) : Prop := exists k, lowered key x = inl k.

Lemma lowered_value_eq (x : A) (k : string) :
  lowered key x = inl k -> lowered_value key x = k.
Proof. unfold lowered_value. intros ->. reflexivity. Qed.

Lemma merge_raising_nil_l (r : list A) : merge [] r key = inl r.
Proof. destruct r; reflexivity. Qed.

Lemma merge_raising_nil_r (l : list A) : merge l [] key = inl l.
Proof. destruct l; reflexivity. Qed.

Lemma merge_raising_cons (x y : A) (l r : list A) :
  merge (x :: l) (y :: r) key =
  match lowered key x with
  | inr e => inr e
  | inl kx =>
      match lowered key y with
      | inr e => inr e
      | inl ky =>
          if String.leb kx ky then
            match merge l (y :: r) key with
            | inl rest => inl (x :: rest)
            | inr e => inr e
            end
          else
            match merge (x :: l) r key with
            | inl rest => inl (y :: rest)
            | inr e => inr e
            end
      end
  end.
Proof. reflexivity. Qed.

(** A merge that returns is the merge by the values of the keys. *)
Lemma merge_returns (l r res : list A) :
  merge l r key = inl res -> res = merge_total l r (lowered_value key).
Proof.
  revert r res. induction l as [|x l IHl]; intros r res.
  - rewrite merge_raising_nil_l, merge_nil_l. intros [= <-]. reflexivity.
  - revert res. induction r as [|y r IHr]; intros res.
    + rewrite merge_raising_nil_r, merge_nil_r. intros [= <-]. reflexivity.
    + rewrite merge_raising_cons, merge_cons. unfold key_le.
      destruct (lowered key x) as [kx|] eqn:Hx; [|inversion 1].
      destruct (lowered key y) as [ky|] eqn:Hy; [|inversion 1].
      rewrite (lowered_value_eq _ _ Hx), (lowered_value_eq _ _ Hy).
      destruct (String.leb kx ky).
      * destruct (merge l (y :: r) key) as [rest|] eqn:Hrest; [|inversion 1].
        intros [= <-]. rewrite (IHl _ _ Hrest). reflexivity.
      * destruct (merge (x :: l) r key) as [rest|]; [|inversion 1].
        intros [= <-]. rewrite (IHr _ eq_refl). reflexivity.
Qed.

(** A merge of two lists that are not empty takes the keys of both heads. *)
Lemma merge_takes_heads (x y : A) (l r res : list A) :
  merge (x :: l) (y :: r) key = inl res -> evaluates x /\ evaluates y.
Proof.
  rewrite merge_raising_cons. unfold evaluates.
  destruct (lowered key x) as [kx|]; [|inversion 1].
  destruct (lowered key y) as [ky|]; [|inversion 1]. eauto.
Qed.

(** With keys that evaluate, the merge returns. *)
Lemma merge_evaluated (l r : list A) :
  Forall evaluates l -> Forall evaluates r ->
  merge l r key = inl (merge_total l r (lowered_value key)).
Proof.
  revert r. induction l as [|x l IHl]; intros r Hl Hr.
  - rewrite merge_raising_nil_l, merge_nil_l. reflexivity.
  - induction r as [|y r IHr].
    + rewrite merge_raising_nil_r, merge_nil_r. reflexivity.
    + rewrite merge_raising_cons, merge_cons. unfold key_le.
      pose proof Hl as Hl0. pose proof Hr as Hr0.
      apply Forall_cons in Hl as [[kx Hx] Hl].
      apply Forall_cons in Hr as [[ky Hy] Hr].
      rewrite Hx, Hy.
      rewrite (lowered_value_eq _ _ Hx), (lowered_value_eq _ _ Hy).
      destruct (String.leb kx ky).
      * rewrite (IHl _ Hl Hr0). reflexivity.
      * rewrite (IHr Hr). reflexivity.
Qed.

Lemma merge_sort_step (arr : list A) :
  merge_sort arr key =
  if le_lt_dec (length arr) 1 then inl arr
  else
    match merge_sort (take (length arr / 2) arr) key with
    | inr e => inr e
    | inl lft =>
        match merge_sort (drop (length arr / 2) arr) key with
        | inr e => inr e
        | inl rgt => merge lft rgt key
        end
    end.
Proof.
  etransitivity; [apply merge_sort_unfold_eq|]. unfold merge_sort_unfold.
  destruct (le_lt_dec (length arr) 1); reflexivity.
Qed.

Lemma merge_sort_total_step (lkey : A -> string) (arr : list A) :
  merge_sort_total arr lkey =
  if le_lt_dec (length arr) 1 then arr
  else
    merge_total (merge_sort_total (take (length arr / 2) arr) lkey)
                (merge_sort_total (drop (length arr / 2) arr) lkey) lkey.
Proof.
  etransitivity; [apply merge_sort_total_unfold_eq|].
  unfold merge_sort_total_unfold.
  destruct (le_lt_dec (length arr) 1); reflexivity.
Qed.

Lemma halves_shorter (arr : list A) :
  (1 < length arr)%nat ->
  (0 < length (take (length arr / 2) arr) < length arr)%nat
  /\ (0 < length (drop (length arr / 2) arr) < length arr)%nat.
Proof.
  intros Hlen. rewrite length_take, length_drop.
  assert (length arr / 2 < length arr)%nat by (apply Nat.div_lt; lia).
  assert (0 < length arr / 2)%nat by (apply Nat.div_str_pos; lia).
  lia.
Qed.

(** A sort that returns is the sort by the values of the keys, and it has
    taken the key of every item when there are two or more. *)
Lemma merge_sort_returns_aux (n : nat) : forall (arr res : list A),
  (length arr <= n)%nat ->
  merge_sort arr key = inl res ->
  res = merge_sort_total arr (lowered_value key)
  /\ ((1 < length arr)%nat -> Forall evaluates arr).
Proof.
  induction n as [|n IH]; intros arr res Hn.
  - rewrite merge_sort_step, merge_sort_total_step.
    destruct (le_lt_dec (length arr) 1); [|lia].
    intros [= <-]. split; [reflexivity|lia].
  - rewrite merge_sort_step, merge_sort_total_step.
    destruct (le_lt_dec (length arr) 1) as [Hshort|Hlong].
    { intros [= <-]. split; [reflexivity|lia]. }
    destruct (halves_shorter arr Hlong) as [Htake Hdrop].
    destruct (merge_sort (take (length arr / 2) arr) key) as [lft|] eqn:Hl;
      [|inversion 1].
    destruct (merge_sort (drop (length arr / 2) arr) key) as [rgt|] eqn:Hr;
      [|inversion 1].
    assert (Hlen_l : (length (take (length arr / 2) arr) <= n)%nat) by lia.
    assert (Hlen_r : (length (drop (length arr / 2) arr) <= n)%nat) by lia.
    destruct (IH _ _ Hlen_l Hl) as [Elft Hevl].
    destruct (IH _ _ Hlen_r Hr) as [Ergt Hevr].
    intros Hmerge. split.
    + rewrite (merge_returns _ _ _ Hmerge), Elft, Ergt. reflexivity.
    + intros _.
      set (lhalf := take (length arr / 2) arr) in *.
      set (rhalf := drop (length arr / 2) arr) in *.
      assert (Hperm_l : Permutation lft lhalf).
      { rewrite Elft. apply (merge_sort_spec (lowered_value key) lhalf). }
      assert (Hperm_r : Permutation rgt rhalf).
      { rewrite Ergt. apply (merge_sort_spec (lowered_value key) rhalf). }
      assert (Hheads : Forall evaluates lhalf /\ Forall evaluates rhalf).
      { destruct lft as [|x lft'];
          [apply Permutation_length in Hperm_l; simpl in Hperm_l; lia|].
        destruct rgt as [|y rgt'];
          [apply Permutation_length in Hperm_r; simpl in Hperm_r; lia|].
        apply merge_takes_heads in Hmerge as [Hx Hy]. split.
        - destruct (le_lt_dec (length lhalf) 1) as [Hone|Hmore];
            [|apply Hevl, Hmore].
          destruct lft' as [|? ?];
            [|apply Permutation_length in Hperm_l; simpl in Hperm_l; lia].
          rewrite <- Hperm_l. constructor; [exact Hx|constructor].
        - destruct (le_lt_dec (length rhalf) 1) as [Hone|Hmore];
            [|apply Hevr, Hmore].
          destruct rgt' as [|? ?];
            [|apply Permutation_length in Hperm_r; simpl in Hperm_r; lia].
          rewrite <- Hperm_r. constructor; [exact Hy|constructor]. }
      destruct Hheads as [Hl' Hr'].
      rewrite <- (take_drop (length arr / 2) arr).
      apply Forall_app. split; assumption.
Qed.

Lemma merge_sort_returns (arr res : list A) :
  merge_sort arr key = inl res ->
  res = merge_sort_total arr (lowered_value key)
  /\ ((1 < length arr)%nat -> Forall evaluates arr).
Proof. apply (merge_sort_returns_aux (length arr)). lia. Qed.

(** With keys that evaluate, the sort returns. *)
Lemma merge_sort_evaluated_aux (n : nat) : forall (arr : list A),
  (length arr <= n)%nat ->
  Forall evaluates arr ->
  merge_sort arr key = inl (merge_sort_total arr (lowered_value key)).
Proof.
  induction n as [|n IH]; intros arr Hn Hev;
    rewrite merge_sort_step, merge_sort_total_step;
    destruct (le_lt_dec (length arr) 1) as [Hshort|Hlong];
    try reflexivity; try lia.
  destruct (halves_shorter arr Hlong) as [Htake Hdrop].
  rewrite <- (take_drop (length arr / 2) arr) in Hev.
  apply Forall_app in Hev as [Hl Hr].
  assert (Hlen_l : (length (take (length arr / 2) arr) <= n)%nat) by lia.
  assert (Hlen_r : (length (drop (length arr / 2) arr) <= n)%nat) by lia.
  rewrite (IH _ Hlen_l Hl), (IH _ Hlen_r Hr).
  apply merge_evaluated.
  - eapply Permutation_Forall; [|exact Hl].
    symmetry. apply (merge_sort_spec (lowered_value key)).
  - eapply Permutation_Forall; [|exact Hr].
    symmetry. apply (merge_sort_spec (lowered_value key)).
Qed.

Lemma merge_sort_evaluated (arr : list A) :
  Forall evaluates arr ->
  merge_sort arr key = inl (merge_sort_total arr (lowered_value key)).
Proof. apply (merge_sort_evaluated_aux (length arr)). lia. Qed.

End MergeSortRaising.

(** ** The matchers leave the extraction fields alone *)


Lemma extraction_not_annotation (k : string) :
  k ∈ extraction_fields -> k ∉ annotation_fields.
Proof.
  unfold extraction_fields, annotation_fields. intros Hin Hout.
  repeat (apply elem_of_cons in Hin as [-> | Hin];
          [ repeat (apply elem_of_cons in Hout as [Hout | Hout];
                    [discriminate Hout|]);
            apply elem_of_nil in Hout; exact Hout |]).
  apply elem_of_nil in Hin. exact Hin.
Qed.

(** Closes an equation between closed terms by evaluating both sides. *)
Ltac by_evaluation :=
  match goal with
  | |- @eq ?T ?l ?r => vm_cast_no_check (@eq_refl T r)
  end.

Ltac split_annotation_keys H :=
  unfold annotation_fields in H;
  repeat (apply not_elem_of_cons in H as [? H]).

Ltac frame_inserts :=
  unfold line_update; repeat (rewrite lookup_insert_ne by congruence);
  try reflexivity.

Section MatcherFrame.
Context `{PyLib}.

Lemma fuzzy_match_line_frame df code_col desc_col min_score (line : dict) k :
  k ∉ annotation_fields ->
  fuzzy_match_line df code_col desc_col min_score line !! k = line !! k.
Proof.
  intros Hk. split_annotation_keys Hk. unfold fuzzy_match_line.
  destruct (lexical_matches line df code_col desc_col min_score);
    frame_inserts.
Qed.

Lemma match_line_frame g df code_col desc_col min_score thr (line : dict) k :
  k ∉ annotation_fields ->
  (match_line g df code_col desc_col min_score thr line).1 !! k = line !! k.
Proof.
  intros Hk. split_annotation_keys Hk. unfold match_line.
  destruct (lexical_matches line df code_col desc_col min_score) as [|best rest];
    [simpl; frame_inserts|].
  destruct g as [generate_content|]; [|simpl; frame_inserts].
  destruct (score best <? thr)%float; [|simpl; frame_inserts].
  match goal with |- context [if ?c then _ else _] => destruct c end;
    simpl; frame_inserts.
Qed.

Lemma deref_insert_eq (h : heap) (r : ref) (d : dict) :
  deref (<[r := d]> h) r = d.
Proof. unfold deref. rewrite lookup_insert_eq. reflexivity. Qed.

Lemma deref_insert_ne (h : heap) (r r' : ref) (d : dict) :
  r <> r' -> deref (<[r := d]> h) r' = deref h r'.
Proof. intros Hne. unfold deref. rewrite lookup_insert_ne by exact Hne. reflexivity. Qed.

Lemma fuzzy_match_loop_spec df code_col desc_col min_score lines :
  forall h results h' results',
  fuzzy_match_loop df code_col desc_col min_score lines h results = (h', results') ->
  results' = (results ++ lines)%list
  /\ (forall r k, k ∉ annotation_fields -> deref h' r !! k = deref h r !! k)
  /\ (forall r, r ∉ lines -> h' !! r = h !! r).
Proof.
  induction lines as [|line rest IH]; intros h results h' results' Hloop.
  - simpl in Hloop. injection Hloop as <- <-. rewrite app_nil_r. auto.
  - simpl in Hloop. apply IH in Hloop as (-> & Hframe & Hother).
    split; [rewrite <- app_assoc; reflexivity|]. split.
    + intros r k Hk. rewrite Hframe by exact Hk.
      destruct (decide (line = r)) as [->|Hne].
      * rewrite deref_insert_eq. apply fuzzy_match_line_frame. exact Hk.
      * rewrite deref_insert_ne by exact Hne. reflexivity.
    + intros r Hr. apply not_elem_of_cons in Hr as [Hne Hr].
      rewrite Hother by exact Hr. apply lookup_insert_ne. congruence.
Qed.

Lemma match_loop_spec g df code_col desc_col min_score thr lines :
  forall calls h results h' results',
  match_loop g df code_col desc_col min_score thr lines calls h results
    = (h', results') ->
  results' = (results ++ lines)%list
  /\ (forall r k, k ∉ annotation_fields -> deref h' r !! k = deref h r !! k)
  /\ (forall r, r ∉ lines -> h' !! r = h !! r).
Proof.
  induction lines as [|line rest IH]; intros calls h results h' results' Hloop.
  - simpl in Hloop. injection Hloop as <- <-. rewrite app_nil_r. auto.
  - simpl in Hloop.
    destruct (match_line (option_map (fun g0 => g0 calls) g) df code_col
                desc_col min_score thr (deref h line)) as [annotated called] eqn:Hline.
    apply IH in Hloop as (-> & Hframe & Hother).
    split; [rewrite <- app_assoc; reflexivity|]. split.
    + intros r k Hk. rewrite Hframe by exact Hk.
      destruct (decide (line = r)) as [->|Hne].
      * rewrite deref_insert_eq.
        pose proof (match_line_frame (option_map (fun g0 => g0 calls) g) df
                      code_col desc_col min_score thr (deref h r) k Hk) as Hf.
        rewrite Hline in Hf. exact Hf.
      * rewrite deref_insert_ne by exact Hne. reflexivity.
    + intros r Hr. apply not_elem_of_cons in Hr as [Hne Hr].
      rewrite Hother by exact Hr. apply lookup_insert_ne. congruence.
Qed.

End MatcherFrame.

(** ** The order on floats

    [<], [<=] and [==] on binary64 values, read off their specification
    ([Prim2SF]): apart from NaN, floats are ordered like the triples
    [float_rank] gives them, compared lexicographically. *)


Lemma rank_compare_spec (a b : Z * (Z * Z)) :
  match rank_compare a b with
  | Lt => rank_lt a b
  | Eq => a = b
  | Gt => rank_lt b a
  end.
Proof.
  destruct a as [a1 [a2 a3]], b as [b1 [b2 b3]].
  unfold rank_compare, rank_lt. simpl.
  destruct (Z.compare_spec a1 b1); [|lia|lia].
  destruct (Z.compare_spec a2 b2); [|lia|lia].
  destruct (Z.compare_spec a3 b3); [|lia|lia].
  subst. reflexivity.
Qed.

Lemma SFcompare_rank (f g : spec_float) (a b : Z * (Z * Z)) :
  float_rank f = Some a -> float_rank g = Some b ->
  SFcompare f g = Some (rank_compare a b).
Proof.
  destruct f as [s1|s1| |s1 m1 e1], g as [s2|s2| |s2 m2 e2];
    try destruct s1; try destruct s2; simpl;
    intros [= <-] [= <-]; try reflexivity;
    unfold rank_compare; simpl.
  rewrite Z.compare_opp.
  rewrite (Z.compare_antisym e1 e2).
  destruct (e1 ?= e2)%Z; reflexivity.
Qed.

Lemma SFcompare_nan (f g : spec_float) :
  float_rank f = None \/ float_rank g = None -> SFcompare f g = None.
Proof.
  destruct f as [s1|s1| |s1 m1 e1], g as [s2|s2| |s2 m2 e2];
    try destruct s1; try destruct s2; simpl; intros [Hn | Hn];
    try discriminate; reflexivity.
Qed.


Lemma float_compare_cases (x y : float) :
  match rank x, rank y with
  | Some a, Some b =>
      (x <? y)%float = (if rank_compare a b is Lt then true else false)
      /\ (x <=? y)%float = (if rank_compare a b is Gt then false else true)
      /\ (x =? y)%float = (if rank_compare a b is Eq then true else false)
  | _, _ =>
      (x <? y)%float = false /\ (x <=? y)%float = false
      /\ (x =? y)%float = false
  end.
Proof.
  rewrite FloatAxioms.ltb_spec, FloatAxioms.leb_spec, FloatAxioms.eqb_spec.
  unfold SFltb, SFleb, SFeqb, rank.
  destruct (float_rank (Prim2SF x)) as [a|] eqn:Hx;
    destruct (float_rank (Prim2SF y)) as [b|] eqn:Hy.
  - rewrite (SFcompare_rank _ _ a b Hx Hy).
    destruct (rank_compare a b); auto.
  - rewrite SFcompare_nan by auto. auto.
  - rewrite SFcompare_nan by auto. auto.
  - rewrite SFcompare_nan by auto. auto.
Qed.

Lemma is_nan_rank (x : float) : is_nan x = false <-> is_Some (rank x).
Proof.
  unfold is_nan. pose proof (float_compare_cases x x) as Hc.
  destruct (rank x) as [a|].
  - destruct Hc as (_ & _ & ->).
    pose proof (rank_compare_spec a a) as Hs.
    destruct (rank_compare a a); simpl; split; eauto;
      unfold rank_lt in Hs; lia.
  - destruct Hc as (_ & _ & ->). simpl. split; [discriminate|].
    intros [? ?]; discriminate.
Qed.

Lemma float_leb_iff (x y : float) :
  (x <=? y)%float = true <->
  exists a b, rank x = Some a /\ rank y = Some b /\ rank_le a b.
Proof.
  pose proof (float_compare_cases x y) as Hc.
  destruct (rank x) as [a|], (rank y) as [b|];
    try (destruct Hc as (_ & -> & _); split;
         [discriminate | intros (? & ? & ? & ? & ?); discriminate]).
  destruct Hc as (_ & -> & _).
  pose proof (rank_compare_spec a b) as Hs.
  destruct (rank_compare a b); split; intros Hle;
    try discriminate; try reflexivity.
  - exists a, b. subst. unfold rank_le. repeat split; lia.
  - exists a, b. unfold rank_lt in Hs. unfold rank_le. repeat split; lia.
  - destruct Hle as (a' & b' & [= <-] & [= <-] & Hle).
    unfold rank_lt in Hs. unfold rank_le in Hle. lia.
Qed.

Lemma float_ltb_iff (x y : float) :
  (x <? y)%float = true <->
  exists a b, rank x = Some a /\ rank y = Some b /\ rank_lt a b.
Proof.
  pose proof (float_compare_cases x y) as Hc.
  destruct (rank x) as [a|], (rank y) as [b|];
    try (destruct Hc as (-> & _ & _); split;
         [discriminate | intros (? & ? & ? & ? & ?); discriminate]).
  destruct Hc as (-> & _ & _).
  pose proof (rank_compare_spec a b) as Hs.
  destruct (rank_compare a b); split; intros Hlt;
    try discriminate; try reflexivity.
  - destruct Hlt as (a' & b' & [= <-] & [= <-] & Hlt).
    subst. unfold rank_lt in Hlt. lia.
  - exists a, b. auto.
  - destruct Hlt as (a' & b' & [= <-] & [= <-] & Hlt).
    unfold rank_lt in Hs, Hlt. lia.
Qed.

Lemma float_eqb_iff (x y : float) :
  (x =? y)%float = true <-> exists a, rank x = Some a /\ rank y = Some a.
Proof.
  pose proof (float_compare_cases x y) as Hc.
  destruct (rank x) as [a|], (rank y) as [b|];
    try (destruct Hc as (_ & _ & ->); split;
         [discriminate | intros (? & ? & ?); discriminate]).
  destruct Hc as (_ & _ & ->).
  pose proof (rank_compare_spec a b) as Hs.
  destruct (rank_compare a b); split; intros Heq;
    try discriminate; try reflexivity.
  - exists a. subst. auto.
  - destruct Heq as (a' & [= <-] & [= <-]). unfold rank_lt in Hs. lia.
  - destruct Heq as (a' & [= <-] & [= <-]). unfold rank_lt in Hs. lia.
Qed.

(** [thr <= s] rules out [s < thr]. *)
Lemma float_leb_not_ltb (x y : float) :
  (x <=? y)%float = true -> (y <? x)%float = false.
Proof.
  intros Hle. destruct (y <? x)%float eqn:Hlt; [|reflexivity].
  apply float_leb_iff in Hle as (a & b & Ha & Hb & Hle).
  apply float_ltb_iff in Hlt as (b' & a' & Hb' & Ha' & Hlt).
  rewrite Ha in Ha'. rewrite Hb in Hb'. injection Ha' as <-. injection Hb' as <-.
  unfold rank_le in Hle. unfold rank_lt in Hlt. lia.
Qed.

(** Apart from NaN, [not (x < y)] is [y <= x]. *)
Lemma float_not_ltb_leb (x y : float) :
  is_nan x = false -> is_nan y = false ->
  (x <? y)%float = false -> (y <=? x)%float = true.
Proof.
  intros Hx Hy Hlt.
  apply is_nan_rank in Hx as [a Ha]. apply is_nan_rank in Hy as [b Hb].
  apply float_leb_iff. exists b, a. repeat split; try assumption.
  pose proof (rank_compare_spec a b) as Hs.
  destruct (rank_compare a b) eqn:Hc.
  - subst. unfold rank_le. lia.
  - exfalso. assert (Ht : (x <? y)%float = true)
      by (apply float_ltb_iff; exists a, b; auto).
    congruence.
  - unfold rank_lt in Hs. unfold rank_le. lia.
Qed.

Lemma float_leb_trans (x y z : float) :
  (x <=? y)%float = true -> (y <=? z)%float = true -> (x <=? z)%float = true.
Proof.
  intros Hxy Hyz.
  apply float_leb_iff in Hxy as (a & b & Ha & Hb & Hab).
  apply float_leb_iff in Hyz as (b' & c & Hb' & Hc & Hbc).
  rewrite Hb in Hb'. injection Hb' as <-.
  apply float_leb_iff. exists a, c. repeat split; try assumption.
  unfold rank_le in *. lia.
Qed.

(** ** What the engine writes on a line *)

Section Engine.
Context `{PyLib}.

Lemma match_descriptions_inv h lines df min_score thr use_gemini load h' results :
  match_descriptions h lines df min_score thr use_gemini load = inl (h', results) ->
  exists code_col desc_col cols g,
    columns df = code_col :: desc_col :: cols
    /\ gemini_setup use_gemini load = inl g
    /\ match_loop g df code_col desc_col min_score thr lines 0 h [] = (h', results).
Proof.
  unfold match_descriptions.
  destruct (columns df) as [|code_col [|desc_col cols]]; try discriminate.
  destruct (gemini_setup use_gemini load) as [g|e]; simpl; [|discriminate].
  intros [= Hloop]. exists code_col, desc_col, cols, g. auto.
Qed.

Lemma fuzzy_match_descriptions_inv h lines df min_score h' results :
  fuzzy_match_descriptions h lines df min_score = inl (h', results) ->
  exists code_col desc_col cols,
    columns df = code_col :: desc_col :: cols
    /\ fuzzy_match_loop df code_col desc_col min_score lines h [] = (h', results).
Proof.
  unfold fuzzy_match_descriptions.
  destruct (columns df) as [|code_col [|desc_col cols]]; try discriminate.
  intros [= Hloop]. exists code_col, desc_col, cols. auto.
Qed.

(** The candidates of a line depend on its description only. *)
Lemma lexical_matches_description (d line : dict) df code_col desc_col min_score :
  d !! "description" = line !! "description" ->
  lexical_matches d df code_col desc_col min_score
  = lexical_matches line df code_col desc_col min_score.
Proof. intros Hd. unfold lexical_matches, line_get. rewrite Hd. reflexivity. Qed.

Lemma description_not_annotation : "description" ∉ annotation_fields.
Proof. apply extraction_not_annotation. unfold extraction_fields. set_solver. Qed.

(** After the loop, a line of the batch holds what its last turn wrote, and
    that turn read the description the line came with. *)
Lemma match_loop_final g df code_col desc_col min_score thr lines :
  forall calls h results h' results' r,
  match_loop g df code_col desc_col min_score thr lines calls h results
    = (h', results') ->
  r ∈ lines ->
  exists n d,
    deref h' r
    = (match_line (option_map (fun g0 => g0 n) g) df code_col desc_col
         min_score thr d).1
    /\ d !! "description" = deref h r !! "description".
Proof.
  induction lines as [|line rest IH]; intros calls h results h' results' r Hloop Hr.
  - apply elem_of_nil in Hr. destruct Hr.
  - simpl in Hloop.
    destruct (match_line (option_map (fun g0 => g0 calls) g) df code_col
                desc_col min_score thr (deref h line)) as [annotated called] eqn:Hline.
    destruct (decide (r ∈ rest)) as [Hin|Hnotin].
    + destruct (IH _ _ _ _ _ r Hloop Hin) as (n & d & Hfinal & Hd).
      exists n, d. split; [exact Hfinal|]. rewrite Hd.
      destruct (decide (line = r)) as [->|Hne].
      * rewrite deref_insert_eq.
        pose proof (match_line_frame (option_map (fun g0 => g0 calls) g) df
                      code_col desc_col min_score thr (deref h r) "description"
                      description_not_annotation) as Hf.
        rewrite Hline in Hf. exact Hf.
      * rewrite deref_insert_ne by exact Hne. reflexivity.
    + apply elem_of_cons in Hr as [->|Hr]; [|contradiction].
      apply match_loop_spec in Hloop as (_ & _ & Hother).
      exists calls, (deref h line). split; [|reflexivity].
      unfold deref at 1. rewrite Hother by exact Hnotin.
      rewrite lookup_insert_eq. simpl. rewrite Hline. reflexivity.
Qed.

(** No candidate: the four fields of the no-match annotation. *)
Lemma match_line_no_match g df code_col desc_col min_score thr (d : dict) :
  lexical_matches d df code_col desc_col min_score = [] ->
  let annotated := (match_line g df code_col desc_col min_score thr d).1 in
  annotated !! "matched_code" = Some PNone
  /\ annotated !! "matched_description" = Some PNone
  /\ annotated !! "score" = Some (PFloat 0)
  /\ annotated !! "status" = Some (PStr "fara_potriviri").
Proof.
  intros Hnone. unfold match_line. rewrite Hnone. simpl.
  repeat split;
    repeat (first [ rewrite lookup_insert_eq; reflexivity
                  | rewrite lookup_insert_ne by discriminate ]).
Qed.

(** Arbiter out of the way: the best candidate, and the status its score
    earns. *)
Lemma match_line_adopts_best g df code_col desc_col min_score thr (d : dict)
    best others :
  lexical_matches d df code_col desc_col min_score = best :: others ->
  g = None \/ (thr <=? score best)%float = true ->
  let annotated := (match_line g df code_col desc_col min_score thr d).1 in
  annotated !! "matched_code" = Some (matched_code best)
  /\ annotated !! "matched_description" = Some (matched_description best)
  /\ annotated !! "score" = Some (PFloat (score best))
  /\ annotated !! "status" =
      Some (PStr (if (thr <=? score best)%float then "potrivit_fuzzy"
                  else "fuzzy_confidence_scazut")).
Proof.
  intros Hbest Hcase. unfold match_line. rewrite Hbest.
  assert (Hplain :
    let annotated :=
      <["status" := PStr (if (thr <=? score best)%float then "potrivit_fuzzy"
                          else "fuzzy_confidence_scazut")]>
        (line_update d best) in
    annotated !! "matched_code" = Some (matched_code best)
    /\ annotated !! "matched_description" = Some (matched_description best)
    /\ annotated !! "score" = Some (PFloat (score best))
    /\ annotated !! "status" =
        Some (PStr (if (thr <=? score best)%float then "potrivit_fuzzy"
                    else "fuzzy_confidence_scazut"))).
  { unfold line_update. simpl.
    repeat split;
      repeat (first [ rewrite lookup_insert_eq; reflexivity
                    | rewrite lookup_insert_ne by discriminate ]). }
  destruct g as [generate_content|]; [|exact Hplain].
  destruct Hcase as [Hg | Hthr]; [discriminate|].
  rewrite (float_leb_not_ltb _ _ Hthr). exact Hplain.
Qed.

End Engine.

(** ** The reconciliation engine, line by line *)

(** C9.  With a catalog of at least two columns (and an arbiter set-up that
    does not raise), both matchers return; the list returned is the list of
    lines passed in, same length and same order; every line still has its
    extraction fields ([line_id], [description], [quantity], [unit_price],
    [line_total]) as they were: only the annotation fields are written. *)
Theorem matchers_keep_lines_and_extraction_fields `{PyLib}
    (h : heap) (lines : list ref) (df_codes : DataFrame)
    (min_score gemini_threshold : float) (use_gemini : bool)
    (load_gemini : Exc (nat -> string -> Exc string))
    (code_col desc_col : string) (cols : list string)
    (g : option (nat -> string -> Exc string)) :
  columns df_codes = code_col :: desc_col :: cols ->
  gemini_setup use_gemini load_gemini = inl g ->
  (exists h' results,
      match_descriptions h lines df_codes min_score gemini_threshold
        use_gemini load_gemini = inl (h', results)
      /\ results = lines /\ length results = length lines
      /\ (forall r k, k ∈ extraction_fields -> deref h' r !! k = deref h r !! k)
      /\ (forall r k, k ∉ annotation_fields -> deref h' r !! k = deref h r !! k))
  /\ (exists h' results,
      fuzzy_match_descriptions h lines df_codes min_score = inl (h', results)
      /\ results = lines /\ length results = length lines
      /\ (forall r k, k ∈ extraction_fields -> deref h' r !! k = deref h r !! k)
      /\ (forall r k, k ∉ annotation_fields -> deref h' r !! k = deref h r !! k)).
Proof.
  intros Hcols Hsetup. split.
  - unfold match_descriptions. rewrite Hcols, Hsetup. simpl.
    destruct (match_loop g df_codes code_col desc_col min_score
                gemini_threshold lines 0 h []) as [h' results] eqn:Hloop.
    exists h', results. split; [reflexivity|].
    apply match_loop_spec in Hloop as (-> & Hframe & _). simpl.
    repeat split; auto.
    intros r k Hk. apply Hframe, extraction_not_annotation, Hk.
  - unfold fuzzy_match_descriptions. rewrite Hcols.
    destruct (fuzzy_match_loop df_codes code_col desc_col min_score lines h [])
      as [h' results] eqn:Hloop.
    exists h', results. split; [reflexivity|].
    apply fuzzy_match_loop_spec in Hloop as (-> & Hframe & _). simpl.
    repeat split; auto.
    intros r k Hk. apply Hframe, extraction_not_annotation, Hk.
Qed.

Lemma matchers_keep_lines_witness :
  (exists h' results,
      @match_descriptions Reference.lib Sample.lines_heap [0; 1]%nat
        Sample.catalog DEFAULT_MIN_SCORE DEFAULT_GEMINI_THRESHOLD true
        (inl Sample.backend_C999) = inl (h', results)
      /\ results = [0; 1]%nat /\ length results = 2%nat
      /\ (forall r k, k ∈ extraction_fields ->
            deref h' r !! k = deref Sample.lines_heap r !! k)
      /\ (forall r k, k ∉ annotation_fields ->
            deref h' r !! k = deref Sample.lines_heap r !! k))
  /\ (exists h' results,
      @fuzzy_match_descriptions Reference.lib Sample.lines_heap [0; 1]%nat
        Sample.catalog DEFAULT_MIN_SCORE = inl (h', results)
      /\ results = [0; 1]%nat /\ length results = 2%nat
      /\ (forall r k, k ∈ extraction_fields ->
            deref h' r !! k = deref Sample.lines_heap r !! k)
      /\ (forall r k, k ∉ annotation_fields ->
            deref h' r !! k = deref Sample.lines_heap r !! k)).
Proof.
  apply (@matchers_keep_lines_and_extraction_fields Reference.lib
           Sample.lines_heap [0; 1]%nat Sample.catalog DEFAULT_MIN_SCORE
           DEFAULT_GEMINI_THRESHOLD true (inl Sample.backend_C999)
           "code" "description" [] (Some Sample.backend_C999));
    reflexivity.
Defined.

(** C6.  A line of the batch for which no catalog row reaches [min_score]
    ends with [matched_code] and [matched_description] null, [score] 0.0
    and the no-match status, and the loop goes on: the run returns all the
    lines. *)
Theorem line_without_candidate_is_marked_no_match `{PyLib}
    (h h' : heap) (lines results : list ref) (df_codes : DataFrame)
    (min_score gemini_threshold : float) (use_gemini : bool)
    (load_gemini : Exc (nat -> string -> Exc string))
    (code_col desc_col : string) (cols : list string) (r : ref) :
  match_descriptions h lines df_codes min_score gemini_threshold
    use_gemini load_gemini = inl (h', results) ->
  columns df_codes = code_col :: desc_col :: cols ->
  r ∈ lines ->
  Forall
    (fun row =>
       (min_score <=?
          sequence_ratio
            (str_lower (py_str (line_get (deref h r) "description" (PStr ""))))
            (str_lower (py_str (cell row desc_col))))%float = false)
    (rows df_codes) ->
  deref h' r !! "matched_code" = Some PNone
  /\ deref h' r !! "matched_description" = Some PNone
  /\ deref h' r !! "score" = Some (PFloat 0)
  /\ deref h' r !! "status" = Some (PStr "fara_potriviri")
  /\ results = lines.
Proof.
  intros Hrun Hcols Hr Hbelow.
  apply match_descriptions_inv in Hrun
    as (code_col' & desc_col' & cols' & g & Hcols' & _ & Hloop).
  rewrite Hcols in Hcols'. injection Hcols' as <- <- <-.
  destruct (match_loop_final _ _ _ _ _ _ _ _ _ _ _ _ r Hloop Hr)
    as (n & d & Hfinal & Hd).
  assert (Hnone : lexical_matches d df_codes code_col desc_col min_score = []).
  { rewrite (lexical_matches_description d (deref h r)) by exact Hd.
    unfold lexical_matches, collect_matches.
    induction Hbelow as [|row rws Hrow _ IH]; [reflexivity|].
    simpl. rewrite Hrow. exact IH. }
  rewrite Hfinal.
  destruct (match_line_no_match (option_map (fun g0 => g0 n) g) df_codes
              code_col desc_col min_score gemini_threshold d Hnone)
    as (Hc & Hdesc & Hs & Hst).
  apply match_loop_spec in Hloop as (-> & _ & _).
  repeat split; assumption.
Qed.

Lemma line_without_candidate_witness :
  let run :=
    @match_descriptions Reference.lib Sample.lines_heap [0; 1]%nat
      Sample.catalog DEFAULT_MIN_SCORE DEFAULT_GEMINI_THRESHOLD true
      (inl Sample.backend_C999) in
  deref (Sample.heap_of run) 1 !! "matched_code" = Some PNone
  /\ deref (Sample.heap_of run) 1 !! "matched_description" = Some PNone
  /\ deref (Sample.heap_of run) 1 !! "score" = Some (PFloat 0)
  /\ deref (Sample.heap_of run) 1 !! "status" = Some (PStr "fara_potriviri")
  /\ Sample.results_of run = [0; 1]%nat.
Proof.
  apply (@line_without_candidate_is_marked_no_match Reference.lib
           Sample.lines_heap _ [0; 1]%nat _ Sample.catalog DEFAULT_MIN_SCORE
           DEFAULT_GEMINI_THRESHOLD true (inl Sample.backend_C999)
           "code" "description" [] 1%nat).
  - by_evaluation.
  - reflexivity.
  - set_solver.
  - repeat constructor.
Defined.

(** C5.  For a line of the batch whose best candidate is [best]: when the
    arbiter is out of use (switched off, or not available), or [best] scores
    at least [gemini_threshold], the line ends with the code, description
    and score of [best], and with the status [potrivit_fuzzy] when the score
    is at least the threshold, [fuzzy_confidence_scazut] otherwise.  No
    status of the arbiter ([gemini_...]) can appear in that case. *)
Theorem confident_or_unarbitrated_line_adopts_best `{PyLib}
    (h h' : heap) (lines results : list ref) (df_codes : DataFrame)
    (min_score gemini_threshold : float) (use_gemini : bool)
    (load_gemini : Exc (nat -> string -> Exc string))
    (code_col desc_col : string) (cols : list string) (r : ref)
    (best : Candidate) (others : list Candidate) :
  match_descriptions h lines df_codes min_score gemini_threshold
    use_gemini load_gemini = inl (h', results) ->
  columns df_codes = code_col :: desc_col :: cols ->
  r ∈ lines ->
  lexical_matches (deref h r) df_codes code_col desc_col min_score
    = best :: others ->
  gemini_setup use_gemini load_gemini = inl None
  \/ (gemini_threshold <=? score best)%float = true ->
  deref h' r !! "matched_code" = Some (matched_code best)
  /\ deref h' r !! "matched_description" = Some (matched_description best)
  /\ deref h' r !! "score" = Some (PFloat (score best))
  /\ deref h' r !! "status" =
     Some (PStr (if (gemini_threshold <=? score best)%float
                 then "potrivit_fuzzy" else "fuzzy_confidence_scazut")).
Proof.
  intros Hrun Hcols Hr Hbest Hcase.
  apply match_descriptions_inv in Hrun
    as (code_col' & desc_col' & cols' & g & Hcols' & Hsetup & Hloop).
  rewrite Hcols in Hcols'. injection Hcols' as <- <- <-.
  destruct (match_loop_final _ _ _ _ _ _ _ _ _ _ _ _ r Hloop Hr)
    as (n & d & Hfinal & Hd).
  rewrite Hfinal.
  apply (match_line_adopts_best _ _ _ _ _ _ d best others).
  - rewrite (lexical_matches_description d (deref h r)) by exact Hd.
    exact Hbest.
  - destruct Hcase as [Hoff | Hthr]; [left | right; exact Hthr].
    rewrite Hsetup in Hoff. injection Hoff as ->. reflexivity.
Qed.

Lemma confident_line_witness :
  let run :=
    @match_descriptions Reference.lib Sample.lines_heap [0; 1]%nat
      Sample.catalog DEFAULT_MIN_SCORE DEFAULT_GEMINI_THRESHOLD true
      (inl Sample.backend_C999) in
  deref (Sample.heap_of run) 0 !! "matched_code" = Some (PStr "C100")
  /\ deref (Sample.heap_of run) 0 !! "matched_description"
     = Some (PStr "Steel Pipe 10mm")
  /\ deref (Sample.heap_of run) 0 !! "score" = Some (PFloat 1)
  /\ deref (Sample.heap_of run) 0 !! "status" = Some (PStr "potrivit_fuzzy").
Proof.
  apply (@confident_or_unarbitrated_line_adopts_best Reference.lib
           Sample.lines_heap _ [0; 1]%nat [0; 1]%nat Sample.catalog
           DEFAULT_MIN_SCORE DEFAULT_GEMINI_THRESHOLD true
           (inl Sample.backend_C999) "code" "description" [] 0%nat
           {| matched_code := PStr "C100";
              matched_description := PStr "Steel Pipe 10mm";
              score := 1 |}
           [ {| matched_code := PStr "C200";
                matched_description := PStr "Copper Wire 2mm";
                score := 0.4 |} ]).
  - by_evaluation.
  - reflexivity.
  - set_solver.
  - by_evaluation.
  - right. reflexivity.
Defined.

(** ** The registry after a run *)

Section Registry.
Context `{PyLib}.

(** The key of a registry entry evaluates when the entry has a [str] under
    ["name"], and not otherwise. *)
Lemma lowered_name_key (d : pyval) (k : string) :
  lowered name_key d = inl k
  <-> exists s, subscript d "name" = inl (PStr s) /\ k = str_lower s.
Proof.
  unfold lowered, name_key. split.
  - destruct (subscript d "name") as [v|]; simpl; [|inversion 1].
    destruct v; simpl; try (inversion 1; fail).
    intros [= <-]. eauto.
  - intros (s & -> & ->). reflexivity.
Qed.

Lemma new_document_name xml_name fname today n m :
  subscript (new_document xml_name fname today n m) "name" = inl (PStr xml_name).
Proof. reflexivity. Qed.

Lemma process_invoice_inv app xml excel to_csv dump timestamp today xml_name
    doc app' :
  process_invoice app xml excel to_csv dump timestamp today xml_name
    = inl (doc, app') ->
  exists n m,
    doc = new_document xml_name
            (timestamp ++ "_" ++ xml_name ++ "_standardized.csv") today n m
    /\ merge_sort (documents (data app) ++ [doc]) name_key
       = inl (documents (data app')).
Proof.
  unfold process_invoice. intros Hrun.
  destruct xml as [items|e]; simpl in Hrun; [|inversion Hrun].
  destruct excel as [df|e]; simpl in Hrun; [|inversion Hrun].
  match type of Hrun with
  | context [fuzzy_match_descriptions ?h0 ?refs ?d ?m] =>
      destruct (fuzzy_match_descriptions h0 refs d m) as [matched|e]
  end; simpl in Hrun; [|inversion Hrun].
  destruct to_csv as [e|]; [inversion Hrun|].
  match type of Hrun with
  | context [add_items ?l ?i] => destruct (add_items l i)
  end; simpl in Hrun; [|inversion Hrun].
  match type of Hrun with
  | context [merge_sort ?l ?k] => destruct (merge_sort l k) as [docs|] eqn:Hsort
  end; simpl in Hrun; [|inversion Hrun].
  destruct dump as [e|]; [inversion Hrun|].
  injection Hrun as <- <-. simpl. eexists _, _. split; [reflexivity|].
  exact Hsort.
Qed.

End Registry.

(** C8.  After a run of [process_invoice] that returns (and so has appended
    its entry [doc]), every entry of the registry has a name that is a
    string, the registry is sorted by lowered name in ascending order, holds
    exactly the former entries and [doc], and entries whose lowered names
    are equal stand in the order they had in the former registry followed
    by [doc]. *)
Theorem registry_sorted_and_stable_after_processing `{PyLib}
    (app app' : App) (xml : Exc (list InvoiceLineElement))
    (excel : Exc DataFrame) (to_csv dump : option exn)
    (timestamp today xml_name : string) (doc : pyval) :
  process_invoice app xml excel to_csv dump timestamp today xml_name
    = inl (doc, app') ->
  Forall
    (fun d => exists s, subscript d "name" = inl (PStr s)
                        /\ lowered_value name_key d = str_lower s)
    (documents (data app'))
  /\ StronglySorted
       (fun a b =>
          String.leb (lowered_value name_key a) (lowered_value name_key b)
          = true)
       (documents (data app'))
  /\ Permutation (documents (data app')) (documents (data app) ++ [doc])%list
  /\ forall k,
       filter (fun d => lowered_value name_key d = k) (documents (data app'))
       = filter (fun d => lowered_value name_key d = k)
           (documents (data app) ++ [doc])%list.
Proof.
  intros Hrun.
  apply process_invoice_inv in Hrun as (n & m & Hdoc & Hsort).
  destruct (merge_sort_returns _ _ _ Hsort) as [Hres Hkeys].
  pose proof (merge_sort_spec (lowered_value name_key)
                (documents (data app) ++ [doc])%list) as (Hs & Hp & Hf).
  rewrite <- Hres in Hs, Hp, Hf.
  split; [|split; [exact Hs|split; [exact Hp|exact Hf]]].
  assert (Hnamed : forall d, (exists k, lowered name_key d = inl k) ->
            exists s, subscript d "name" = inl (PStr s)
                      /\ lowered_value name_key d = str_lower s).
  { intros d [k Hk]. pose proof Hk as Hk'.
    apply lowered_name_key in Hk as (s & Hs' & ->).
    exists s. split; [exact Hs'|]. unfold lowered_value. rewrite Hk'.
    reflexivity. }
  rewrite Hp.
  destruct (le_lt_dec (length (documents (data app) ++ [doc])%list) 1)
    as [Hone|Hmore].
  - destruct (documents (data app)) as [|d rest];
      [|rewrite length_app in Hone; simpl in Hone; lia].
    constructor; [|constructor]. apply Hnamed. exists (str_lower xml_name).
    apply lowered_name_key. exists xml_name. rewrite Hdoc. auto.
  - eapply Forall_impl; [apply Hkeys, Hmore|]. exact Hnamed.
Qed.

Lemma registry_sorted_witness :
  Forall
    (fun d => exists s, subscript d "name" = inl (PStr s)
                        /\ @lowered_value Reference.lib _ name_key d
                           = Reference.lower s)
    (documents (data (SampleRun.app_of SampleRun.run)))
  /\ StronglySorted
       (fun a b =>
          String.leb (@lowered_value Reference.lib _ name_key a)
            (@lowered_value Reference.lib _ name_key b) = true)
       (documents (data (SampleRun.app_of SampleRun.run)))
  /\ Permutation (documents (data (SampleRun.app_of SampleRun.run)))
       (documents (data SampleRun.app0) ++ [SampleRun.doc_of SampleRun.run])%list
  /\ forall k,
       filter (fun d => @lowered_value Reference.lib _ name_key d = k)
         (documents (data (SampleRun.app_of SampleRun.run)))
       = filter (fun d => @lowered_value Reference.lib _ name_key d = k)
           (documents (data SampleRun.app0) ++ [SampleRun.doc_of SampleRun.run])%list.
Proof.
  apply (@registry_sorted_and_stable_after_processing Reference.lib
           SampleRun.app0 _ (inl SampleRun.invoice) (inl Sample.catalog)
           None None "20240102_093000" "2024-01-02 09:30" "BETA").
  by_evaluation.
Defined.

(** The sample run puts the new entry behind the equal-named older one. *)
Example registry_after_sample_run :
  map (fun d => subscript d "name")
    (documents (data (SampleRun.app_of SampleRun.run)))
  = [inl (PStr "alpha"); inl (PStr "Beta"); inl (PStr "BETA")].
Proof. vm_compute. reflexivity. Qed.

(** ** The arbiter's fallbacks *)

Section ArbiterFacts.
Context `{PyLib}.
Import GeminiMatcher.

Lemma candidates_to_analyze_all (candidates : list Candidate) (n : nat) :
  take (Nat.max n (length candidates)) candidates = candidates.
Proof. apply take_ge. lia. Qed.

Lemma find_candidate_elem candidates sel c :
  find_candidate candidates sel = inl (Some c) -> c ∈ candidates.
Proof.
  induction candidates as [|d rest IH]; simpl; [discriminate|].
  destruct (code_eq (matched_code d) sel) as [[|]|e]; simpl.
  - intros [= ->]. left.
  - intros Hrest. right. apply IH, Hrest.
  - discriminate.
Qed.

Lemma find_candidate_none candidates sel :
  Forall (fun c => code_eq (matched_code c) sel = inl false) candidates ->
  find_candidate candidates sel = inl None.
Proof.
  induction 1 as [|c rest Hc _ IH]; simpl; [reflexivity|].
  rewrite Hc. simpl. exact IH.
Qed.

Lemma fallback_names_offered candidates best msg :
  best ∈ candidates ->
  names_offered candidates (_create_fallback_result best msg).
Proof. intros Hin. right. exists best. auto. Qed.

Lemma first_candidate_elem candidates c :
  first_candidate candidates = inl c -> c ∈ candidates.
Proof. destruct candidates; simpl; [discriminate|]. intros [= ->]. left. Qed.

Lemma parse_body_names_offered text candidates r :
  parse_body text candidates = inl r -> names_offered candidates r.
Proof.
  unfold parse_body.
  destruct (json_loads (unfenced text)) as [gemini_result|]; [|discriminate].
  destruct (value_get gemini_result "selected_code" PNone) as [sel|]; simpl;
    [|discriminate].
  destruct (value_get gemini_result "confidence" (PFloat 0.5)) as [cv|]; simpl;
    [|discriminate].
  destruct (py_float cv) as [conf|]; simpl; [|discriminate].
  destruct (value_get gemini_result "reasoning" _) as [reasoning|]; simpl;
    [|discriminate].
  destruct (is_null_selection sel).
  - intros [= <-]. left. auto.
  - destruct (find_candidate candidates sel) as [[c|]|] eqn:Hfind; simpl;
      [| |discriminate].
    + intros [= <-]. right. exists c. split; [|auto].
      eapply find_candidate_elem, Hfind.
    + destruct (first_candidate candidates) as [best|] eqn:Hbest; simpl;
        [|discriminate].
      intros [= <-]. apply fallback_names_offered.
      eapply first_candidate_elem, Hbest.
Qed.

Lemma parse_names_offered text candidates r :
  _parse_gemini_response text candidates = inl r -> names_offered candidates r.
Proof.
  unfold _parse_gemini_response.
  destruct (parse_body text candidates) as [r0|e] eqn:Hbody.
  - intros [= <-]. eapply parse_body_names_offered, Hbody.
  - destruct (is_value_or_key_error e); [|discriminate].
    destruct (first_candidate candidates) as [best|] eqn:Hbest; simpl;
      [|discriminate].
    intros [= <-]. apply fallback_names_offered.
    eapply first_candidate_elem, Hbest.
Qed.

Lemma analyze_names_offered generate_content desc candidates n :
  names_offered candidates (analyze_candidates generate_content desc candidates n).
Proof.
  unfold analyze_candidates. rewrite candidates_to_analyze_all.
  destruct candidates as [|best rest]; [left; auto|].
  destruct (generate_content _) as [text|e]; simpl;
    [|apply fallback_names_offered; left].
  destruct (_parse_gemini_response text (best :: rest)) as [r|e] eqn:Hparse;
    simpl; [|apply fallback_names_offered; left].
  apply parse_names_offered in Hparse.
  destruct Hparse as [[Hc Hd] | (c & Hin & Hc & Hd)]; [left | right]; eauto.
Qed.

End ArbiterFacts.

(** C3.  What [analyze_candidates] answers in the cases the design document
    singles out, for any backend, description and candidate list:
    - no candidate: [matched_code] null, confidence 0.0, status [no_match];
    - candidates [best :: rest] and a response [json.loads] rejects: the
      code, description and score of [best], status [gemini_fallback], and
      the reasoning that names the parsing failure;
    - candidates [best :: rest] and a decoded response whose selected code
      is not the null marker and equals no candidate's code: the same
      fallback to [best], the reasoning naming the rejected code;
      (whatever the confidence field holds, the answer is a fallback to
      [best] that carries a cause);
    - in every case the code returned is null or the code of one of the
      candidates, with that candidate's description. *)
Theorem arbiter_falls_back_to_best_and_names_only_offered `{PyLib}
    (generate_content : string -> Exc string) (description : pyval)
    (candidates : list Candidate) (min_candidates : nat) :
  let result :=
    GeminiMatcher.analyze_candidates generate_content description candidates
      min_candidates in
  (candidates = [] ->
     GeminiMatcher.res_matched_code result = PNone
     /\ GeminiMatcher.res_matched_description result = PNone
     /\ GeminiMatcher.res_confidence result = 0%float
     /\ GeminiMatcher.res_status result = "no_match")
  /\ (forall best rest text,
        candidates = best :: rest ->
        generate_content (build_analysis_prompt description candidates)
          = inl text ->
        json_loads (GeminiMatcher.unfenced text) = None ->
        result =
        {| GeminiMatcher.res_matched_code := matched_code best;
        GeminiMatcher.res_matched_description :=
          matched_description best;
        GeminiMatcher.res_confidence := score best;
        GeminiMatcher.res_reasoning :=
          PStr ("Analiza Gemini a esuat: Nu s-a putut parsa raspunsul AI"
                   ++ ". Folosesc cel mai bun rezultat fuzzy.");
        GeminiMatcher.res_status := "gemini_fallback";
        GeminiMatcher.res_ai_method := Some "gemini" |})
  /\ (forall best rest text gemini_result selected_code raw_confidence confidence,
        candidates = best :: rest ->
        generate_content (build_analysis_prompt description candidates)
          = inl text ->
        json_loads (GeminiMatcher.unfenced text) = Some gemini_result ->
        value_get gemini_result "selected_code" PNone = inl selected_code ->
        value_get gemini_result "confidence" (PFloat 0.5) = inl raw_confidence ->
        py_float raw_confidence = inl confidence ->
        GeminiMatcher.is_null_selection selected_code = false ->
        Forall (fun c => code_eq (matched_code c) selected_code = inl false)
          candidates ->
        result =
        {| GeminiMatcher.res_matched_code := matched_code best;
        GeminiMatcher.res_matched_description :=
          matched_description best;
        GeminiMatcher.res_confidence := score best;
        GeminiMatcher.res_reasoning :=
          PStr ("Analiza Gemini a esuat: "
                   ++ ("AI a ales un cod invalid (" ++ py_str selected_code
                       ++ ") care nu era in lista")
                   ++ ". Folosesc cel mai bun rezultat fuzzy.");
        GeminiMatcher.res_status := "gemini_fallback";
        GeminiMatcher.res_ai_method := Some "gemini" |})
  /\ (forall best rest text gemini_result selected_code,
        candidates = best :: rest ->
        generate_content (build_analysis_prompt description candidates)
          = inl text ->
        json_loads (GeminiMatcher.unfenced text) = Some gemini_result ->
        value_get gemini_result "selected_code" PNone = inl selected_code ->
        GeminiMatcher.is_null_selection selected_code = false ->
        Forall (fun c => code_eq (matched_code c) selected_code = inl false)
          candidates ->
        exists cause ai_method,
          result =
          {| GeminiMatcher.res_matched_code := matched_code best;
          GeminiMatcher.res_matched_description :=
            matched_description best;
          GeminiMatcher.res_confidence := score best;
          GeminiMatcher.res_reasoning :=
            PStr ("Analiza Gemini a esuat: " ++ cause
                     ++ ". Folosesc cel mai bun rezultat fuzzy.");
          GeminiMatcher.res_status := "gemini_fallback";
          GeminiMatcher.res_ai_method := ai_method |})
  /\ names_offered candidates result.
Proof.
  intros result. subst result. split; [|split; [|split; [|split]]].
  - intros ->. unfold GeminiMatcher.analyze_candidates.
    rewrite candidates_to_analyze_all. simpl. auto.
  - intros best rest text -> Hresp Hjson.
    unfold GeminiMatcher.analyze_candidates.
    rewrite candidates_to_analyze_all, Hresp. simpl.
    unfold GeminiMatcher._parse_gemini_response, GeminiMatcher.parse_body.
    rewrite Hjson. reflexivity.
  - intros best rest text gemini_result sel cv conf -> Hresp Hjson Hsel Hcv
      Hconf Hnull Hnone.
    unfold GeminiMatcher.analyze_candidates.
    rewrite candidates_to_analyze_all, Hresp. simpl.
    unfold GeminiMatcher._parse_gemini_response, GeminiMatcher.parse_body.
    rewrite Hjson, Hsel. simpl. rewrite Hcv. simpl. rewrite Hconf. simpl.
    assert (Hreason : exists v,
              value_get gemini_result "reasoning"
                (PStr "Nicio explicatie furnizata") = inl v).
    { destruct gemini_result; try discriminate Hsel. simpl. eauto. }
    destruct Hreason as [v ->]. simpl. rewrite Hnull.
    apply Forall_cons in Hnone as [Hbest Hrest].
    rewrite Hbest. simpl. rewrite (find_candidate_none _ _ Hrest). reflexivity.
  - intros best rest text gemini_result sel -> Hresp Hjson Hsel Hnull Hnone.
    unfold GeminiMatcher.analyze_candidates.
    rewrite candidates_to_analyze_all, Hresp. simpl.
    unfold GeminiMatcher._parse_gemini_response, GeminiMatcher.parse_body.
    rewrite Hjson, Hsel. simpl.
    destruct gemini_result as [| | | | | |fields]; try discriminate Hsel.
    simpl.
    destruct (py_float (default (PFloat 0.5) (assoc "confidence" fields)))
      as [conf|e]; simpl.
    + rewrite Hnull. apply Forall_cons in Hnone as [Hbest Hrest].
      rewrite Hbest. simpl. rewrite (find_candidate_none _ _ Hrest). simpl.
      eexists _, _. reflexivity.
    + destruct (is_value_or_key_error e); simpl; eexists _, _; reflexivity.
  - apply analyze_names_offered.
Qed.

Lemma arbiter_fallback_witness :
  @GeminiMatcher.analyze_candidates Reference.lib
    (fun _ => inl "this is not JSON") (PStr "pipe") Sample.offered 5
  = {| GeminiMatcher.res_matched_code := matched_code Sample.best_offer;
       GeminiMatcher.res_matched_description :=
         matched_description Sample.best_offer;
       GeminiMatcher.res_confidence := score Sample.best_offer;
       GeminiMatcher.res_reasoning :=
         PStr ("Analiza Gemini a esuat: Nu s-a putut parsa raspunsul AI"
               ++ ". Folosesc cel mai bun rezultat fuzzy.");
       GeminiMatcher.res_status := "gemini_fallback";
       GeminiMatcher.res_ai_method := Some "gemini" |}
  /\ @GeminiMatcher.analyze_candidates Reference.lib
       (Sample.backend_C999 0) (PStr "pipe") Sample.offered 5
     = {| GeminiMatcher.res_matched_code := matched_code Sample.best_offer;
          GeminiMatcher.res_matched_description :=
            matched_description Sample.best_offer;
          GeminiMatcher.res_confidence := score Sample.best_offer;
          GeminiMatcher.res_reasoning :=
            PStr ("Analiza Gemini a esuat: AI a ales un cod invalid (C999)"
                  ++ " care nu era in lista"
                  ++ ". Folosesc cel mai bun rezultat fuzzy.");
          GeminiMatcher.res_status := "gemini_fallback";
          GeminiMatcher.res_ai_method := Some "gemini" |}.
Proof.
  split.
  - refine (proj1 (proj2
      (@arbiter_falls_back_to_best_and_names_only_offered Reference.lib
         (fun _ => inl "this is not JSON") (PStr "pipe") Sample.offered 5))
      Sample.best_offer _ "this is not JSON" _ _ _); reflexivity.
  - refine (proj1 (proj2 (proj2
      (@arbiter_falls_back_to_best_and_names_only_offered Reference.lib
         (Sample.backend_C999 0) (PStr "pipe") Sample.offered 5)))
      Sample.best_offer _ Reference.response_C999
      (PDict [("selected_code", PStr "C999"); ("confidence", PFloat 0.9)])
      (PStr "C999") (PFloat 0.9) 0.9%float _ _ _ _ _ _ _ _);
      try reflexivity.
    repeat constructor.
Defined.

(** ** The candidate list of the lexical matcher *)

Lemma float_ltb_leb (x y : float) :
  (x <? y)%float = true -> (x <=? y)%float = true.
Proof.
  intros Hlt. apply float_ltb_iff in Hlt as (a & b & Ha & Hb & Hlt).
  apply float_leb_iff. exists a, b. repeat split; try assumption.
  unfold rank_lt in Hlt. unfold rank_le. lia.
Qed.

Lemma float_ltb_classes (x y s : float) :
  (x <? y)%float = true -> (x =? s)%float = true -> (y =? s)%float = true ->
  False.
Proof.
  intros Hlt Hx Hy.
  apply float_ltb_iff in Hlt as (a & b & Ha & Hb & Hlt).
  apply float_eqb_iff in Hx as (a' & Ha' & Hs).
  apply float_eqb_iff in Hy as (b' & Hb' & Hs').
  assert (a = b) by congruence. subst. unfold rank_lt in Hlt. lia.
Qed.

Section CandidateList.
Context `{PyLib}.

(** [c] stands before [d]: the score of [d] is not above that of [c]. *)
Let before (c d : Candidate) : Prop := (score d <=? score c)%float = true.

Lemma collect_matches_raw (line : dict) df code_col desc_col min_score :
  collect_matches (str_lower (py_str (line_get line "description" (PStr ""))))
    df code_col desc_col min_score
  = rows_by_raw_score line df code_col desc_col min_score.
Proof.
  unfold collect_matches, rows_by_raw_score.
  induction (rows df) as [|row rws IH]; [reflexivity|].
  simpl. destruct (min_score <=? _)%float; simpl; rewrite IH; reflexivity.
Qed.

Lemma insert_by_score_perm (c : Candidate) (l : list Candidate) :
  Permutation (insert_by_score c l) (c :: l).
Proof.
  induction l as [|d rest IH]; simpl; [reflexivity|].
  destruct (score c <? score d)%float; [|reflexivity].
  rewrite IH. apply perm_swap.
Qed.

Lemma sort_by_score_perm (l : list Candidate) : Permutation (sort_by_score l) l.
Proof.
  induction l as [|c rest IH]; simpl; [reflexivity|].
  rewrite insert_by_score_perm. constructor. exact IH.
Qed.

Lemma insert_by_score_sorted (c : Candidate) (l : list Candidate) :
  is_nan (score c) = false ->
  Forall (fun d => is_nan (score d) = false) l ->
  StronglySorted before l -> StronglySorted before (insert_by_score c l).
Proof.
  intros Hc Hl Hs. induction Hs as [|d rest Hs IH Hd]; simpl.
  - repeat constructor.
  - apply Forall_cons in Hl as [Hdn Hl].
    destruct (score c <? score d)%float eqn:Hlt.
    + constructor; [apply IH, Hl|].
      eapply Permutation_Forall; [symmetry; apply insert_by_score_perm|].
      constructor; [|exact Hd].
      unfold before. apply float_ltb_leb, Hlt.
    + assert (Hcd : before c d)
        by (unfold before; apply float_not_ltb_leb; assumption).
      constructor; [constructor; assumption|].
      constructor; [exact Hcd|].
      eapply Forall_impl; [exact Hd|].
      intros e He. unfold before in *. eapply float_leb_trans; eassumption.
Qed.

Lemma sort_by_score_sorted (l : list Candidate) :
  Forall (fun d => is_nan (score d) = false) l ->
  StronglySorted before (sort_by_score l).
Proof.
  induction 1 as [|c rest Hc Hrest IH]; simpl; [constructor|].
  apply insert_by_score_sorted; [exact Hc| |exact IH].
  eapply Permutation_Forall; [symmetry; apply sort_by_score_perm|exact Hrest].
Qed.

Lemma insert_by_score_stable (s : float) (c : Candidate) (l : list Candidate) :
  filter (fun d => (score d =? s)%float = true) (insert_by_score c l)
  = filter (fun d => (score d =? s)%float = true) (c :: l).
Proof.
  induction l as [|d rest IH]; simpl; [reflexivity|].
  destruct (score c <? score d)%float eqn:Hlt; [|reflexivity].
  rewrite (filter_cons _ d), IH, !(filter_cons _ c), (filter_cons _ d).
  destruct (decide ((score d =? s)%float = true)) as [Hd|]; [|reflexivity].
  destruct (decide ((score c =? s)%float = true)) as [Hc|]; [|reflexivity].
  exfalso. eapply float_ltb_classes; eassumption.
Qed.

Lemma sort_by_score_stable (s : float) (l : list Candidate) :
  filter (fun d => (score d =? s)%float = true) (sort_by_score l)
  = filter (fun d => (score d =? s)%float = true) l.
Proof.
  induction l as [|c rest IH]; simpl; [reflexivity|].
  rewrite insert_by_score_stable, !(filter_cons _ c), IH. reflexivity.
Qed.

End CandidateList.

(** C4, as the code has it.  The candidate list of a line holds exactly the
    catalog rows whose similarity score, before rounding, is at least
    [min_score], each with its score rounded to 4 digits; it is sorted by
    that rounded score, non-increasing; candidates of equal rounded score
    stand in catalog order. *)
Theorem candidates_pass_raw_threshold_sorted_stably `{PyLib}
    (line : dict) (df_codes : DataFrame) (code_col desc_col : string)
    (min_score : float) :
  let kept := rows_by_raw_score line df_codes code_col desc_col min_score in
  let matches := lexical_matches line df_codes code_col desc_col min_score in
  Forall (fun c => is_nan (score c) = false) kept ->
  Permutation matches kept
  /\ StronglySorted (fun c d => (score d <=? score c)%float = true) matches
  /\ forall s,
       filter (fun c => (score c =? s)%float = true) matches
       = filter (fun c => (score c =? s)%float = true) kept.
Proof.
  intros kept matches Hnan. subst kept matches. unfold lexical_matches.
  rewrite collect_matches_raw. split; [|split].
  - apply sort_by_score_perm.
  - apply sort_by_score_sorted. exact Hnan.
  - intros s. apply sort_by_score_stable.
Qed.

Lemma candidates_sorted_witness :
  let kept :=
    @rows_by_raw_score Reference.lib (Sample.line "1" "Steel Pipe 10mm" "12.5")
      Sample.catalog "code" "description" DEFAULT_MIN_SCORE in
  let matches :=
    @lexical_matches Reference.lib (Sample.line "1" "Steel Pipe 10mm" "12.5")
      Sample.catalog "code" "description" DEFAULT_MIN_SCORE in
  Permutation matches kept
  /\ StronglySorted (fun c d => (score d <=? score c)%float = true) matches
  /\ forall s,
       filter (fun c => (score c =? s)%float = true) matches
       = filter (fun c => (score c =? s)%float = true) kept.
Proof.
  apply (@candidates_pass_raw_threshold_sorted_stably Reference.lib
           (Sample.line "1" "Steel Pipe 10mm" "12.5") Sample.catalog
           "code" "description" DEFAULT_MIN_SCORE).
  vm_compute. repeat constructor.
Defined.

(** As the design document words it, the property fails on a long
    description.  The catalog description (44 characters) opens an invoice
    description of 445 characters: the ratio is 88/489 = 0.17995..., below
    the default [min_score] 0.18, so the matcher has no candidate; rounded
    to 4 digits the score is 0.18, which is at least [min_score]. *)
Lemma rounded_score_counterexample :
  @lexical_matches Reference.lib LongLine.invoice_line LongLine.catalog
    "code" "description" DEFAULT_MIN_SCORE = []
  /\ @rows_by_rounded_score Reference.lib LongLine.invoice_line
       LongLine.catalog "code" "description" DEFAULT_MIN_SCORE
     = [ {| matched_code := PStr "C100";
            matched_description := PStr LongLine.product;
            score := 0.18 |} ].
Proof. split; vm_compute; reflexivity. Qed.

(** ** The ledger under incremental adds *)

Lemma ledger_add_keeps (desc : string) (qty : float) (inv : gmap string float)
    (k : string) :
  is_Some (inv !! k) -> is_Some (ledger_add desc qty inv !! k).
Proof.
  intros Hk. unfold ledger_add.
  destruct (inv !! desc) as [old|];
    (destruct (decide (desc = k)) as [->|Hne];
     [rewrite lookup_insert_eq; eauto
     |rewrite lookup_insert_ne by exact Hne; exact Hk]).
Qed.

Lemma ledger_add_lookup (desc : string) (qty : float) (inv : gmap string float) :
  ledger_add desc qty inv !! desc
  = Some (match inv !! desc with
          | Some old => (old + qty)%float
          | None => qty
          end).
Proof.
  unfold ledger_add. destruct (inv !! desc); apply lookup_insert_eq.
Qed.

Section IncrementalAdd.
Context `{PyLib}.

Lemma add_item_keeps item inv inv' k :
  add_item item inv = inl inv' -> is_Some (inv !! k) -> is_Some (inv' !! k).
Proof.
  unfold add_item. intros Hadd Hk.
  destruct (truthy _ && truthy _); [|injection Hadd as <-; exact Hk].
  destruct (py_float _) as [qty|e].
  - injection Hadd as <-. apply ledger_add_keeps, Hk.
  - destruct (is_value_error e); [|inversion Hadd].
    injection Hadd as <-. exact Hk.
Qed.

Lemma add_items_keeps items : forall inv inv' k,
  add_items items inv = inl inv' -> is_Some (inv !! k) -> is_Some (inv' !! k).
Proof.
  induction items as [|item rest IH]; intros inv inv' k Hadd Hk; simpl in Hadd.
  - injection Hadd as <-. exact Hk.
  - destruct (add_item item inv) as [inv1|e] eqn:Hitem; simpl in Hadd;
      [|inversion Hadd].
    eapply IH; [exact Hadd|]. eapply add_item_keeps; eassumption.
Qed.

Lemma recalculate_row_keeps df row inv inv' k :
  ModernApp.recalculate_row df row inv = inl inv' ->
  is_Some (inv !! k) -> is_Some (inv' !! k).
Proof.
  unfold ModernApp.recalculate_row. intros Hrow Hk.
  destruct (_ && _); [|injection Hrow as <-; exact Hk].
  destruct (_ && _); [|injection Hrow as <-; exact Hk].
  destruct (py_float _) as [qty|e].
  - injection Hrow as <-. apply ledger_add_keeps, Hk.
  - destruct (is_value_or_type_error e); [|inversion Hrow].
    injection Hrow as <-. exact Hk.
Qed.

Lemma recalculate_rows_keeps df rws : forall inv k,
  is_Some (inv !! k) ->
  is_Some ((ModernApp.rows_loop (ModernApp.recalculate_row df) rws inv).1 !! k).
Proof.
  induction rws as [|row rest IH]; intros inv k Hk; simpl; [exact Hk|].
  destruct (ModernApp.recalculate_row df row inv) as [inv1|e] eqn:Hrow;
    [|exact Hk].
  apply IH. eapply recalculate_row_keeps; eassumption.
Qed.

Lemma recalculate_files_keeps files : forall inv k,
  is_Some (inv !! k) -> is_Some (ModernApp.recalculate_files files inv !! k).
Proof.
  induction files as [|[fname [df|]] rest IH]; intros inv k Hk; simpl.
  - exact Hk.
  - apply IH, recalculate_rows_keeps, Hk.
  - apply IH, Hk.
Qed.

End IncrementalAdd.

(** C10.  For a line with a matched description [desc] and a quantity
    string that parses to 0.0: the add loop of [process_invoice] creates the
    entry with value 0.0 when the ledger has none, and leaves an entry of
    value 0.0 at 0.0; from the empty ledger the result holds an entry that
    is [<= 0].  A row of a stored artifact whose quantity converts to 0.0
    does the same under [recalculate_inventory].  Neither add path ever
    removes an entry. *)
Theorem incremental_add_never_prunes `{PyLib}
    (item : dict) (inv : gmap string float) (desc : pyval) (quantity : string) :
  item !! "matched_description" = Some desc ->
  truthy desc = true ->
  item !! "quantity" = Some (PStr quantity) ->
  truthy (PStr quantity) = true ->
  float_of_str quantity = Some 0%float ->
  (exists inv',
      add_item item inv = inl inv'
      /\ (inv !! py_str desc = None -> inv' !! py_str desc = Some 0%float)
      /\ (inv !! py_str desc = Some 0%float -> inv' !! py_str desc = Some 0%float)
      /\ is_Some (inv' !! py_str desc))
  /\ (exists zero,
        add_item item ∅ = inl {[py_str desc := zero]}
        /\ (zero <=? 0)%float = true)
  /\ (forall df row ledger,
        ModernApp.has_column df "matched_description" = true ->
        ModernApp.has_column df "quantity" = true ->
        truthy (PStr (py_str (cell row "matched_description"))) = true ->
        String.eqb (py_str (cell row "matched_description")) "nan" = false ->
        py_float (cell row "quantity") = inl 0%float ->
        ledger !! py_str (cell row "matched_description") = None ->
        exists ledger',
          ModernApp.recalculate_row df row ledger = inl ledger'
          /\ ledger' !! py_str (cell row "matched_description") = Some 0%float)
  /\ (forall items ledger ledger' k,
        add_items items ledger = inl ledger' ->
        is_Some (ledger !! k) -> is_Some (ledger' !! k))
  /\ (forall files ledger k,
        is_Some (ledger !! k) ->
        is_Some (ModernApp.recalculate_files files ledger !! k)).
Proof.
  intros Hdesc Htd Hqty Htq Hparse.
  assert (Hadd : forall ledger,
            add_item item ledger = inl (ledger_add (py_str desc) 0 ledger)).
  { intros ledger. unfold add_item, line_get. rewrite Hdesc, Hqty. simpl default.
    rewrite Htd, Htq. simpl. rewrite Hparse. reflexivity. }
  split; [|split; [|split; [|split]]].
  - exists (ledger_add (py_str desc) 0 inv). split; [apply Hadd|].
    rewrite ledger_add_lookup. repeat split.
    + intros ->. reflexivity.
    + intros ->. reflexivity.
    + eauto.
  - exists 0%float. split; [|reflexivity].
    rewrite Hadd. unfold ledger_add. rewrite lookup_empty. reflexivity.
  - intros df row ledger Hc1 Hc2 Htruthy Hnan Hzero Hnone.
    exists (ledger_add (py_str (cell row "matched_description")) 0 ledger).
    split.
    + unfold ModernApp.recalculate_row. rewrite Hc1, Hc2. simpl.
      simpl in Htruthy. rewrite Htruthy, Hnan. simpl. rewrite Hzero. reflexivity.
    + rewrite ledger_add_lookup, Hnone. reflexivity.
  - intros items ledger ledger' k. apply add_items_keeps.
  - intros files ledger k. apply recalculate_files_keeps.
Qed.

(** The defaulted quantity "0" of a matched line: the run from the empty
    ledger leaves the entry at 0.0. *)
Lemma incremental_add_witness :
  ((exists inv',
      @add_item Reference.lib ZeroQuantity.matched_line ∅ = inl inv'
      /\ ((∅ : gmap string float) !! "Steel Pipe 10mm" = None ->
          inv' !! "Steel Pipe 10mm" = Some 0%float)
      /\ ((∅ : gmap string float) !! "Steel Pipe 10mm" = Some 0%float ->
          inv' !! "Steel Pipe 10mm" = Some 0%float)
      /\ is_Some (inv' !! "Steel Pipe 10mm"))
   /\ (exists zero,
        @add_item Reference.lib ZeroQuantity.matched_line ∅
        = inl {["Steel Pipe 10mm" := zero]}
        /\ (zero <=? 0)%float = true))
  /\ inventory (data (SampleRun.app_of ZeroQuantity.run)) !! "Steel Pipe 10mm"
     = Some 0%float.
Proof.
  split; [|by_evaluation].
  pose proof (@incremental_add_never_prunes Reference.lib
                ZeroQuantity.matched_line ∅ (PStr "Steel Pipe 10mm") "0"
                eq_refl eq_refl eq_refl eq_refl eq_refl) as (Hadd & Hzero & _).
  split; [exact Hadd | exact Hzero].
Defined.

(** ** Recomputing the ledger *)

Lemma fold_ledger_add_lookup (entries : list (string * float)) :
  forall (inv : gmap string float) (k : string),
  fold_left (fun i e => ledger_add e.1 e.2 i) entries inv !! k
  = match inv !! k with
    | Some v => Some (fold_left PrimFloat.add (quantities k entries) v)
    | None => total (quantities k entries)
    end.
Proof.
  induction entries as [|[d q] rest IH]; intros inv k.
  - simpl. destruct (inv !! k); reflexivity.
  - simpl fold_left. rewrite IH. unfold quantities. simpl.
    destruct (String.eqb_spec d k) as [->|Hne].
    + rewrite ledger_add_lookup. simpl. destruct (inv !! k); reflexivity.
    + assert (Hother : ledger_add d q inv !! k = inv !! k).
      { unfold ledger_add. destruct (inv !! d);
          rewrite lookup_insert_ne by exact Hne; reflexivity. }
      rewrite Hother. reflexivity.
Qed.

Section Recompute.
Context `{PyLib}.

Lemma recalculate_row_contribution df row inv :
  ModernApp.recalculate_row df row inv
  = match row_contribution df row with
    | inl (Some e) => inl (ledger_add e.1 e.2 inv)
    | inl None => inl inv
    | inr e => inr e
    end.
Proof.
  unfold ModernApp.recalculate_row, row_contribution.
  destruct (_ && _); [|reflexivity].
  destruct (_ && _); [|reflexivity].
  destruct (py_float _) as [qty|e]; [reflexivity|].
  destruct (is_value_or_type_error e); reflexivity.
Qed.

Lemma recalculate_rows_entries df rws : forall inv,
  (ModernApp.rows_loop (ModernApp.recalculate_row df) rws inv).1
  = fold_left (fun i e => ledger_add e.1 e.2 i) (table_entries df rws) inv.
Proof.
  induction rws as [|row rest IH]; intros inv; [reflexivity|].
  simpl. rewrite recalculate_row_contribution.
  destruct (row_contribution df row) as [[e|]|err]; simpl;
    [apply IH | apply IH | reflexivity].
Qed.

Lemma recalculate_files_entries files : forall inv,
  ModernApp.recalculate_files files inv
  = fold_left (fun i e => ledger_add e.1 e.2 i)
      (flat_map (fun e => file_entries e.2) files) inv.
Proof.
  induction files as [|[fname [df|]] rest IH]; intros inv; simpl.
  - reflexivity.
  - rewrite fold_left_app, <- recalculate_rows_entries. apply IH.
  - apply IH.
Qed.

End Recompute.

Lemma quantities_app (k : string) (l r : list (string * float)) :
  quantities k (l ++ r) = (quantities k l ++ quantities k r)%list.
Proof. unfold quantities. rewrite List.filter_app, map_app. reflexivity. Qed.

Section RecomputeAsWorded.
Context `{PyLib}.

(** On a table as the reader gives it, a row adds for [k] what the design
    document counts for [k]. *)
Lemma row_counted (k : string) (df : DataFrame) (row : dict) :
  (forall c, c ∉ columns df -> row !! c = None) ->
  quantity_in_range row -> quantity_not_blank k df row ->
  exists added,
    row_contribution df row = inl added
    /\ quantities k (option_list added)
       = quantities k (option_list (counted_line row)).
Proof.
  intros Hread Hrange Hblank.
  unfold row_contribution, counted_line, parsed_quantity, ModernApp.has_column.
  destruct (decide ("matched_description" ∈ columns df)) as [Hd|Hd].
  - rewrite (bool_decide_eq_true_2 _ Hd).
    destruct (decide ("quantity" ∈ columns df)) as [Hq|Hq].
    + rewrite (bool_decide_eq_true_2 _ Hq). simpl.
      destruct (String.eqb (py_str (cell row "matched_description")) "");
        simpl; [eexists; split; reflexivity|].
      destruct (String.eqb (py_str (cell row "matched_description")) "nan");
        simpl; [eexists; split; reflexivity|].
      destruct (py_float (cell row "quantity")) as [q|e] eqn:Hconv.
      * eexists. split; [reflexivity|].
        destruct (is_nan q) eqn:Hnan; [|reflexivity].
        unfold quantities. simpl.
        destruct (String.eqb_spec (py_str (cell row "matched_description")) k)
          as [Hk|Hk]; [|reflexivity].
        rewrite (Hblank Hq Hk q Hconv) in Hnan. discriminate Hnan.
      * rewrite (Hrange e Hconv). eexists. split; reflexivity.
    + rewrite (bool_decide_eq_false_2 _ Hq). simpl.
      eexists. split; [reflexivity|].
      assert (Hcell : cell row "quantity" = PFloat nan)
        by (unfold cell; rewrite (Hread _ Hq); reflexivity).
      rewrite Hcell. simpl py_float. unfold ret.
      assert (Hnan : is_nan nan = true) by reflexivity. rewrite Hnan.
      destruct (_ || _); reflexivity.
  - rewrite (bool_decide_eq_false_2 _ Hd). simpl.
    eexists. split; [reflexivity|].
    assert (Hcell : cell row "matched_description" = PFloat nan)
      by (unfold cell; rewrite (Hread _ Hd); reflexivity).
    rewrite Hcell. reflexivity.
Qed.

Lemma table_counted (k : string) (df : DataFrame) (rws : list dict) :
  Forall (fun row : dict => forall c, c ∉ columns df -> row !! c = None) rws ->
  Forall (fun row => quantity_in_range row /\ quantity_not_blank k df row) rws ->
  quantities k (table_entries df rws) = quantities k (omap counted_line rws).
Proof.
  intros Hread Hrows. induction Hrows as [|row rest [Hrange Hblank] _ IH];
    [reflexivity|].
  apply Forall_cons in Hread as [Hrow Hread].
  destruct (row_counted k df row Hrow Hrange Hblank) as (added & Hadd & Hq).
  assert (Hcode : table_entries df (row :: rest)
                  = (option_list added ++ table_entries df rest)%list).
  { cbn [table_entries]. rewrite Hadd. destruct added; reflexivity. }
  assert (Hspec : omap counted_line (row :: rest)
                  = (option_list (counted_line row)
                     ++ omap counted_line rest)%list).
  { cbn [omap list_omap]. destruct (counted_line row); reflexivity. }
  rewrite Hcode, Hspec, !quantities_app, Hq, (IH Hread). reflexivity.
Qed.

Lemma files_counted (k : string) (files : list (string * CsvFile)) :
  artifacts_as_read k files ->
  quantities k (flat_map (fun e => file_entries e.2) files)
  = quantities k (flat_map (fun e => artifact_lines e.2) files).
Proof.
  unfold artifacts_as_read. induction 1 as [|[fname file] rest Hfile _ IH];
    [reflexivity|].
  simpl. rewrite !quantities_app, IH. f_equal.
  destruct file as [df|]; [|reflexivity].
  destruct Hfile as [Hread Hrows]. apply table_counted; assumption.
Qed.

Lemma artifacts_as_read_filter (k : string) (p : string * CsvFile -> bool)
    (dir : list (string * CsvFile)) :
  artifacts_as_read k dir -> artifacts_as_read k (List.filter p dir).
Proof.
  unfold artifacts_as_read. intros Hdir. apply Forall_forall.
  intros e He. apply list_elem_of_In, filter_In in He as [He _].
  rewrite Forall_forall in Hdir. apply Hdir, list_elem_of_In, He.
Qed.

End RecomputeAsWorded.

(** C2, amended.  After a confirmed [recalculate_inventory], the ledger
    entry of a description is the sum of the quantities of the annotated
    lines, across all the CSV artifacts present in the artifact directory,
    whose matched description is that description and whose quantity parses
    as a number; a description with no such line has no entry.  The
    registry is not consulted.  The artifacts are tables as the reader
    gives them, and no line of the description has a blank quantity cell
    (one read back as NaN). *)
Theorem recompute_sums_the_artifact_directory `{PyLib} (app : App) (k : string) :
  artifacts_as_read k (csv_dir app) ->
  inventory (data (ModernApp.recalculate_inventory app true)) !! k
  = total (quantities k (directory_lines (csv_dir app))).
Proof.
  intros Hread.
  unfold ModernApp.recalculate_inventory, directory_lines. simpl.
  rewrite recalculate_files_entries, fold_ledger_add_lookup, lookup_empty.
  f_equal. apply files_counted, artifacts_as_read_filter, Hread.
Qed.

Lemma recompute_sums_witness :
  inventory (data (@ModernApp.recalculate_inventory Reference.lib Orphan.app true))
    !! "Steel Pipe 10mm"
  = total (quantities "Steel Pipe 10mm"
             (@directory_lines Reference.lib (csv_dir Orphan.app))).
Proof.
  apply (@recompute_sums_the_artifact_directory Reference.lib Orphan.app
           "Steel Pipe 10mm").
  repeat constructor.
  - intros c Hc.
    repeat (rewrite lookup_insert_ne;
            [|intros <-; apply Hc; simpl; set_solver]).
    apply lookup_singleton_ne. intros <-. apply Hc. simpl. set_solver.
  - intros e He. vm_compute in He. inversion He.
  - intros _ _ q Hq. vm_compute in Hq. injection Hq as <-. reflexivity.
Defined.

(** As the design document words it, the property fails where the directory
    holds an artifact that no registered document points to: the recomputed
    ledger counts it. *)
Lemma recompute_counts_unregistered_artifacts :
  inventory (data (@ModernApp.recalculate_inventory Reference.lib Orphan.app true))
    !! "Steel Pipe 10mm" = Some 12.5%float
  /\ total (quantities "Steel Pipe 10mm"
              (@registered_lines Reference.lib Orphan.app)) = None
  /\ documents (data Orphan.app) = [].
Proof. repeat split; by_evaluation. Qed.

(** A blank quantity cell is not a number, and yet the recompute adds it:
    the entry of its description becomes NaN.  The statement above leaves
    such lines out. *)
Example recompute_adds_a_blank_quantity :
  inventory
    (data (@ModernApp.recalculate_inventory Reference.lib BlankQuantity.app
             true)) !! "Steel Pipe 10mm" = Some nan
  /\ @directory_lines Reference.lib (csv_dir BlankQuantity.app) = [].
Proof. split; by_evaluation. Qed.

(** ** Loading the store *)

Lemma assoc_dict_set_eq (k : string) (v : pyval) (fields : list (string * pyval)) :
  assoc k (dict_set k v fields) = Some v.
Proof.
  induction fields as [|[k' v'] rest IH]; simpl.
  - rewrite String.eqb_refl. reflexivity.
  - destruct (String.eqb k k') eqn:Hk; simpl.
    + rewrite String.eqb_refl. reflexivity.
    + rewrite Hk. exact IH.
Qed.

Lemma assoc_dict_set_ne (k j : string) (v : pyval) (fields : list (string * pyval)) :
  String.eqb j k = false -> assoc j (dict_set k v fields) = assoc j fields.
Proof.
  intros Hne. induction fields as [|[k' v'] rest IH]; simpl.
  - rewrite Hne. reflexivity.
  - destruct (String.eqb_spec k k') as [<-|Hk]; simpl.
    + rewrite Hne. reflexivity.
    + destruct (String.eqb j k'); [reflexivity|exact IH].
Qed.

Lemma dict_set_same (k : string) (v : pyval) (fields : list (string * pyval)) :
  assoc k fields = Some v -> dict_set k v fields = fields.
Proof.
  induction fields as [|[k' v'] rest IH]; simpl; [discriminate|].
  destruct (String.eqb_spec k k') as [<-|Hk].
  - intros [= ->]. reflexivity.
  - intros Hrest. rewrite IH by exact Hrest. reflexivity.
Qed.

Section LoadDataFacts.
Context `{PyLib}.

Lemma is_current_format_dict (fields : list (string * pyval)) :
  is_current_format (PDict fields) = inl (current_entry (PDict fields)).
Proof.
  unfold is_current_format, current_entry, has_key. simpl.
  destruct (bool_decide (is_Some (assoc "lines_count" fields))); [|reflexivity].
  simpl. destruct (bool_decide (is_Some (assoc "matched_count" fields)));
    reflexivity.
Qed.





End LoadDataFacts.



(** ** Deleting a document *)

Lemma delete_document_inventory `{PyLib} (app app' : App) (doc : pyval)
    (unlink dump : option exn) :
  delete_document app doc unlink dump = inl app' ->
  inventory (data app') = inventory (data app).
Proof.
  unfold delete_document.
  destruct (subscript doc "csv_filename") as [v|e]; simpl; [|discriminate].
  destruct v as [| | | |fname| |]; try discriminate.
  destruct (names_directory _); [discriminate|].
  destruct (csv_lookup fname (csv_dir app)) as [file|], unlink as [e|];
    simpl; try discriminate;
    (destruct dump as [e'|]; [discriminate|]); intros [= <-]; reflexivity.
Qed.

Lemma find_and_delete_inventory `{PyLib} (app : App) (doc_name : pyval) :
  inventory (data (ModernApp.find_and_delete app doc_name))
  = inventory (data app).
Proof.
  unfold ModernApp.find_and_delete.
  destruct (ModernApp.find_by_name _ _) as [[doc|]|e]; try reflexivity.
  destruct (truthy doc); [|reflexivity].
  destruct (delete_document app doc None None) as [app'|e] eqn:Hdel;
    [|reflexivity].
  exact (delete_document_inventory _ _ _ _ _ Hdel).
Qed.

(** C1, at the method the window calls.  That method is the
    second [delete_document] of the class, and it leaves the ledger as it
    was, whatever is selected: no quantity is subtracted and no entry is
    removed.  On the sample, the only document goes, its artifact goes, and
    its 12.5 units stay in the ledger; the first definition, which the
    second one replaces, would have emptied the ledger. *)
Theorem bound_delete_document_skips_the_ledger `{PyLib}
    (app : App) (selection : option TreeItem) (confirmed : bool) :
  ModernApp.delete_document_bound app selection confirmed
  = ModernApp.delete_document_second app selection confirmed
  /\ inventory (data (ModernApp.delete_document_bound app selection confirmed))
     = inventory (data app).
Proof.
  split; [reflexivity|].
  unfold ModernApp.delete_document_bound, ModernApp.delete_document_second.
  destruct selection as [item|]; [|reflexivity].
  destruct confirmed; simpl; [|reflexivity].
  apply find_and_delete_inventory.
Qed.

Example deletion_on_the_sample :
  let after :=
    @ModernApp.delete_document_bound Reference.lib Deletion.app
      Deletion.selection true in
  let intended :=
    @ModernApp.delete_document_first Reference.lib Deletion.app
      Deletion.selection true in
  documents (data after) = []
  /\ csv_dir after = []
  /\ inventory (data after) !! "Steel Pipe 10mm" = Some 12.5%float
  /\ documents (data intended) = []
  /\ inventory (data intended) !! "Steel Pipe 10mm" = None.
Proof. repeat split; by_evaluation. Qed.

(** * Further properties of the code *)

(** ** Searching the registry *)

Section Search.
Context `{PyLib} {A : Type}.

Lemma linear_search_from_spec (arr : list A) (target_lower : string)
    (lkey : A -> string) : forall (i j : nat),
  j ∈ linear_search_total i arr target_lower lkey
  <-> exists item,
        (i <= j)%nat /\ arr !! (j - i)%nat = Some item
        /\ contains target_lower (lkey item) = true.
Proof.
  induction arr as [|x rest IH]; intros i j; simpl.
  - split; [intros Hin; apply elem_of_nil in Hin; destruct Hin|].
    intros (item & _ & Hlook & _). discriminate Hlook.
  - rewrite elem_of_app, IH. split.
    + intros [Hhere | (item & Hle & Hlook & Hc)].
      * destruct (contains target_lower (lkey x)) eqn:Hx;
          [|apply elem_of_nil in Hhere; destruct Hhere].
        apply list_elem_of_singleton in Hhere as ->.
        exists x. rewrite Nat.sub_diag. auto.
      * exists item. split; [lia|]. split; [|exact Hc].
        replace (j - i)%nat with (S (j - S i)) by lia. exact Hlook.
    + intros (item & Hle & Hlook & Hc).
      destruct (decide (j = i)) as [->|Hne].
      * left. rewrite Nat.sub_diag in Hlook. injection Hlook as ->.
        rewrite Hc. apply list_elem_of_singleton. reflexivity.
      * right. exists item. split; [lia|]. split; [|exact Hc].
        replace (j - i)%nat with (S (j - S i)) in Hlook by lia. exact Hlook.
Qed.

Lemma linear_search_from_ascending (arr : list A) (target_lower : string)
    (lkey : A -> string) : forall i,
  StronglySorted lt (linear_search_total i arr target_lower lkey).
Proof.
  induction arr as [|x rest IH]; intros i; simpl; [constructor|].
  assert (Hlater :
    Forall (lt i) (linear_search_total (S i) rest target_lower lkey)).
  { apply Forall_forall. intros j Hj.
    apply linear_search_from_spec in Hj as (item & Hle & _). lia. }
  destruct (contains target_lower (lkey x)); simpl.
  - constructor; [apply IH | exact Hlater].
  - apply IH.
Qed.

(** Reading the items back at the indices found is filtering the list. *)
Lemma linear_search_from_items (arr : list A) (target_lower : string)
    (lkey : A -> string) : forall (pre : list A),
  omap (fun i => (pre ++ arr)%list !! i)
    (linear_search_total (length pre) arr target_lower lkey)
  = List.filter (fun item => contains target_lower (lkey item)) arr.
Proof.
  induction arr as [|x rest IH]; intros pre; [reflexivity|].
  simpl. rewrite omap_app.
  replace (S (length pre)) with (length (pre ++ [x])%list)
    by (rewrite length_app; simpl; lia).
  replace (pre ++ x :: rest)%list with ((pre ++ [x]) ++ rest)%list
    by (rewrite <- app_assoc; reflexivity).
  rewrite IH.
  destruct (contains target_lower (lkey x)); simpl; [|reflexivity].
  rewrite lookup_app_l by (rewrite length_app; simpl; lia).
  rewrite lookup_app_r by lia. rewrite Nat.sub_diag. reflexivity.
Qed.

(** The search takes the key of every item in list order: it returns the
    search by the values of the keys when none raises, and leaves with the
    first exception otherwise. *)
Lemma linear_search_from_outcome (arr : list A) (target_lower : string)
    (key : A -> Exc pyval) : forall i,
  linear_search_from i arr target_lower key
  = match first_raised key arr with
    | Some e => inr e
    | None =>
        inl (linear_search_total i arr target_lower (lowered_value key))
    end.
Proof.
  induction arr as [|x rest IH]; intros i; [reflexivity|].
  simpl. unfold lowered_value at 1.
  destruct (lowered key x) as [k|e]; simpl; [|reflexivity].
  rewrite IH. destruct (first_raised key rest); reflexivity.
Qed.

Lemma first_raised_none (key : A -> Exc pyval) (arr : list A) :
  first_raised key arr = None
  <-> Forall (fun x => exists k, lowered key x = inl k) arr.
Proof.
  induction arr as [|x rest IH]; simpl.
  - split; [constructor|reflexivity].
  - destruct (lowered key x) as [k|e] eqn:Hx.
    + rewrite IH. split.
      * intros Hrest. constructor; [eauto|exact Hrest].
      * intros Hall. inversion Hall; assumption.
    + split; [discriminate|].
      intros Hall. inversion Hall as [|? ? [k Hk] _]; subst. congruence.
Qed.

End Search.

(** X1.  [linear_search_all] takes the lowered key of every item, in list
    order.  When a key raises, the search leaves with the exception of the
    first one that does; when none does, it returns, in ascending order and
    without repeats, exactly the indices of the items whose lowered key
    contains the lowered target. *)
Theorem linear_search_all_finds_exactly_the_matches `{PyLib} {A : Type}
    (arr : list A) (target : string) (key : A -> Exc pyval) :
  (forall e, first_raised key arr = Some e ->
     linear_search_all arr target key = inr e)
  /\ (Forall (fun x => exists k, lowered key x = inl k) arr ->
      exists res,
        linear_search_all arr target key = inl res
        /\ StronglySorted lt res
        /\ forall j,
             j ∈ res
             <-> exists item k,
                   arr !! j = Some item
                   /\ lowered key item = inl k
                   /\ contains (str_lower target) k = true).
Proof.
  unfold linear_search_all. rewrite linear_search_from_outcome. split.
  - intros e ->. reflexivity.
  - intros Hall. pose proof Hall as Hnone.
    apply first_raised_none in Hnone. rewrite Hnone.
    eexists. split; [reflexivity|].
    split; [apply linear_search_from_ascending|].
    intros j. rewrite linear_search_from_spec. rewrite Nat.sub_0_r.
    split.
    + intros (item & _ & Hlook & Hc). exists item.
      assert (Hitem : item ∈ arr) by (eapply list_elem_of_lookup_2; eauto).
      destruct (proj1 (Forall_forall _ _) Hall item Hitem) as [k Hk].
      exists k. rewrite (lowered_value_eq key item k Hk) in Hc. auto.
    + intros (item & k & Hlook & Hk & Hc). exists item.
      rewrite (lowered_value_eq key item k Hk).
      split; [lia|]. split; assumption.
Qed.

(** X2.  [search_documents] with the empty query answers the registry as it
    is, and reads no entry.  With any other query it takes the name of
    every entry in registry order: it leaves with the exception of the
    first entry that has no [str] under ["name"], and when there is none it
    answers the entries whose lowered name contains the lowered query, in
    registry order. *)
Theorem search_documents_filters_the_registry `{PyLib} (app : App)
    (query : string) :
  search_documents app query
  = if String.eqb query "" then inl (documents (data app))
    else
      match first_raised name_key (documents (data app)) with
      | Some e => inr e
      | None =>
          inl (List.filter
                 (fun d =>
                    contains (str_lower query) (lowered_value name_key d))
                 (documents (data app)))
      end.
Proof.
  unfold search_documents, linear_search_all.
  destruct (String.eqb query ""); [reflexivity|].
  rewrite linear_search_from_outcome.
  destruct (first_raised name_key (documents (data app))); [reflexivity|].
  simpl. f_equal.
  exact (linear_search_from_items (documents (data app)) (str_lower query)
           (lowered_value name_key) []).
Qed.

(** ** Extracting the lines of an invoice *)

Section Extraction.
Context `{PyLib}.

Lemma extract_lines_from_lookup (items : list InvoiceLineElement) :
  forall (n i : nat),
  extract_lines_from n items !! i
  = extract_line (n + i) <$> items !! i.
Proof.
  induction items as [|item rest IH]; intros n i; [reflexivity|].
  destruct i as [|i]; simpl.
  - rewrite Nat.add_0_r. reflexivity.
  - rewrite IH. replace (S n + i)%nat with (n + S i)%nat by lia. reflexivity.
Qed.

Lemma extract_lines_from_length (items : list InvoiceLineElement) : forall n,
  length (extract_lines_from n items) = length items.
Proof. induction items as [|item rest IH]; intros n; simpl; [|rewrite IH]; reflexivity. Qed.

End Extraction.

(** X3.  [extract_lines_from_xml] gives one record per line element, in
    document order.  The record of the element at position [i] (from 0)
    has [line_id] [str(i + 1)], whatever identifier the element carries;
    a missing description reads as the empty string, a missing quantity,
    price or total as the literal "0"; the record has the five extraction
    fields and no other. *)
Theorem extracted_lines_are_numbered_and_defaulted `{PyLib}
    (items : list InvoiceLineElement) (i : nat) (item : InvoiceLineElement) :
  items !! i = Some item ->
  length (extract_lines_from_xml items) = length items
  /\ exists line,
       extract_lines_from_xml items !! i = Some line
       /\ line !! "line_id" = Some (PStr (int_repr (Z.of_nat (S i))))
       /\ line !! "description" = Some (PStr (default "" (item_description item)))
       /\ line !! "quantity" = Some (PStr (default "0" (invoiced_quantity item)))
       /\ line !! "unit_price" = Some (PStr (default "0" (price_amount item)))
       /\ line !! "line_total"
          = Some (PStr (default "0" (line_extension_amount item)))
       /\ forall k, is_Some (line !! k) <-> k ∈ extraction_fields.
Proof.
  intros Hitem. unfold extract_lines_from_xml.
  split; [apply extract_lines_from_length|].
  exists (extract_line (S i) item).
  rewrite extract_lines_from_lookup, Hitem. split; [reflexivity|].
  unfold extract_line.
  repeat split;
    try (repeat (first [ rewrite lookup_insert_eq; reflexivity
                       | rewrite lookup_insert_ne by discriminate ])).
  - intros Hsome. unfold extraction_fields.
    repeat (rewrite lookup_insert in Hsome;
            destruct (decide _) as [<-|_] in Hsome; [set_solver|]).
    rewrite lookup_empty in Hsome. destruct Hsome as [? Hnone].
    discriminate Hnone.
  - unfold extraction_fields. intros Hk.
    repeat (apply elem_of_cons in Hk as [->|Hk];
            [repeat (first [ rewrite lookup_insert_eq; eauto
                           | rewrite lookup_insert_ne by discriminate ])|]).
    apply elem_of_nil in Hk. destruct Hk.
Qed.

Lemma extracted_lines_witness :
  length (@extract_lines_from_xml Reference.lib ZeroQuantity.invoice) = 1%nat
  /\ exists line,
       @extract_lines_from_xml Reference.lib ZeroQuantity.invoice !! 0%nat
       = Some line
       /\ line !! "line_id" = Some (PStr "1")
       /\ line !! "description" = Some (PStr "Steel Pipe 10mm")
       /\ line !! "quantity" = Some (PStr "0")
       /\ line !! "unit_price" = Some (PStr "2.00")
       /\ line !! "line_total" = Some (PStr "0.00")
       /\ forall k, is_Some (line !! k) <-> k ∈ extraction_fields.
Proof.
  exact (@extracted_lines_are_numbered_and_defaulted Reference.lib
           ZeroQuantity.invoice 0%nat _ eq_refl).
Defined.

(** ** Sorting what is sorted *)

Section MergeSortSorted.
Context `{PyLib} {A : Type} (lkey : A -> string).

Let in_order (x y : A) : Prop := key_le lkey x y = true.

Lemma sorted_app_l (l r : list A) :
  StronglySorted in_order (l ++ r) -> StronglySorted in_order l.
Proof.
  induction l as [|x l IH]; simpl; intros Hs; [constructor|].
  apply StronglySorted_inv in Hs as [Hs Hx].
  constructor; [apply IH, Hs|].
  apply Forall_app in Hx as [Hx _]. exact Hx.
Qed.

Lemma sorted_app_r (l r : list A) :
  StronglySorted in_order (l ++ r) -> StronglySorted in_order r.
Proof.
  induction l as [|x l IH]; simpl; intros Hs; [exact Hs|].
  apply StronglySorted_inv in Hs as [Hs _]. apply IH, Hs.
Qed.

(** Merging two runs that are already in order end to end appends them. *)
Lemma merge_of_sorted_app (l r : list A) :
  StronglySorted in_order (l ++ r) -> merge_total l r lkey = (l ++ r)%list.
Proof.
  induction l as [|x l IH]; intros Hs.
  - apply merge_nil_l.
  - destruct r as [|y r].
    + rewrite merge_nil_r, app_nil_r. reflexivity.
    + rewrite merge_cons. simpl in Hs.
      apply StronglySorted_inv in Hs as [Hs Hx].
      apply Forall_app in Hx as [_ Hx]. apply Forall_cons in Hx as [Hxy _].
      unfold in_order in Hxy. rewrite Hxy, IH by exact Hs. reflexivity.
Qed.

Lemma merge_sort_of_sorted (arr : list A) :
  StronglySorted in_order arr -> merge_sort_total arr lkey = arr.
Proof.
  funelim (merge_sort_total arr lkey); intros Hs; [reflexivity|].
  rewrite <- (take_drop (length arr / 2) arr) in Hs.
  match goal with
  | H1 : StronglySorted _ (take _ _) -> merge_sort_total (take _ _) _ = _,
    H2 : StronglySorted _ (drop _ _) -> merge_sort_total (drop _ _) _ = _ |- _ =>
      rewrite (H1 (sorted_app_l _ _ Hs)), (H2 (sorted_app_r _ _ Hs))
  end.
  rewrite (merge_of_sorted_app _ _ Hs). apply take_drop.
Qed.

End MergeSortSorted.

(** X4.  [merge_sort] returns a list that is in order by lowered key as it
    is, entry for entry, when the key of every item evaluates; and sorting
    what a sort has returned returns it again: sorting twice is sorting
    once. *)
Theorem merge_sort_keeps_sorted_lists `{PyLib} {A : Type}
    (key : A -> Exc pyval) (arr : list A) :
  (Forall (fun x => exists k, lowered key x = inl k) arr ->
   StronglySorted (fun x y => key_le (lowered_value key) x y = true) arr ->
   merge_sort arr key = inl arr)
  /\ (forall res,
        merge_sort arr key = inl res -> merge_sort res key = inl res).
Proof.
  split.
  - intros Hall Hs. rewrite (merge_sort_evaluated key arr Hall).
    f_equal. apply merge_sort_of_sorted. exact Hs.
  - intros res Hres.
    destruct (merge_sort_returns key arr res Hres) as [-> Hall].
    destruct (merge_sort_spec (lowered_value key) arr) as (Hs & Hperm & _).
    destruct (le_lt_dec (length arr) 1) as [Hshort|Hlong].
    + rewrite merge_sort_total_step.
      destruct (le_lt_dec (length arr) 1); [|lia].
      rewrite merge_sort_step. destruct (le_lt_dec (length arr) 1); [|lia].
      reflexivity.
    + rewrite merge_sort_evaluated.
      * f_equal. apply merge_sort_of_sorted. exact Hs.
      * apply Forall_forall. intros x Hx.
        apply (proj1 (Forall_forall _ _) (Hall Hlong)).
        rewrite <- Hperm. exact Hx.
Qed.

(** ** The artifact directory *)



Lemma csv_lookup_write_eq (fname : string) (f : CsvFile)
    (dir : list (string * CsvFile)) :
  csv_lookup fname (csv_write fname f dir) = Some f.
Proof.
  induction dir as [|[n g] rest IH]; simpl.
  - rewrite String.eqb_refl. reflexivity.
  - destruct (String.eqb n fname) eqn:Hn; simpl; rewrite Hn;
      [reflexivity|exact IH].
Qed.

Lemma csv_lookup_write_ne (fname other : string) (f : CsvFile)
    (dir : list (string * CsvFile)) :
  other <> fname ->
  csv_lookup other (csv_write fname f dir) = csv_lookup other dir.
Proof.
  intros Hne. induction dir as [|[n g] rest IH]; simpl.
  - destruct (String.eqb_spec fname other) as [Heq|_]; [congruence|reflexivity].
  - destruct (String.eqb_spec n fname) as [->|Hn]; simpl.
    + destruct (String.eqb_spec fname other) as [Heq|_];
        [congruence|reflexivity].
    + destruct (String.eqb n other); [reflexivity|exact IH].
Qed.


Example delete_document_on_the_sample :
  let nameless := PDict [("name", PStr "invoice_1")] in
  let blank :=
    PDict [("name", PStr "invoice_1"); ("csv_filename", PStr "")] in
  let busy := Raise OSError "Text file busy" in
  @delete_document Reference.lib Deletion.app Deletion.doc None None
  = inl {| data := {| documents := [];
                      inventory := inventory (data Deletion.app) |};
           csv_dir := [];
           data_file :=
             Some {| documents := [];
                     inventory := inventory (data Deletion.app) |} |}
  /\ @delete_document Reference.lib Deletion.app nameless None None
     = inr (Raise KeyError "'csv_filename'")
  /\ @delete_document Reference.lib Deletion.app blank None None
     = inr (Raise OSError "Is a directory")
  /\ @delete_document Reference.lib Deletion.app Deletion.doc (Some busy) None
     = inr busy.
Proof. repeat split; by_evaluation. Qed.

(** ** A run of [process_invoice] *)

Section ProcessInvoice.
Context `{PyLib}.

Lemma alloc_lines_lookup (lines : list dict) : forall (i r : nat),
  (list_to_map (zip (seq i (length lines)) lines) : heap) !! r
  = if decide (i <= r)%nat then lines !! (r - i)%nat else None.
Proof.
  induction lines as [|line rest IH]; intros i r; simpl.
  - rewrite lookup_empty. destruct (decide _); reflexivity.
  - rewrite lookup_insert. destruct (decide (i = r)) as [->|Hne].
    + rewrite decide_True by lia. rewrite Nat.sub_diag. reflexivity.
    + rewrite IH. destruct (decide (S i <= r)%nat), (decide (i <= r)%nat);
        try lia; [|reflexivity].
      replace (r - i)%nat with (S (r - S i)) by lia. reflexivity.
Qed.

Lemma extract_lines_from_quantity (items : list InvoiceLineElement) : forall n,
  Forall (fun line => exists s, line !! "quantity" = Some (PStr s))
    (extract_lines_from n items).
Proof.
  induction items as [|item rest IH]; intros n; simpl; constructor; [|apply IH].
  eexists. unfold extract_line.
  rewrite lookup_insert_ne by discriminate.
  rewrite lookup_insert_ne by discriminate.
  apply lookup_insert_eq.
Qed.

(** A line whose quantity is a [str] never makes the ledger loop raise. *)
Lemma add_item_str_quantity (item : dict) (inv : gmap string float) (s : string) :
  item !! "quantity" = Some (PStr s) ->
  exists inv', add_item item inv = inl inv'.
Proof.
  intros Hq. unfold add_item, line_get. rewrite Hq. simpl default.
  destruct (truthy _ && truthy _); [|eauto].
  simpl. destruct (float_of_str s); simpl; eauto.
Qed.

Lemma add_items_str_quantity (items : list dict) : forall inv,
  Forall (fun line => exists s, line !! "quantity" = Some (PStr s)) items ->
  exists inv', add_items items inv = inl inv'.
Proof.
  induction items as [|item rest IH]; intros inv Hq; simpl; [eauto|].
  apply Forall_cons in Hq as [[s Hs] Hrest].
  destruct (add_item_str_quantity item inv s Hs) as [inv1 ->]. simpl.
  apply IH, Hrest.
Qed.

(** The lines after matching still carry the quantity strings of extraction. *)
Lemma standardized_quantity (items : list InvoiceLineElement) df code_col
    desc_col min_score h' results :
  let lines := extract_lines_from_xml items in
  fuzzy_match_loop df code_col desc_col min_score (seq 0 (length lines))
    (list_to_map (zip (seq 0 (length lines)) lines)) [] = (h', results) ->
  length results = length items
  /\ Forall (fun line => exists s, line !! "quantity" = Some (PStr s))
       (map (deref h') results).
Proof.
  intros lines Hloop.
  apply fuzzy_match_loop_spec in Hloop as (-> & Hframe & _). simpl.
  split; [rewrite length_seq; apply extract_lines_from_length|].
  apply Forall_forall. intros line Hline.
  apply list_elem_of_fmap in Hline as (r & -> & Hr).
  apply elem_of_seq in Hr as [_ Hr]. simpl in Hr.
  rewrite Hframe by (apply extraction_not_annotation;
                     unfold extraction_fields; set_solver).
  unfold deref. rewrite alloc_lines_lookup. rewrite decide_True by lia.
  rewrite Nat.sub_0_r.
  destruct (lookup_lt_is_Some_2 lines r Hr) as [line Hl]. rewrite Hl. simpl.
  pose proof (extract_lines_from_quantity items 1) as Hall.
  eapply Forall_forall in Hall; [exact Hall|].
  apply list_elem_of_lookup. exists r. exact Hl.
Qed.

End ProcessInvoice.

(** What a run that returns has gone through. *)
Lemma process_invoice_returned `{PyLib}
    (app app' : App) (xml : Exc (list InvoiceLineElement))
    (excel : Exc DataFrame) (to_csv dump : option exn)
    (timestamp today xml_name : string) (doc : pyval) :
  process_invoice app xml excel to_csv dump timestamp today xml_name
    = inl (doc, app') ->
  exists items df matched file,
    xml = inl items /\ excel = inl df
    /\ to_csv = None /\ dump = None
    /\ (2 <= length (columns df))%nat
    /\ (matched <= length items)%nat
    /\ doc = new_document xml_name
               (timestamp ++ "_" ++ xml_name ++ "_standardized.csv") today
               (length items) matched
    /\ merge_sort (documents (data app) ++ [doc]) name_key
       = inl (documents (data app'))
    /\ csv_dir app'
       = csv_write (timestamp ++ "_" ++ xml_name ++ "_standardized.csv") file
           (csv_dir app)
    /\ data_file app' = Some (data app').
Proof.
  unfold process_invoice. intros Hrun.
  destruct xml as [items|e]; simpl in Hrun; [|inversion Hrun].
  destruct excel as [df|e]; simpl in Hrun; [|inversion Hrun].
  unfold fuzzy_match_descriptions in Hrun.
  destruct (columns df) as [|code_col [|desc_col cols]] eqn:Hcols;
    simpl in Hrun; [inversion Hrun|inversion Hrun|].
  destruct (fuzzy_match_loop df code_col desc_col DEFAULT_MIN_SCORE
              (seq 0 (length (extract_lines_from_xml items)))
              (list_to_map (zip (seq 0 (length (extract_lines_from_xml items)))
                              (extract_lines_from_xml items))) [])
    as [h' results] eqn:Hloop.
  destruct (standardized_quantity items _ _ _ _ _ _ Hloop) as [Hlen _].
  simpl in Hrun.
  destruct to_csv as [e|]; [inversion Hrun|].
  match type of Hrun with
  | context [add_items ?l ?i] => destruct (add_items l i)
  end; simpl in Hrun; [|inversion Hrun].
  match type of Hrun with
  | context [merge_sort ?l ?k] => destruct (merge_sort l k) as [docs|] eqn:Hsort
  end; simpl in Hrun; [|inversion Hrun].
  destruct dump as [e|]; [inversion Hrun|].
  injection Hrun as <- <-. simpl.
  unfold extract_lines_from_xml in *.
  rewrite extract_lines_from_length in *.
  eexists items, df, _, _.
  split; [reflexivity|]. split; [reflexivity|]. split; [reflexivity|].
  split; [reflexivity|]. split; [rewrite Hcols; simpl; lia|].
  split; [|split; [reflexivity|split; [exact Hsort|split; reflexivity]]].
  etransitivity; [apply filter_length_le|].
  rewrite length_map, Hlen. reflexivity.
Qed.

(** X6.  A run of [process_invoice] that returns has parsed the invoice and
    written both files.  The new registry entry carries the invoice name,
    the artifact name built from the time stamp and that name, the date,
    the number of line elements as [lines_count], and a [matched_count]
    that does not exceed it; it is in the registry; its artifact is in the
    directory, the other files of the directory are as they were; the store
    is saved. *)
Theorem process_invoice_registers_and_stores `{PyLib}
    (app app' : App) (xml : Exc (list InvoiceLineElement))
    (excel : Exc DataFrame) (to_csv dump : option exn)
    (timestamp today xml_name : string) (doc : pyval) :
  process_invoice app xml excel to_csv dump timestamp today xml_name
    = inl (doc, app') ->
  let fname := timestamp ++ "_" ++ xml_name ++ "_standardized.csv" in
  exists items matched,
    xml = inl items
    /\ doc = PDict [("name", PStr xml_name);
                    ("csv_filename", PStr fname);
                    ("date", PStr today);
                    ("lines_count", PInt (Z.of_nat (length items)));
                    ("matched_count", PInt (Z.of_nat matched))]
    /\ (matched <= length items)%nat
    /\ doc ∈ documents (data app')
    /\ is_Some (csv_lookup fname (csv_dir app'))
    /\ (forall other, other <> fname ->
          csv_lookup other (csv_dir app') = csv_lookup other (csv_dir app))
    /\ data_file app' = Some (data app')
    /\ to_csv = None /\ dump = None.
Proof.
  intros Hrun fname.
  apply process_invoice_returned in Hrun
    as (items & df & matched & file & -> & -> & -> & -> & _ & Hm & Hdoc
        & Hsort & Hdir & Hfile).
  exists items, matched. fold fname in Hdoc, Hdir.
  split; [reflexivity|]. split; [exact Hdoc|]. split; [exact Hm|].
  split; [|split; [|split; [|split; [exact Hfile|split; reflexivity]]]].
  - destruct (merge_sort_returns _ _ _ Hsort) as [Hres _].
    rewrite Hres.
    eapply elem_of_Permutation_proper;
      [apply (proj1 (proj2 (merge_sort_spec _ _)))|].
    apply elem_of_app. right. left.
  - rewrite Hdir, csv_lookup_write_eq. eauto.
  - intros other Hne. rewrite Hdir. apply csv_lookup_write_ne, Hne.
Qed.

Lemma process_invoice_witness :
  let doc := SampleRun.doc_of SampleRun.run in
  let app' := SampleRun.app_of SampleRun.run in
  let fname := "20240102_093000_BETA_standardized.csv" in
  exists items matched,
    (inl SampleRun.invoice : Exc (list InvoiceLineElement)) = inl items
    /\ doc = PDict [("name", PStr "BETA");
                    ("csv_filename", PStr fname);
                    ("date", PStr "2024-01-02 09:30");
                    ("lines_count", PInt (Z.of_nat (length items)));
                    ("matched_count", PInt (Z.of_nat matched))]
    /\ (matched <= length items)%nat
    /\ doc ∈ documents (data app')
    /\ is_Some (csv_lookup fname (csv_dir app'))
    /\ (forall other, other <> fname ->
          csv_lookup other (csv_dir app')
          = csv_lookup other (csv_dir SampleRun.app0))
    /\ data_file app' = Some (data app')
    /\ (None : option exn) = None /\ (None : option exn) = None.
Proof.
  apply (@process_invoice_registers_and_stores Reference.lib
           SampleRun.app0 _ (inl SampleRun.invoice) (inl Sample.catalog)
           None None "20240102_093000" "2024-01-02 09:30" "BETA").
  by_evaluation.
Defined.

(** X7.  [process_invoice] raises wherever a stage raises.  When the
    invoice does not parse, or the catalog cannot be read, it raises that
    very exception; when the catalog has fewer than two columns it raises
    [ValueError]; when the artifact cannot be written it raises the
    exception of the write.  With a registry that holds an entry without a
    [str] under ["name"] it does not return: the sort takes the name of
    every entry once the new one is appended.  When the store cannot be
    written it does not return either. *)
Theorem process_invoice_raises_where_a_stage_raises `{PyLib}
    (app : App) (xml : Exc (list InvoiceLineElement)) (excel : Exc DataFrame)
    (to_csv dump : option exn) (timestamp today xml_name : string) :
  let run :=
    process_invoice app xml excel to_csv dump timestamp today xml_name in
  (forall e, xml = inr e -> run = inr e)
  /\ (forall items e, xml = inl items -> excel = inr e -> run = inr e)
  /\ (forall items df,
        xml = inl items -> excel = inl df ->
        (length (columns df) < 2)%nat ->
        run = inr (Raise ValueError
                     "Excel-ul trebuie sa aiba minim 2 coloane (cod + descriere)"))
  /\ (forall items df e,
        xml = inl items -> excel = inl df ->
        (2 <= length (columns df))%nat ->
        to_csv = Some e -> run = inr e)
  /\ (forall d,
        d ∈ documents (data app) ->
        (forall s, subscript d "name" <> inl (PStr s)) ->
        exists e, run = inr e)
  /\ (forall e, dump = Some e -> exists e', run = inr e').
Proof.
  intros run. subst run.
  split; [|split; [|split; [|split; [|split]]]].
  - intros e ->. reflexivity.
  - intros items e -> ->. reflexivity.
  - intros items df -> -> Hlen. unfold process_invoice. simpl.
    unfold fuzzy_match_descriptions.
    destruct (columns df) as [|code_col [|desc_col cols]];
      [reflexivity|reflexivity|]. simpl in Hlen. lia.
  - intros items df e -> -> Hlen ->. unfold process_invoice. simpl.
    unfold fuzzy_match_descriptions.
    destruct (columns df) as [|code_col [|desc_col cols]];
      [simpl in Hlen; lia|simpl in Hlen; lia|]. reflexivity.
  - intros d Hd Hname.
    destruct (process_invoice app xml excel to_csv dump timestamp today
                xml_name) as [[doc app']|e] eqn:Hrun; [|eauto].
    exfalso.
    apply process_invoice_returned in Hrun
      as (items & df & matched & file & _ & _ & _ & _ & _ & _ & _ & Hsort & _).
    destruct (merge_sort_returns _ _ _ Hsort) as [_ Hkeys].
    assert (Hlong : (1 < length (documents (data app) ++ [doc])%list)%nat).
    { rewrite length_app. simpl.
      destruct (documents (data app));
        [apply elem_of_nil in Hd; destruct Hd|simpl; lia]. }
    specialize (Hkeys Hlong).
    assert (Hin : d ∈ (documents (data app) ++ [doc])%list)
      by (apply elem_of_app; left; exact Hd).
    destruct (proj1 (Forall_forall _ _) Hkeys d Hin) as [k Hk].
    apply lowered_name_key in Hk as (s & Hs & _).
    exact (Hname s Hs).
  - intros e ->.
    destruct (process_invoice app xml excel to_csv (Some e) timestamp today
                xml_name) as [[doc app']|e'] eqn:Hrun; [|eauto].
    apply process_invoice_returned in Hrun
      as (items & df & matched & file & _ & _ & _ & Hdump & _).
    discriminate Hdump.
Qed.

Example process_invoice_on_a_nameless_entry :
  let nameless := PDict [("csv_filename", PStr "old.csv")] in
  @process_invoice Reference.lib
    (set_documents SampleRun.app0 [nameless])
    (inl SampleRun.invoice) (inl Sample.catalog) None None
    "20240102_093000" "2024-01-02 09:30" "BETA"
  = inr (Raise KeyError "'name'").
Proof. cbv zeta. by_evaluation. Qed.

(** ** Recomputing and deleting together *)


(** X8.  [recalculate_inventory], once confirmed, builds the ledger from the
    artifact directory alone: the ledger it finds plays no part, the
    registry and the directory are left as they are, and recomputing again
    changes nothing.  Declined, it changes nothing at all. *)
Theorem recalculate_inventory_depends_on_the_directory_only `{PyLib}
    (app : App) (ledger : gmap string float) :
  ModernApp.recalculate_inventory (ModernApp.recalculate_inventory app true) true
  = ModernApp.recalculate_inventory app true
  /\ inventory (data (ModernApp.recalculate_inventory
                        (set_inventory app ledger) true))
     = inventory (data (ModernApp.recalculate_inventory app true))
  /\ documents (data (ModernApp.recalculate_inventory app true))
     = documents (data app)
  /\ csv_dir (ModernApp.recalculate_inventory app true) = csv_dir app
  /\ data_file (ModernApp.recalculate_inventory app true)
     = Some (data (ModernApp.recalculate_inventory app true))
  /\ ModernApp.recalculate_inventory app false = app.
Proof.
  unfold ModernApp.recalculate_inventory, save_data, set_inventory. simpl.
  repeat split.
Qed.



(** A row whose name reads as a number comes back from the tree as an
    [int], and finds no entry: nothing is deleted. *)
Example delete_document_of_a_numeric_name :
  let doc := new_document "12345" "12345.csv" "2024-01-01 10:00" 1 1 in
  let app :=
    {| data := {| documents := [doc]; inventory := ∅ |};
       csv_dir := [("12345.csv", Orphan.artifact)];
       data_file := None |} in
  @ModernApp.delete_document_bound Reference.lib app
    (Some {| item_name := PInt 12345; item_tags := [PStr "12345.csv"] |}) true
  = app.
Proof. cbv zeta. by_evaluation. Qed.

(** ** The first [delete_document] of the window *)

Lemma ledger_subtract_shrinks (desc : string) (qty : float)
    (inv : gmap string float) (k : string) :
  is_Some (ledger_subtract desc qty inv !! k) -> is_Some (inv !! k).
Proof.
  unfold ledger_subtract. destruct (inv !! desc) as [old|] eqn:Hd; [|auto].
  destruct ((old - qty) <=? 0)%float.
  - destruct (decide (desc = k)) as [->|Hne].
    + rewrite lookup_delete_eq. intros [? Hnone]. discriminate Hnone.
    + rewrite lookup_delete_ne by exact Hne. auto.
  - destruct (decide (desc = k)) as [->|Hne].
    + intros _. eauto.
    + rewrite lookup_insert_ne by exact Hne. auto.
Qed.

Lemma ledger_subtract_other (desc : string) (qty : float)
    (inv : gmap string float) (k : string) :
  desc <> k -> ledger_subtract desc qty inv !! k = inv !! k.
Proof.
  intros Hne. unfold ledger_subtract. destruct (inv !! desc) as [old|]; [|auto].
  destruct ((old - qty) <=? 0)%float.
  - apply lookup_delete_ne, Hne.
  - apply lookup_insert_ne, Hne.
Qed.

Section FirstDelete.
Context `{PyLib}.

Lemma subtract_row_cases df row inv inv' :
  ModernApp.subtract_row df row inv = inl inv' ->
  inv' = inv
  \/ exists qty,
       inv' = ledger_subtract (py_str (cell row "matched_description")) qty inv.
Proof.
  unfold ModernApp.subtract_row.
  destruct (ModernApp.has_column df "matched_description");
    [|intros [= <-]; left; reflexivity].
  destruct (_ && _); [|intros [= <-]; left; reflexivity].
  destruct (py_float _) as [qty|e].
  - intros [= <-]. right. eauto.
  - destruct (is_value_or_type_error e); [|intros Hx; inversion Hx].
    intros [= <-]. left. reflexivity.
Qed.

Lemma subtract_rows_spec df rws : forall inv k,
  let inv' := (ModernApp.rows_loop (ModernApp.subtract_row df) rws inv).1 in
  (is_Some (inv' !! k) -> is_Some (inv !! k))
  /\ (Forall (fun row => py_str (cell row "matched_description") <> k) rws ->
      inv' !! k = inv !! k).
Proof.
  induction rws as [|row rest IH]; intros inv k; simpl; [auto|].
  destruct (ModernApp.subtract_row df row inv) as [inv1|e] eqn:Hrow; [|auto].
  destruct (IH inv1 k) as [IHs IHo].
  apply subtract_row_cases in Hrow as [-> | [qty ->]]; split.
  - exact IHs.
  - intros Hall. apply Forall_cons in Hall as [_ Hall]. apply IHo, Hall.
  - intros Hk. eapply ledger_subtract_shrinks, IHs, Hk.
  - intros Hall. apply Forall_cons in Hall as [Hne Hall].
    rewrite IHo by exact Hall. apply ledger_subtract_other, Hne.
Qed.

End FirstDelete.

Lemma subtract_artifact_frame `{PyLib} (app app1 : App) (tags : list pyval)
    (k : string) :
  ModernApp.subtract_artifact app tags = inl app1 ->
  documents (data app1) = documents (data app)
  /\ csv_dir app1 = csv_dir app
  /\ (is_Some (inventory (data app1) !! k) ->
      is_Some (inventory (data app) !! k))
  /\ (forall fname df,
        head tags = Some (PStr fname) ->
        csv_lookup fname (csv_dir app) = Some (CsvTable df) ->
        Forall (fun row => py_str (cell row "matched_description") <> k)
          (rows df) ->
        inventory (data app1) !! k = inventory (data app) !! k).
Proof.
  unfold ModernApp.subtract_artifact.
  destruct (head tags) as [tag|]; [|intros [= <-]; repeat split; auto].
  destruct (truthy tag); [|intros [= <-]; repeat split; auto].
  destruct tag as [| | | |fname| |]; try discriminate.
  destruct (csv_lookup fname (csv_dir app)) as [[df|]|] eqn:Hfile;
    [|intros [= <-]; repeat split; auto; intros ? ? [= <-] Hf;
      rewrite Hfile in Hf; discriminate Hf
     |intros [= <-]; repeat split; auto; intros ? ? [= <-] Hf;
      rewrite Hfile in Hf; discriminate Hf].
  pose proof (subtract_rows_spec df (rows df) (inventory (data app)) k)
    as [Hs Ho].
  destruct (ModernApp.rows_loop _ _ _) as [inv [|]]; simpl in *;
    intros [= <-]; simpl; (split; [reflexivity|]); (split; [reflexivity|]);
    (split; [exact Hs|]); intros fname' df' [= <-] Hf;
    rewrite Hfile in Hf; injection Hf as <-; exact Ho.
Qed.

(** What the end of both definitions does to the registry and the directory
    depends on the registry and the directory only. *)
Lemma find_and_delete_frame `{PyLib} (a b : App) (doc_name : pyval) :
  documents (data a) = documents (data b) ->
  csv_dir a = csv_dir b ->
  documents (data (ModernApp.find_and_delete a doc_name))
  = documents (data (ModernApp.find_and_delete b doc_name))
  /\ csv_dir (ModernApp.find_and_delete a doc_name)
     = csv_dir (ModernApp.find_and_delete b doc_name).
Proof.
  intros Hdocs Hdir. unfold ModernApp.find_and_delete. rewrite Hdocs.
  destruct (ModernApp.find_by_name _ _) as [[doc|]|e]; [|auto|auto].
  destruct (truthy doc); [|auto].
  unfold delete_document.
  destruct (subscript doc "csv_filename") as [v|e]; simpl; [|auto].
  destruct v as [| | | |fname| |]; simpl; auto.
  destruct (names_directory _); simpl; [auto|].
  rewrite Hdocs, Hdir.
  destruct (csv_lookup fname (csv_dir b)); simpl; auto.
Qed.

(** X10.  The first [delete_document] of the window does to the registry and
    to the artifact directory what the second one does, when the tag of the
    selected row can be joined to the directory path (it is a [str], or it
    is falsy, or the row has no tag); with a truthy tag that is not a [str]
    it raises before anything is changed.  In the ledger it never adds a
    description, and when the selected artifact is a table it leaves alone
    every description that no row of the table names. *)
Theorem first_delete_document_only_lowers_the_ledger `{PyLib}
    (app : App) (selection : option TreeItem) (confirmed : bool) (k : string) :
  let first := ModernApp.delete_document_first app selection confirmed in
  let second := ModernApp.delete_document_second app selection confirmed in
  ((forall item tag,
      selection = Some item -> head (item_tags item) = Some tag ->
      truthy tag = true -> exists s, tag = PStr s) ->
   documents (data first) = documents (data second)
   /\ csv_dir first = csv_dir second)
  /\ (forall item tag,
        selection = Some item -> head (item_tags item) = Some tag ->
        truthy tag = true -> (forall s, tag <> PStr s) ->
        first = app)
  /\ (is_Some (inventory (data first) !! k) ->
      is_Some (inventory (data app) !! k))
  /\ (forall item fname df,
        selection = Some item ->
        head (item_tags item) = Some (PStr fname) ->
        csv_lookup fname (csv_dir app) = Some (CsvTable df) ->
        Forall (fun row => py_str (cell row "matched_description") <> k)
          (rows df) ->
        inventory (data first) !! k = inventory (data app) !! k).
Proof.
  unfold ModernApp.delete_document_first, ModernApp.delete_document_second.
  destruct selection as [item|];
    [|simpl; split; [auto|split; [|split; [auto|]]]; intros; discriminate].
  destruct confirmed; cbn [negb];
    [|split; [auto|split; [auto|split; [auto|auto]]]].
  destruct (ModernApp.subtract_artifact app (item_tags item)) as [app1|e]
    eqn:Hsub.
  - destruct (subtract_artifact_frame app app1 (item_tags item) k Hsub)
      as (Hdocs & Hdir & Hs & Ho).
    split; [|split; [|split]].
    + intros _.
      exact (find_and_delete_frame app1 app (item_name item) Hdocs Hdir).
    + intros item' tag [= <-] Hhead Htrue Hstr. exfalso.
      unfold ModernApp.subtract_artifact in Hsub.
      rewrite Hhead, Htrue in Hsub.
      destruct tag; try discriminate Hsub. exact (Hstr _ eq_refl).
    + rewrite find_and_delete_inventory. exact Hs.
    + intros item' fname df [= <-]. rewrite find_and_delete_inventory.
      apply Ho.
  - split; [|split; [reflexivity|split; [auto|reflexivity]]].
    intros Hjoin. exfalso.
    unfold ModernApp.subtract_artifact in Hsub.
    destruct (head (item_tags item)) as [tag|] eqn:Hhead; [|discriminate].
    pose proof (Hjoin item tag eq_refl Hhead) as Hjoin'.
    destruct (truthy tag) eqn:Htrue; [|discriminate].
    destruct (Hjoin' eq_refl) as [s ->].
    destruct (csv_lookup s (csv_dir app)) as [[df|]|]; try discriminate.
    destruct (ModernApp.rows_loop _ _ _) as [inv [|]]; discriminate.
Qed.

(** On the sample the first definition empties the ledger; with the tag read
    back as a number it raises, and the document stays. *)
Example first_delete_document_on_a_numeric_tag :
  @ModernApp.delete_document_first Reference.lib Deletion.app
    (Some {| item_name := PStr "invoice_1"; item_tags := [PInt 2024] |}) true
  = Deletion.app.
Proof. by_evaluation. Qed.

(** ** The arbiter's answers *)

(** A status that is not one of the arbiter's, and a status of the list. *)
Ltac status_absurd :=
  match goal with
  | H : _ ∈ arbiter_statuses |- _ =>
      unfold arbiter_statuses in H;
      repeat (apply elem_of_cons in H as [H | H]; [discriminate H|]);
      apply elem_of_nil in H; destruct H
  end.

Ltac status_member :=
  unfold engine_statuses, arbiter_statuses; simpl;
  repeat first [apply list_elem_of_here | apply list_elem_of_further].

Section ArbiterOutcomes.
Context `{PyLib}.
Import GeminiMatcher.

Lemma parse_body_status text candidates r :
  parse_body text candidates = inl r -> res_status r ∈ arbiter_statuses.
Proof.
  unfold parse_body, arbiter_statuses.
  destruct (json_loads (unfenced text)) as [gemini_result|]; [|discriminate].
  destruct (value_get gemini_result "selected_code" PNone) as [sel|]; simpl;
    [|discriminate].
  destruct (value_get gemini_result "confidence" (PFloat 0.5)) as [cv|]; simpl;
    [|discriminate].
  destruct (py_float cv) as [conf|]; simpl; [|discriminate].
  destruct (value_get gemini_result "reasoning" _) as [reasoning|]; simpl;
    [|discriminate].
  destruct (is_null_selection sel).
  - intros [= <-]. simpl. set_solver.
  - destruct (find_candidate candidates sel) as [[c|]|]; simpl;
      [| |discriminate].
    + intros [= <-]. simpl. set_solver.
    + destruct (first_candidate candidates) as [best|]; simpl; [|discriminate].
      intros [= <-]. simpl. set_solver.
Qed.

Lemma parse_status text candidates r :
  _parse_gemini_response text candidates = inl r ->
  res_status r ∈ arbiter_statuses.
Proof.
  unfold _parse_gemini_response.
  destruct (parse_body text candidates) as [r0|e] eqn:Hbody.
  - intros [= <-]. eapply parse_body_status, Hbody.
  - destruct (is_value_or_key_error e); [|discriminate].
    destruct (first_candidate candidates) as [best|]; simpl; [|discriminate].
    intros [= <-]. unfold arbiter_statuses. simpl. set_solver.
Qed.

Lemma analyze_status generate_content desc best rest n :
  res_status (analyze_candidates generate_content desc (best :: rest) n)
  ∈ arbiter_statuses.
Proof.
  unfold analyze_candidates. rewrite candidates_to_analyze_all.
  destruct (generate_content _) as [text|e]; simpl;
    [|unfold arbiter_statuses; set_solver].
  destruct (_parse_gemini_response text (best :: rest)) as [r|e] eqn:Hparse;
    simpl; [|unfold arbiter_statuses; set_solver].
  eapply parse_status, Hparse.
Qed.

(** A line after its turn of the loop of [match_descriptions]. *)
Lemma match_line_annotated g df code_col desc_col min_score thr (d : dict) :
  let annotated := (match_line g df code_col desc_col min_score thr d).1 in
  exists st f,
    annotated !! "status" = Some (PStr st)
    /\ st ∈ engine_statuses
    /\ is_Some (annotated !! "matched_code")
    /\ is_Some (annotated !! "matched_description")
    /\ annotated !! "score" = Some (PFloat f)
    /\ (st ∈ arbiter_statuses ->
        is_Some (annotated !! "reasoning")
        /\ exists fs, annotated !! "fuzzy_score" = Some (PFloat fs)).
Proof.
  unfold match_line.
  destruct (lexical_matches d df code_col desc_col min_score) as [|best others].
  { simpl. exists "fara_potriviri", 0%float.
    repeat (rewrite ?lookup_insert_eq; rewrite ?lookup_insert_ne by discriminate).
    repeat split; eauto; try status_absurd. status_member. }
  assert (Hplain : forall b : bool,
    let annotated :=
      <["status" := PStr (if b then "potrivit_fuzzy"
                          else "fuzzy_confidence_scazut")]>
        (line_update d best) in
    exists st f,
      annotated !! "status" = Some (PStr st)
      /\ st ∈ engine_statuses
      /\ is_Some (annotated !! "matched_code")
      /\ is_Some (annotated !! "matched_description")
      /\ annotated !! "score" = Some (PFloat f)
      /\ (st ∈ arbiter_statuses ->
          is_Some (annotated !! "reasoning")
          /\ exists fs, annotated !! "fuzzy_score" = Some (PFloat fs))).
  { intros b. simpl. unfold line_update.
    exists (if b then "potrivit_fuzzy" else "fuzzy_confidence_scazut"),
      (score best).
    repeat (rewrite ?lookup_insert_eq; rewrite ?lookup_insert_ne by discriminate).
    repeat split; eauto; try (destruct b; status_absurd).
    destruct b; status_member. }
  destruct g as [generate_content|]; [|apply Hplain].
  destruct (score best <? thr)%float; [|apply Hplain].
  pose proof (analyze_status generate_content
                (line_get d "description" (PStr "")) best (take 4 others) 5)
    as Hst.
  change (take 5 (best :: others)) with (best :: take 4 others).
  set (res := analyze_candidates _ _ _ _) in *.
  match goal with |- context [if ?c then _ else _] => destruct c end; simpl.
  - exists (res_status res), (res_confidence res).
    repeat (rewrite ?lookup_insert_eq; rewrite ?lookup_insert_ne by discriminate).
    repeat split; eauto.
    unfold engine_statuses. apply elem_of_app. right. exact Hst.
  - exists "eroare_gemini_fallback", (score best). unfold line_update.
    repeat (rewrite ?lookup_insert_eq; rewrite ?lookup_insert_ne by discriminate).
    repeat split; eauto. status_member.
Qed.

(** An escalated line after its turn. *)
Lemma match_line_escalated generate_content df code_col desc_col min_score thr
    (d : dict) best others :
  lexical_matches d df code_col desc_col min_score = best :: others ->
  (score best <? thr)%float = true ->
  let desc := line_get d "description" (PStr "") in
  let res :=
    analyze_candidates generate_content desc (take 5 (best :: others)) 5 in
  let annotated :=
    (match_line (Some generate_content) df code_col desc_col min_score thr d).1 in
  annotated !! "fuzzy_score" = Some (PFloat (score best))
  /\ annotated !! "reasoning" = Some (res_reasoning res)
  /\ (if sliceable desc then
        annotated !! "matched_code" = Some (res_matched_code res)
        /\ annotated !! "matched_description"
           = Some (res_matched_description res)
        /\ annotated !! "score" = Some (PFloat (res_confidence res))
        /\ annotated !! "status" = Some (PStr (res_status res))
      else
        annotated !! "matched_code" = Some (matched_code best)
        /\ annotated !! "matched_description" = Some (matched_description best)
        /\ annotated !! "score" = Some (PFloat (score best))
        /\ annotated !! "status" = Some (PStr "eroare_gemini_fallback")).
Proof.
  intros Hbest Hlow. unfold match_line. rewrite Hbest, Hlow.
  set (res := analyze_candidates _ _ _ _).
  assert (Hdesc :
    line_get
      (<["fuzzy_score" := PFloat (score best)]>
         (<["reasoning" := res_reasoning res]>
            (<["status" := PStr (res_status res)]>
               (<["score" := PFloat (res_confidence res)]>
                  (<["matched_description" := res_matched_description res]>
                     (<["matched_code" := res_matched_code res]> d))))))
      "description" (PStr "")
    = line_get d "description" (PStr "")).
  { unfold line_get.
    repeat (rewrite lookup_insert_ne by discriminate). reflexivity. }
  rewrite Hdesc.
  destruct (sliceable (line_get d "description" (PStr ""))); simpl;
    unfold line_update;
    repeat split;
    repeat (first [ rewrite lookup_insert_eq; reflexivity
                  | rewrite lookup_insert_ne by discriminate ]).
Qed.

End ArbiterOutcomes.

(** X11.  After [match_descriptions], every line of the batch carries the
    four annotation fields: a status among the seven the engine knows, a
    code, a description and a float score.  When the status is one of the
    arbiter's, the line also carries the arbiter's reasoning and the lexical
    score of its best candidate.  The arbiter's status for an empty
    candidate list ([no_match]) never reaches a line. *)
Theorem every_line_ends_annotated_with_a_known_status `{PyLib}
    (h h' : heap) (lines results : list ref) (df_codes : DataFrame)
    (min_score gemini_threshold : float) (use_gemini : bool)
    (load_gemini : Exc (nat -> string -> Exc string)) (r : ref) :
  match_descriptions h lines df_codes min_score gemini_threshold
    use_gemini load_gemini = inl (h', results) ->
  r ∈ lines ->
  exists st f,
    deref h' r !! "status" = Some (PStr st)
    /\ st ∈ engine_statuses
    /\ String.eqb st "no_match" = false
    /\ is_Some (deref h' r !! "matched_code")
    /\ is_Some (deref h' r !! "matched_description")
    /\ deref h' r !! "score" = Some (PFloat f)
    /\ (st ∈ arbiter_statuses ->
        is_Some (deref h' r !! "reasoning")
        /\ exists fs, deref h' r !! "fuzzy_score" = Some (PFloat fs)).
Proof.
  intros Hrun Hr.
  apply match_descriptions_inv in Hrun
    as (code_col & desc_col & cols & g & _ & _ & Hloop).
  destruct (match_loop_final _ _ _ _ _ _ _ _ _ _ _ _ r Hloop Hr)
    as (n & d & Hfinal & _).
  rewrite Hfinal.
  destruct (match_line_annotated (option_map (fun g0 => g0 n) g) df_codes
              code_col desc_col min_score gemini_threshold d)
    as (st & f & Hst & Hdom & Hc & Hd & Hs & Harb).
  exists st, f. repeat split; try assumption; try (apply Harb; assumption).
  unfold engine_statuses, arbiter_statuses in Hdom. simpl in Hdom.
  repeat (apply elem_of_cons in Hdom as [-> | Hdom]; [reflexivity|]).
  apply elem_of_nil in Hdom. destruct Hdom.
Qed.

Lemma every_line_annotated_witness :
  let run :=
    @match_descriptions Reference.lib Sample.lines_heap [0; 1]%nat
      Sample.catalog DEFAULT_MIN_SCORE DEFAULT_GEMINI_THRESHOLD true
      (inl Sample.backend_C999) in
  exists st f,
    deref (Sample.heap_of run) 1 !! "status" = Some (PStr st)
    /\ st ∈ engine_statuses
    /\ String.eqb st "no_match" = false
    /\ is_Some (deref (Sample.heap_of run) 1 !! "matched_code")
    /\ is_Some (deref (Sample.heap_of run) 1 !! "matched_description")
    /\ deref (Sample.heap_of run) 1 !! "score" = Some (PFloat f)
    /\ (st ∈ arbiter_statuses ->
        is_Some (deref (Sample.heap_of run) 1 !! "reasoning")
        /\ exists fs,
             deref (Sample.heap_of run) 1 !! "fuzzy_score" = Some (PFloat fs)).
Proof.
  apply (@every_line_ends_annotated_with_a_known_status Reference.lib
           Sample.lines_heap _ [0; 1]%nat [0; 1]%nat Sample.catalog
           DEFAULT_MIN_SCORE DEFAULT_GEMINI_THRESHOLD true
           (inl Sample.backend_C999) 1%nat).
  - by_evaluation.
  - set_solver.
Defined.

(** X12.  A line of the batch whose best candidate scores below
    [gemini_threshold], with the arbiter in use: the arbiter is asked about
    the line's description and its first five candidates, and the line takes
    the arbiter's code, description, confidence (as [score]) and status,
    with its reasoning, and keeps the best lexical score as [fuzzy_score].
    When the description cannot be sliced for the progress message, the
    handler puts the best candidate back under [eroare_gemini_fallback];
    [reasoning] and [fuzzy_score] stay as the arbiter's turn wrote them. *)
Theorem escalated_line_takes_the_arbiter_answer `{PyLib}
    (h h' : heap) (lines results : list ref) (df_codes : DataFrame)
    (min_score gemini_threshold : float) (use_gemini : bool)
    (load_gemini : Exc (nat -> string -> Exc string))
    (g : nat -> string -> Exc string)
    (code_col desc_col : string) (cols : list string) (r : ref)
    (best : Candidate) (others : list Candidate) :
  match_descriptions h lines df_codes min_score gemini_threshold
    use_gemini load_gemini = inl (h', results) ->
  columns df_codes = code_col :: desc_col :: cols ->
  r ∈ lines ->
  lexical_matches (deref h r) df_codes code_col desc_col min_score
    = best :: others ->
  gemini_setup use_gemini load_gemini = inl (Some g) ->
  (score best <? gemini_threshold)%float = true ->
  exists n,
    let desc := line_get (deref h r) "description" (PStr "") in
    let res :=
      GeminiMatcher.analyze_candidates (g n) desc (take 5 (best :: others)) 5 in
    deref h' r !! "fuzzy_score" = Some (PFloat (score best))
    /\ deref h' r !! "reasoning" = Some (GeminiMatcher.res_reasoning res)
    /\ (if sliceable desc then
          deref h' r !! "matched_code"
          = Some (GeminiMatcher.res_matched_code res)
          /\ deref h' r !! "matched_description"
             = Some (GeminiMatcher.res_matched_description res)
          /\ deref h' r !! "score"
             = Some (PFloat (GeminiMatcher.res_confidence res))
          /\ deref h' r !! "status"
             = Some (PStr (GeminiMatcher.res_status res))
        else
          deref h' r !! "matched_code" = Some (matched_code best)
          /\ deref h' r !! "matched_description"
             = Some (matched_description best)
          /\ deref h' r !! "score" = Some (PFloat (score best))
          /\ deref h' r !! "status" = Some (PStr "eroare_gemini_fallback")).
Proof.
  intros Hrun Hcols Hr Hbest Hsetup Hlow.
  apply match_descriptions_inv in Hrun
    as (code_col' & desc_col' & cols' & g' & Hcols' & Hsetup' & Hloop).
  rewrite Hcols in Hcols'. injection Hcols' as <- <- <-.
  rewrite Hsetup in Hsetup'. injection Hsetup' as <-.
  destruct (match_loop_final _ _ _ _ _ _ _ _ _ _ _ _ r Hloop Hr)
    as (n & d & Hfinal & Hd).
  exists n. rewrite Hfinal. simpl option_map.
  assert (Hdesc : line_get d "description" (PStr "")
                  = line_get (deref h r) "description" (PStr ""))
    by (unfold line_get; rewrite Hd; reflexivity).
  rewrite <- Hdesc.
  apply match_line_escalated; [|exact Hlow].
  rewrite (lexical_matches_description d (deref h r)) by exact Hd.
  exact Hbest.
Qed.

Lemma escalated_line_witness :
  let run :=
    @match_descriptions FencedAnswer.lib Sample.lines_heap [0; 1]%nat
      Sample.catalog DEFAULT_MIN_SCORE 2%float true
      (inl FencedAnswer.backend) in
  let best :=
    {| matched_code := PStr "C100";
       matched_description := PStr "Steel Pipe 10mm";
       score := 1 |} in
  let others :=
    [ {| matched_code := PStr "C200";
         matched_description := PStr "Copper Wire 2mm";
         score := 0.4 |} ] in
  exists n,
    let desc := line_get (deref Sample.lines_heap 0) "description" (PStr "") in
    let res :=
      @GeminiMatcher.analyze_candidates FencedAnswer.lib
        (FencedAnswer.backend n) desc (take 5 (best :: others)) 5 in
    deref (Sample.heap_of run) 0 !! "fuzzy_score" = Some (PFloat (score best))
    /\ deref (Sample.heap_of run) 0 !! "reasoning"
       = Some (GeminiMatcher.res_reasoning res)
    /\ (if sliceable desc then
          deref (Sample.heap_of run) 0 !! "matched_code"
          = Some (GeminiMatcher.res_matched_code res)
          /\ deref (Sample.heap_of run) 0 !! "matched_description"
             = Some (GeminiMatcher.res_matched_description res)
          /\ deref (Sample.heap_of run) 0 !! "score"
             = Some (PFloat (GeminiMatcher.res_confidence res))
          /\ deref (Sample.heap_of run) 0 !! "status"
             = Some (PStr (GeminiMatcher.res_status res))
        else
          deref (Sample.heap_of run) 0 !! "matched_code"
          = Some (matched_code best)
          /\ deref (Sample.heap_of run) 0 !! "matched_description"
             = Some (matched_description best)
          /\ deref (Sample.heap_of run) 0 !! "score" = Some (PFloat (score best))
          /\ deref (Sample.heap_of run) 0 !! "status"
             = Some (PStr "eroare_gemini_fallback")).
Proof.
  apply (@escalated_line_takes_the_arbiter_answer FencedAnswer.lib
           Sample.lines_heap _ [0; 1]%nat [0; 1]%nat Sample.catalog
           DEFAULT_MIN_SCORE 2%float true (inl FencedAnswer.backend)
           FencedAnswer.backend "code" "description" [] 0%nat
           {| matched_code := PStr "C100";
              matched_description := PStr "Steel Pipe 10mm";
              score := 1 |}
           [ {| matched_code := PStr "C200";
                matched_description := PStr "Copper Wire 2mm";
                score := 0.4 |} ]).
  - by_evaluation.
  - reflexivity.
  - set_solver.
  - by_evaluation.
  - reflexivity.
  - reflexivity.
Defined.

(** X13.  What [analyze_candidates] answers for candidates [best :: rest]
    when nothing goes wrong, and when the backend does:
    - the backend raises: the fallback to [best] that quotes the exception,
      without the [ai_method] mark;
    - the response decodes to an object whose selected code is absent, null
      or the string "null": no code, status [gemini_no_match], with the
      confidence of the response (0.5 when it gives none) and its reasoning
      (a stock sentence when it gives none);
    - the selected code is that of a candidate [c]: the code and description
      of [c], status [gemini_analyzed], confidence and reasoning likewise;
    - the response decodes to something that is not an object: the fallback
      to [best], without the [ai_method] mark. *)
Theorem arbiter_accepts_declines_or_reports_the_backend `{PyLib}
    (generate_content : string -> Exc string) (description : pyval)
    (best : Candidate) (rest : list Candidate) (min_candidates : nat) :
  let candidates := best :: rest in
  let result :=
    GeminiMatcher.analyze_candidates generate_content description candidates
      min_candidates in
  (forall e,
      generate_content (build_analysis_prompt description candidates) = inr e ->
      result = GeminiMatcher._create_fallback_result best (exn_msg e))
  /\ (forall text fields confidence,
        generate_content (build_analysis_prompt description candidates)
          = inl text ->
        json_loads (GeminiMatcher.unfenced text) = Some (PDict fields) ->
        py_float (default (PFloat 0.5) (assoc "confidence" fields))
          = inl confidence ->
        let selected_code := default PNone (assoc "selected_code" fields) in
        let reasoning :=
          default (PStr "Nicio explicatie furnizata") (assoc "reasoning" fields) in
        (GeminiMatcher.is_null_selection selected_code = true ->
         result =
         {| GeminiMatcher.res_matched_code := PNone;
            GeminiMatcher.res_matched_description := PNone;
            GeminiMatcher.res_confidence := confidence;
            GeminiMatcher.res_reasoning := reasoning;
            GeminiMatcher.res_status := "gemini_no_match";
            GeminiMatcher.res_ai_method := Some "gemini" |})
        /\ (forall c,
              GeminiMatcher.is_null_selection selected_code = false ->
              GeminiMatcher.find_candidate candidates selected_code
                = inl (Some c) ->
              result =
              {| GeminiMatcher.res_matched_code := matched_code c;
                 GeminiMatcher.res_matched_description := matched_description c;
                 GeminiMatcher.res_confidence := confidence;
                 GeminiMatcher.res_reasoning := reasoning;
                 GeminiMatcher.res_status := "gemini_analyzed";
                 GeminiMatcher.res_ai_method := Some "gemini" |}))
  /\ (forall text v,
        generate_content (build_analysis_prompt description candidates)
          = inl text ->
        json_loads (GeminiMatcher.unfenced text) = Some v ->
        is_dict v = false ->
        exists cause,
          result = GeminiMatcher._create_fallback_result best cause).
Proof.
  intros candidates result. subst candidates result.
  unfold GeminiMatcher.analyze_candidates.
  rewrite candidates_to_analyze_all.
  split; [|split].
  - intros e ->. reflexivity.
  - intros text fields confidence Hresp Hjson Hconf. rewrite Hresp.
    cbv zeta. simpl bind.
    unfold GeminiMatcher._parse_gemini_response, GeminiMatcher.parse_body.
    rewrite Hjson. simpl. rewrite Hconf. simpl. split.
    + intros ->. reflexivity.
    + intros c -> Hfind. simpl in Hfind. rewrite Hfind. reflexivity.
  - intros text v Hresp Hjson Hdict. rewrite Hresp. simpl bind.
    unfold GeminiMatcher._parse_gemini_response, GeminiMatcher.parse_body.
    rewrite Hjson.
    destruct v; try discriminate Hdict; simpl; eexists; reflexivity.
Qed.

Lemma arbiter_accepts_witness :
  @GeminiMatcher.analyze_candidates FencedAnswer.lib (FencedAnswer.backend 0)
    (PStr "wire") Sample.offered 5
  = {| GeminiMatcher.res_matched_code := PStr "C200";
       GeminiMatcher.res_matched_description := PStr "Copper Wire 2mm";
       GeminiMatcher.res_confidence := 0.8;
       GeminiMatcher.res_reasoning := PStr "wire";
       GeminiMatcher.res_status := "gemini_analyzed";
       GeminiMatcher.res_ai_method := Some "gemini" |}.
Proof.
  refine (proj2
    (proj1 (proj2
      (@arbiter_accepts_declines_or_reports_the_backend FencedAnswer.lib
         (FencedAnswer.backend 0) (PStr "wire") Sample.best_offer
         (tail Sample.offered) 5))
      FencedAnswer.response
      [("selected_code", PStr "C200"); ("confidence", PFloat 0.8);
       ("reasoning", PStr "wire")]
      0.8%float _ _ _)
    {| matched_code := PStr "C200";
       matched_description := PStr "Copper Wire 2mm";
       score := 0.2 |} _ _); by_evaluation.
Defined.

(** ** The text handed to the decoder *)

Lemma json_lines_skips (pre rest : list string) :
  Forall (fun l => opens_object l = false /\ closes_object l = false) pre ->
  GeminiMatcher.json_lines false (pre ++ rest)%list
  = GeminiMatcher.json_lines false rest.
Proof.
  induction 1 as [|l pre [Ho Hc] _ IH]; [reflexivity|].
  unfold opens_object in Ho. unfold closes_object in Hc.
  rewrite <- app_comm_cons. cbn [GeminiMatcher.json_lines].
  rewrite Ho, Hc. simpl. exact IH.
Qed.

Lemma json_lines_inside (mid rest : list string) :
  Forall (fun l => closes_object l = false) mid ->
  GeminiMatcher.json_lines true (mid ++ rest)%list
  = (mid ++ GeminiMatcher.json_lines true rest)%list.
Proof.
  induction 1 as [|l mid Hc _ IH]; [reflexivity|].
  unfold closes_object in Hc.
  rewrite <- !app_comm_cons. cbn [GeminiMatcher.json_lines].
  rewrite Hc. simpl. rewrite IH. reflexivity.
Qed.

(** X14.  A response that opens with a Markdown fence is cut down before
    decoding.  Let [first] be the first line that starts with an opening
    brace or ends with a closing one (white space aside):
    - [first] does both: the text decoded is that line alone;
    - [first] only opens: the text decoded runs from [first] to the first
      later line that ends with a closing brace, both included, whatever
      follows;
    - [first] only closes: nothing is left to decode. *)
Theorem fenced_response_is_cut_at_the_first_closing_line
    (text : string) (pre : list string) (first : string) (rest : list string) :
  startswith (strip text) "```" = true ->
  split_lines (strip text) = (pre ++ first :: rest)%list ->
  Forall (fun l => opens_object l = false /\ closes_object l = false) pre ->
  (opens_object first = true -> closes_object first = true ->
   GeminiMatcher.unfenced text = first)
  /\ (forall mid last post,
        opens_object first = true -> closes_object first = false ->
        rest = (mid ++ last :: post)%list ->
        Forall (fun l => closes_object l = false) mid ->
        closes_object last = true ->
        GeminiMatcher.unfenced text = join_lines (first :: mid ++ [last]))
  /\ (opens_object first = false -> closes_object first = true ->
      GeminiMatcher.unfenced text = EmptyString).
Proof.
  intros Hfence Hlines Hpre. unfold GeminiMatcher.unfenced.
  rewrite Hfence, Hlines, (json_lines_skips _ _ Hpre).
  unfold opens_object, closes_object. split; [|split].
  - intros Ho Hc. cbn [GeminiMatcher.json_lines]. rewrite Ho, Hc. reflexivity.
  - intros mid last post Ho Hc -> Hmid Hlast.
    cbn [GeminiMatcher.json_lines]. rewrite Ho, Hc. simpl orb. cbv iota.
    rewrite (json_lines_inside _ _ Hmid).
    cbn [GeminiMatcher.json_lines]. rewrite Hlast. reflexivity.
  - intros Ho Hc. cbn [GeminiMatcher.json_lines]. rewrite Ho, Hc. reflexivity.
Qed.

Lemma fenced_response_witness :
  GeminiMatcher.unfenced FencedAnswer.response
  = join_lines FencedAnswer.object_lines.
Proof.
  refine (proj1 (proj2
    (fenced_response_is_cut_at_the_first_closing_line FencedAnswer.response
       ["```json"] "{" (tail FencedAnswer.object_lines ++ ["```"]) _ _ _))
    (take 3 (tail FencedAnswer.object_lines)) "}" ["```"] _ _ _ _ _);
    try by_evaluation.
  - repeat constructor.
  - repeat constructor.
Defined.

(** X15.  [analyze_candidates] consults the backend once, on the prompt
    built from the description and all the candidates it was given: two
    backends that answer that prompt alike give the same result, and
    [min_candidates] has no part in it. *)
Theorem arbiter_reads_one_answer_about_all_candidates `{PyLib}
    (generate_content generate_content' : string -> Exc string)
    (description : pyval) (candidates : list Candidate) (n m : nat) :
  generate_content (build_analysis_prompt description candidates)
  = generate_content' (build_analysis_prompt description candidates) ->
  GeminiMatcher.analyze_candidates generate_content description candidates n
  = GeminiMatcher.analyze_candidates generate_content' description candidates m.
Proof.
  intros Hsame. unfold GeminiMatcher.analyze_candidates.
  rewrite !candidates_to_analyze_all.
  destruct candidates as [|best rest]; [reflexivity|].
  rewrite Hsame. reflexivity.
Qed.

Lemma arbiter_one_answer_witness :
  @GeminiMatcher.analyze_candidates Reference.lib (Sample.backend_C999 0)
    (PStr "pipe") Sample.offered 5
  = @GeminiMatcher.analyze_candidates Reference.lib
      (fun prompt =>
         if String.eqb prompt "pipe" then inl Reference.response_C999
         else inl "no answer")
      (PStr "pipe") Sample.offered 0.
Proof.
  apply (@arbiter_reads_one_answer_about_all_candidates Reference.lib
           (Sample.backend_C999 0)
           (fun prompt =>
              if String.eqb prompt "pipe" then inl Reference.response_C999
              else inl "no answer")
           (PStr "pipe") Sample.offered 5 0).
  reflexivity.
Defined.

(** ** Migration and loading, further *)

Section MigrationFacts.
Context `{PyLib}.

Lemma migrate_doc_settled (now now' : string) (doc doc' : pyval) (b : bool) :
  migrate_doc now doc = inl (doc', b) ->
  migrate_doc now' doc' = inl (doc', false).
Proof.
  unfold migrate_doc.
  destruct (is_current_format doc) as [[|]|e] eqn:Hcur; simpl.
  - intros [= <- <-]. rewrite Hcur. reflexivity.
  - destruct (value_get doc "name" _) as [n|]; simpl; [|inversion 1].
    destruct (value_get doc "csv_filename" _) as [fb|]; simpl; [|inversion 1].
    destruct (value_get doc "filename" fb) as [fname|]; simpl; [|inversion 1].
    destruct (value_get doc "date" _) as [dt|]; simpl; [|inversion 1].
    intros [= <- <-]. rewrite is_current_format_dict. reflexivity.
  - inversion 1.
Qed.

Lemma migrate_docs_settled (now now' : string) (docs : list pyval) :
  forall m b,
  migrate_docs now docs = inl (m, b) ->
  migrate_docs now' m = inl (m, false).
Proof.
  induction docs as [|doc rest IH]; intros m b; simpl.
  - intros [= <- <-]. reflexivity.
  - destruct (migrate_doc now doc) as [[d db]|] eqn:Hd; simpl; [|inversion 1].
    destruct (migrate_docs now rest) as [[r rb]|] eqn:Hr; simpl; [|inversion 1].
    intros [= <- <-]. simpl.
    rewrite (migrate_doc_settled _ now' _ _ _ Hd). simpl.
    rewrite (IH _ _ eq_refl). reflexivity.
Qed.



Lemma with_store_keys_documents (fields : list (string * pyval)) :
  assoc "documents" (with_store_keys fields)
  = Some (default (PList []) (assoc "documents" fields)).
Proof.
  unfold with_store_keys.
  set (fields1 := if bool_decide (is_Some (assoc "documents" fields))
                  then fields else dict_set "documents" (PList []) fields).
  assert (Hdocs : assoc "documents" fields1
                  = Some (default (PList []) (assoc "documents" fields))).
  { subst fields1. destruct (assoc "documents" fields) as [v|] eqn:Hd.
    - rewrite bool_decide_eq_true_2 by eauto. exact Hd.
    - rewrite bool_decide_eq_false_2 by (intros [? ?]; discriminate).
      apply assoc_dict_set_eq. }
  clearbody fields1. destruct (bool_decide _); [exact Hdocs|].
  rewrite assoc_dict_set_ne by reflexivity. exact Hdocs.
Qed.

Lemma with_store_keys_inventory (fields : list (string * pyval)) :
  assoc "inventory" (with_store_keys fields)
  = Some (default (PDict []) (assoc "inventory" fields)).
Proof.
  unfold with_store_keys.
  set (fields1 := if bool_decide (is_Some (assoc "documents" fields))
                  then fields else dict_set "documents" (PList []) fields).
  assert (Hinv : assoc "inventory" fields1 = assoc "inventory" fields).
  { subst fields1. destruct (bool_decide _); [reflexivity|].
    apply assoc_dict_set_ne. reflexivity. }
  destruct (assoc "inventory" fields) as [v|] eqn:Hi.
  - rewrite bool_decide_eq_true_2 by (rewrite Hinv; eauto). exact Hinv.
  - rewrite bool_decide_eq_false_2
      by (rewrite Hinv; intros [? ?]; discriminate).
    apply assoc_dict_set_eq.
Qed.


Lemma with_store_keys_settled (fields : list (string * pyval)) :
  is_Some (assoc "documents" fields) -> is_Some (assoc "inventory" fields) ->
  with_store_keys fields = fields.
Proof.
  intros Hd Hi. unfold with_store_keys.
  rewrite (bool_decide_eq_true_2 _ Hd), (bool_decide_eq_true_2 _ Hi).
  reflexivity.
Qed.

Lemma _migrate_old_data_dict (now : string) (fields : list (string * pyval))
    (file : option string) :
  _migrate_old_data now (PDict fields) file
  = let fields := with_store_keys fields in
    let! docs := py_iter (default PNone (assoc "documents" fields)) in
    let! migrated := migrate_docs now docs in
    let data := PDict (dict_set "documents" (PList (fst migrated)) fields) in
    if snd migrated then ret (data, Some (json_dumps data))
    else ret (data, file).
Proof. reflexivity. Qed.

End MigrationFacts.

(** X16.  Migration settles in one pass: when [_migrate_old_data] returns a
    store, running it again on that store (at any later time) returns the
    same store and writes nothing. *)
Theorem migration_settles_after_one_pass `{PyLib}
    (now now' : string) (data data1 : pyval) (file file1 : option string) :
  _migrate_old_data now data file = inl (data1, file1) ->
  _migrate_old_data now' data1 file1 = inl (data1, file1).
Proof.
  destruct data as [| | | | | |fields]; try (inversion 1; fail).
  rewrite _migrate_old_data_dict. cbv zeta.
  rewrite with_store_keys_documents.
  destruct (py_iter _) as [docs|] eqn:Hiter; simpl; [|inversion 1].
  destruct (migrate_docs now docs) as [[m b]|] eqn:Hm; simpl; [|inversion 1].
  intros Hrun.
  assert (Hdata : data1
                  = PDict (dict_set "documents" (PList m) (with_store_keys fields)))
    by (destruct b; injection Hrun as <- _; reflexivity).
  clear Hrun. subst data1.
  rewrite _migrate_old_data_dict. cbv zeta.
  rewrite with_store_keys_settled.
  - rewrite assoc_dict_set_eq. simpl.
    rewrite (migrate_docs_settled _ now' _ _ _ Hm). simpl.
    rewrite (dict_set_same "documents" (PList m)) by apply assoc_dict_set_eq.
    reflexivity.
  - rewrite assoc_dict_set_eq. eauto.
  - rewrite assoc_dict_set_ne by reflexivity.
    rewrite with_store_keys_inventory. eauto.
Qed.

Lemma migration_settles_witness :
  let first :=
    @_migrate_old_data OldStore.lib "2024-01-05 12:00" OldStore.decoded
      (Some OldStore.text) in
  match first with
  | inl (data1, file1) =>
      @_migrate_old_data OldStore.lib "2025-01-01 00:00" data1 file1 = first
  | inr _ => False
  end.
Proof.
  exact (@migration_settles_after_one_pass OldStore.lib "2024-01-05 12:00"
           "2025-01-01 00:00" OldStore.decoded _ (Some OldStore.text) _
           eq_refl).
Defined.





(** ** The matcher of the scanner, line by line *)

Section ScannerMatcher.
Context `{PyLib}.

Lemma fuzzy_match_line_keeps df code_col desc_col min_score (line : dict) k :
  k ∉ scanner_fields ->
  fuzzy_match_line df code_col desc_col min_score line !! k = line !! k.
Proof.
  intros Hk. unfold scanner_fields in Hk.
  repeat (apply not_elem_of_cons in Hk as [? Hk]).
  unfold fuzzy_match_line.
  destruct (lexical_matches line df code_col desc_col min_score);
    frame_inserts.
Qed.

Lemma description_not_scanner_field : "description" ∉ scanner_fields.
Proof.
  unfold scanner_fields. intros Hin.
  repeat (apply elem_of_cons in Hin as [Hin | Hin]; [discriminate Hin|]).
  apply elem_of_nil in Hin. exact Hin.
Qed.

(** After the loop, a line of the batch holds what its last turn wrote; that
    turn read the line as it came, but for the four fields an earlier turn
    on the same line may have written. *)
Lemma fuzzy_match_loop_final df code_col desc_col min_score lines :
  forall h results h' results' r,
  fuzzy_match_loop df code_col desc_col min_score lines h results
    = (h', results') ->
  r ∈ lines ->
  exists d,
    deref h' r = fuzzy_match_line df code_col desc_col min_score d
    /\ forall k, k ∉ scanner_fields -> d !! k = deref h r !! k.
Proof.
  induction lines as [|line rest IH]; intros h results h' results' r Hloop Hr.
  - apply elem_of_nil in Hr. destruct Hr.
  - simpl in Hloop.
    destruct (decide (r ∈ rest)) as [Hin|Hnotin].
    + destruct (IH _ _ _ _ r Hloop Hin) as (d & Hfinal & Hd).
      exists d. split; [exact Hfinal|]. intros k Hk. rewrite (Hd k Hk).
      destruct (decide (line = r)) as [->|Hne].
      * rewrite deref_insert_eq. apply fuzzy_match_line_keeps, Hk.
      * rewrite deref_insert_ne by exact Hne. reflexivity.
    + apply elem_of_cons in Hr as [->|Hr]; [|contradiction].
      apply fuzzy_match_loop_spec in Hloop as (_ & _ & Hother).
      exists (deref h line). split; [|reflexivity].
      unfold deref at 1. rewrite Hother by exact Hnotin.
      rewrite lookup_insert_eq. reflexivity.
Qed.

End ScannerMatcher.

(** X19.  After [fuzzy_match_descriptions], a line of the batch that has a
    candidate carries the code, description and score of its best candidate
    under the status [matched]; a line that has none carries null, null, 0.0
    under [no_match].  Every other field of the line, [reasoning] and
    [fuzzy_score] among them, is as it was: this matcher has two statuses
    and never consults the arbiter. *)
Theorem scanner_matcher_marks_matched_or_no_match `{PyLib}
    (h h' : heap) (lines results : list ref) (df_codes : DataFrame)
    (min_score : float) (code_col desc_col : string) (cols : list string)
    (r : ref) :
  fuzzy_match_descriptions h lines df_codes min_score = inl (h', results) ->
  columns df_codes = code_col :: desc_col :: cols ->
  r ∈ lines ->
  match lexical_matches (deref h r) df_codes code_col desc_col min_score with
  | best :: _ =>
      deref h' r !! "matched_code" = Some (matched_code best)
      /\ deref h' r !! "matched_description" = Some (matched_description best)
      /\ deref h' r !! "score" = Some (PFloat (score best))
      /\ deref h' r !! "status" = Some (PStr "matched")
  | [] =>
      deref h' r !! "matched_code" = Some PNone
      /\ deref h' r !! "matched_description" = Some PNone
      /\ deref h' r !! "score" = Some (PFloat 0)
      /\ deref h' r !! "status" = Some (PStr "no_match")
  end
  /\ forall k, k ∉ scanner_fields -> deref h' r !! k = deref h r !! k.
Proof.
  intros Hrun Hcols Hr.
  apply fuzzy_match_descriptions_inv in Hrun
    as (code_col' & desc_col' & cols' & Hcols' & Hloop).
  rewrite Hcols in Hcols'. injection Hcols' as <- <- <-.
  destruct (fuzzy_match_loop_final _ _ _ _ _ _ _ _ _ r Hloop Hr)
    as (d & Hfinal & Hd).
  rewrite Hfinal. split.
  - rewrite <- (lexical_matches_description d (deref h r))
      by (apply Hd, description_not_scanner_field).
    unfold fuzzy_match_line.
    destruct (lexical_matches d df_codes code_col desc_col min_score)
      as [|best others];
      repeat split;
      repeat (first [ rewrite lookup_insert_eq; reflexivity
                    | rewrite lookup_insert_ne by discriminate ]).
  - intros k Hk. rewrite fuzzy_match_line_keeps by exact Hk. apply Hd, Hk.
Qed.

Lemma scanner_matcher_witness :
  let run :=
    @fuzzy_match_descriptions Reference.lib Sample.lines_heap [0; 1]%nat
      Sample.catalog DEFAULT_MIN_SCORE in
  (deref (Sample.heap_of run) 1 !! "matched_code" = Some PNone
   /\ deref (Sample.heap_of run) 1 !! "matched_description" = Some PNone
   /\ deref (Sample.heap_of run) 1 !! "score" = Some (PFloat 0)
   /\ deref (Sample.heap_of run) 1 !! "status" = Some (PStr "no_match"))
  /\ forall k, k ∉ scanner_fields ->
       deref (Sample.heap_of run) 1 !! k = deref Sample.lines_heap 1 !! k.
Proof.
  apply (@scanner_matcher_marks_matched_or_no_match Reference.lib
           Sample.lines_heap _ [0; 1]%nat [0; 1]%nat Sample.catalog
           DEFAULT_MIN_SCORE "code" "description" [] 1%nat).
  - by_evaluation.
  - reflexivity.
  - set_solver.
Defined.

(** ** Which candidate is best *)

Lemma filter_head_split {A : Type} (P : A -> Prop) `{forall x, Decision (P x)}
    (l : list A) (x : A) (t : list A) :
  filter P l = x :: t ->
  exists pre post, l = (pre ++ x :: post)%list /\ Forall (fun y => ~ P y) pre.
Proof.
  induction l as [|y l IH]; [discriminate|].
  rewrite filter_cons. destruct (decide (P y)) as [Hy|Hy].
  - intros [= -> _]. exists [], l. split; [reflexivity|constructor].
  - intros Hl. destruct (IH Hl) as (pre & post & -> & Hpre).
    exists (y :: pre), post. split; [reflexivity|]. constructor; assumption.
Qed.

Lemma float_leb_refl (x : float) : is_nan x = false -> (x <=? x)%float = true.
Proof.
  intros Hx. apply is_nan_rank in Hx as [a Ha].
  apply float_leb_iff. exists a, a. repeat split; try assumption.
  unfold rank_le. lia.
Qed.

Lemma float_eqb_refl (x : float) : is_nan x = false -> (x =? x)%float = true.
Proof.
  intros Hx. apply is_nan_rank in Hx as [a Ha].
  apply float_eqb_iff. exists a. auto.
Qed.

Lemma float_leb_neq_ltb (x y : float) :
  (x <=? y)%float = true -> (x =? y)%float <> true -> (x <? y)%float = true.
Proof.
  intros Hle Hne. apply float_leb_iff in Hle as (a & b & Ha & Hb & Hle).
  apply float_ltb_iff. exists a, b. repeat split; try assumption.
  assert (Hab : a <> b).
  { intros ->. apply Hne. apply float_eqb_iff. exists b. auto. }
  destruct a as [a1 [a2 a3]], b as [b1 [b2 b3]].
  unfold rank_le in Hle. unfold rank_lt. simpl in *.
  assert (~ (a1 = b1 /\ a2 = b2 /\ a3 = b3))
    by (intros (-> & -> & ->); apply Hab; reflexivity).
  lia.
Qed.

(** X20.  The best candidate of a line is the first catalog row, among those
    that pass the threshold, with the highest rounded score: the rows before
    it score strictly less, the rows after it at most as much. *)
Theorem best_candidate_is_first_row_of_top_score `{PyLib}
    (line : dict) (df_codes : DataFrame) (code_col desc_col : string)
    (min_score : float) (best : Candidate) (others : list Candidate) :
  lexical_matches line df_codes code_col desc_col min_score = best :: others ->
  Forall (fun c => is_nan (score c) = false)
    (rows_by_raw_score line df_codes code_col desc_col min_score) ->
  exists pre post,
    rows_by_raw_score line df_codes code_col desc_col min_score
    = (pre ++ best :: post)%list
    /\ Forall (fun c => (score c <? score best)%float = true) pre
    /\ Forall (fun c => (score c <=? score best)%float = true) post.
Proof.
  unfold lexical_matches. rewrite collect_matches_raw.
  set (kept := rows_by_raw_score line df_codes code_col desc_col min_score).
  intros Hsort Hnan.
  pose proof (sort_by_score_perm kept) as Hperm.
  pose proof (sort_by_score_sorted kept Hnan) as Hsorted.
  pose proof (sort_by_score_stable (score best) kept) as Hstable.
  rewrite Hsort in Hperm, Hsorted, Hstable.
  assert (Hbest : is_nan (score best) = false).
  { rewrite Forall_forall in Hnan. apply Hnan.
    rewrite <- Hperm. left. }
  assert (Hall : Forall (fun c => (score c <=? score best)%float = true) kept).
  { rewrite <- Hperm. constructor; [apply float_leb_refl, Hbest|].
    apply StronglySorted_inv in Hsorted as [_ Hle]. exact Hle. }
  rewrite filter_cons in Hstable.
  destruct (decide ((score best =? score best)%float = true)) as [_|Hne];
    [|exfalso; apply Hne, float_eqb_refl, Hbest].
  symmetry in Hstable.
  apply filter_head_split in Hstable as (pre & post & Hkept & Hpre).
  exists pre, post. split; [exact Hkept|].
  rewrite Hkept in Hall. apply Forall_app in Hall as [Hpre_le Hrest].
  apply Forall_cons in Hrest as [_ Hpost]. split; [|exact Hpost].
  rewrite Forall_forall in *. intros c Hc.
  apply float_leb_neq_ltb; [apply Hpre_le, Hc | apply Hpre, Hc].
Qed.

Lemma best_candidate_witness :
  exists pre post,
    @rows_by_raw_score Reference.lib (Sample.line "1" "Steel Pipe 10mm" "12.5")
      Sample.catalog "code" "description" DEFAULT_MIN_SCORE
    = (pre ++ {| matched_code := PStr "C100";
                 matched_description := PStr "Steel Pipe 10mm";
                 score := 1 |} :: post)%list
    /\ Forall (fun c => (score c <? 1)%float = true) pre
    /\ Forall (fun c => (score c <=? 1)%float = true) post.
Proof.
  apply (@best_candidate_is_first_row_of_top_score Reference.lib
           (Sample.line "1" "Steel Pipe 10mm" "12.5") Sample.catalog
           "code" "description" DEFAULT_MIN_SCORE
           {| matched_code := PStr "C100";
              matched_description := PStr "Steel Pipe 10mm";
              score := 1 |}
           [ {| matched_code := PStr "C200";
                matched_description := PStr "Copper Wire 2mm";
                score := 0.4 |} ]).
  - by_evaluation.
  - vm_compute. repeat constructor.
Defined.
